(** * Radar presence application on FreeRTOS: sensing bridge and terminal UI

    A shallow embedding of [radar_task.c] and [radar_terminal_ui.c].
    The vendor engine, the HAL and the RTOS are reached through a
    [Platform] interface over an abstract world; every call the two
    tasks make is recorded, with its result, in the trace the
    computation emits, the way an instrumented test double would. *)

From Stdlib Require Import ZArith List String Ascii Bool Lia QArith.
From Stdlib Require Import Floats.SpecFloat DecimalString.
From stdpp Require Import base decidable list strings.
Import ListNotations.

Open Scope string_scope.
Open Scope list_scope.
Open Scope Z_scope.

(** ** Data model *)

(** [cy_rslt_t] is a 32-bit status word; the engine's return values are
    converted to it where the code does so. *)
Definition cy_rslt_t := Z.

(** [uint8_t]: one byte of serial input or of a [char] buffer. *)
Definition uint8_t := ascii.

Definition NUL : uint8_t := "000"%char.
Definition CR : uint8_t := "013"%char.
Definition LF : uint8_t := "010"%char.

(** The pins of radar_task.c: three LED macros and the four control
    lines of [hw_cfg]. *)
Inductive gpio_pin :=
| LED_RGB_RED
| LED_RGB_GREEN
| LED_RGB_BLUE
| CYBSP_SPI_CS
| CYBSP_GPIO11
| CYBSP_GPIO5
| CYBSP_GPIO10.

Inductive gpio_direction := CYHAL_GPIO_DIR_INPUT | CYHAL_GPIO_DIR_OUTPUT.

Inductive gpio_drive_mode := CYHAL_GPIO_DRIVE_STRONG | CYHAL_GPIO_DRIVE_PULLDOWN.

#[global] Instance gpio_pin_eq_dec : EqDecision gpio_pin.
Proof. solve_decision. Defined.

Definition LED_STATE_OFF : Z := 0.
Definition LED_STATE_ON : Z := 1.
Definition SPI_FREQUENCY : Z := 25000000.
Definition IFX_RADAR_SENSING_VALUE_MAXLENGTH : Z := 256.

(** Conversion of an integer argument to the [bool] parameter of
    [cyhal_gpio_write] and [cyhal_gpio_init]. *)
Definition to_bool (v : Z) : bool := negb (v =? 0).

(** [mtb_radar_sensing_hw_cfg_t] without the SPI object pointer. *)
Record mtb_radar_sensing_hw_cfg_t := {
  spi_cs : gpio_pin;
  reset : gpio_pin;
  ldo_en : gpio_pin;
  irq : gpio_pin
}.

(** [mtb_radar_sensing_event_t]: the two enumerators the callback
    names, and every other value of the enumeration. *)
Inductive mtb_radar_sensing_event_t :=
| MTB_RADAR_SENSING_EVENT_PRESENCE_IN
| MTB_RADAR_SENSING_EVENT_PRESENCE_OUT
| MTB_RADAR_SENSING_EVENT_OTHER (code : Z).

(** What the callback reads through [event_info]: the timestamp, and
    through the cast to [mtb_radar_sensing_presence_event_info_t] the
    distance and the accuracy. [F] is the C type [float]. *)
Record mtb_radar_sensing_event_info_t (F : Type) := {
  timestamp : Z;
  distance : F;
  accuracy : F
}.
Arguments timestamp {F} _.
Arguments distance {F} _.
Arguments accuracy {F} _.

(** An argument of a [printf] call. *)
Inductive printf_arg (F : Type) :=
| ArgFloat (x : F)
| ArgString (s : string).
Arguments ArgFloat {F} x.
Arguments ArgString {F} s.

(** One call into the platform, recorded when it returns. *)
Inductive action (F : Type) :=
| MutexInit (r : cy_rslt_t)
| MutexGet (timeout_ms : Z) (r : cy_rslt_t)
| MutexRelease (r : cy_rslt_t)
| GpioInit (p : gpio_pin) (d : gpio_direction) (m : gpio_drive_mode) (v : bool) (r : cy_rslt_t)
| GpioWrite (p : gpio_pin) (v : bool)
| SpiInit (bits : Z) (r : cy_rslt_t)
| SpiSetFrequency (hz : Z) (r : cy_rslt_t)
| UartGetc (timeout : Z) (r : cy_rslt_t) (b : uint8_t)
| UartPutc (b : uint8_t) (r : cy_rslt_t)
| EngineInit (cfg : mtb_radar_sensing_hw_cfg_t) (mask : Z) (r : cy_rslt_t)
| EngineRegisterCallback (r : cy_rslt_t)
| EngineSetParameter (name value : string) (r : cy_rslt_t)
| EngineGetParameter (name : string) (maxlen : Z) (r : cy_rslt_t) (value : list uint8_t)
| EngineEnable (r : cy_rslt_t)
| EngineProcess (ts : Z) (r : cy_rslt_t)
| TickCount (ticks : Z)
| TaskDelay (ticks : Z)
| ExitThread (r : cy_rslt_t)
| Printf (fmt : string) (args : list (printf_arg F)).
Arguments MutexInit {F} r.
Arguments MutexGet {F} timeout_ms r.
Arguments MutexRelease {F} r.
Arguments GpioInit {F} p d m v r.
Arguments GpioWrite {F} p v.
Arguments SpiInit {F} bits r.
Arguments SpiSetFrequency {F} hz r.
Arguments UartGetc {F} timeout r b.
Arguments UartPutc {F} b r.
Arguments EngineInit {F} cfg mask r.
Arguments EngineRegisterCallback {F} r.
Arguments EngineSetParameter {F} name value r.
Arguments EngineGetParameter {F} name maxlen r value.
Arguments EngineEnable {F} r.
Arguments EngineProcess {F} ts r.
Arguments TickCount {F} ticks.
Arguments TaskDelay {F} ticks.
Arguments ExitThread {F} r.
Arguments Printf {F} fmt args.

(** ** The platform interface

    Everything the two source files call and do not define: the RTOS
    abstraction, the HAL, the RadarSensing engine, [float] arithmetic,
    and the constants of their headers. [W] is the state of the world
    outside the two tasks (engine, hardware, the other task). *)
Class Platform (W F : Type) := {
  CY_RSLT_SUCCESS : cy_rslt_t;
  MTB_RADAR_SENSING_SUCCESS : cy_rslt_t;
  CY_RTOS_NEVER_TIMEOUT : Z;
  MTB_RADAR_SENSING_MASK_PRESENCE_EVENTS : Z;
  MTB_RADAR_SENSING_PROCESS_DELAY : Z;
  portTICK_PERIOD_MS : Z;
  cy_rtos_init_mutex : W -> cy_rslt_t * W;
  cy_rtos_get_mutex : Z -> W -> cy_rslt_t * W;
  cy_rtos_set_mutex : W -> cy_rslt_t * W;
  cy_rtos_exit_thread : W -> cy_rslt_t * W;
  xTaskGetTickCount : W -> Z * W;
  vTaskDelay : Z -> W -> W;
  cyhal_gpio_init :
    gpio_pin -> gpio_direction -> gpio_drive_mode -> bool -> W -> cy_rslt_t * W;
  cyhal_gpio_write : gpio_pin -> bool -> W -> W;
  cyhal_spi_init : Z -> W -> cy_rslt_t * W;
  cyhal_spi_set_frequency : Z -> W -> cy_rslt_t * W;
  (* [cyhal_uart_getc obj value timeout]: the first argument is the
     content of [*value] before the call, the result carries its
     content after the call *)
  cyhal_uart_getc : uint8_t -> Z -> W -> (cy_rslt_t * uint8_t) * W;
  cyhal_uart_putc : uint8_t -> W -> cy_rslt_t * W;
  mtb_radar_sensing_init : mtb_radar_sensing_hw_cfg_t -> Z -> W -> cy_rslt_t * W;
  mtb_radar_sensing_register_callback : W -> cy_rslt_t * W;
  mtb_radar_sensing_set_parameter : string -> string -> W -> cy_rslt_t * W;
  (* the result carries the content of the output buffer after the call *)
  mtb_radar_sensing_get_parameter : string -> Z -> W -> (cy_rslt_t * list uint8_t) * W;
  mtb_radar_sensing_enable : W -> cy_rslt_t * W;
  (* the process step returns its status and the events it hands to the
     registered callback, in order *)
  mtb_radar_sensing_process :
    Z -> W ->
    (cy_rslt_t * list (mtb_radar_sensing_event_t * mtb_radar_sensing_event_info_t F)) * W;
  float_of_uint64 : Z -> F;
  float_of_int : Z -> F;
  fadd : F -> F -> F;
  fsub : F -> F -> F;
  fdiv : F -> F -> F
}.

(** ** Computations of a task *)

(** How a run of a task function ends: it returns, it stops in
    [CY_ASSERT(0)], it stores outside the array it was given, or it is
    still inside a loop when the bound on observed iterations is used
    up. Each case carries the world and the calls made so far. *)
Inductive outcome (W F A : Type) :=
| Returned (a : A) (w : W) (t : list (action F))
| Halted (w : W) (t : list (action F))
| Undefined (w : W) (t : list (action F))
| Running (w : W) (t : list (action F)).
Arguments Returned {W F A} a w t.
Arguments Halted {W F A} w t.
Arguments Undefined {W F A} w t.
Arguments Running {W F A} w t.

Definition calls {W F A} (o : outcome W F A) : list (action F) :=
  match o with
  | Returned _ _ t | Halted _ t | Undefined _ t | Running _ t => t
  end.

(** [after t o]: the outcome [o] of a continuation, reached after the
    calls [t]. *)
Definition after {W F A} (t : list (action F)) (o : outcome W F A) : outcome W F A :=
  match o with
  | Returned a w t' => Returned a w (t ++ t')
  | Halted w t' => Halted w (t ++ t')
  | Undefined w t' => Undefined w (t ++ t')
  | Running w t' => Running w (t ++ t')
  end.

Definition task (W F A : Type) : Type := W -> outcome W F A.

Definition ret {W F A} (a : A) : task W F A := fun w => Returned a w [].

Definition bind {W F A B} (m : task W F A) (k : A -> task W F B) : task W F B :=
  fun w =>
    match m w with
    | Returned a w1 t1 => after t1 (k a w1)
    | Halted w1 t1 => Halted w1 t1
    | Undefined w1 t1 => Undefined w1 t1
    | Running w1 t1 => Running w1 t1
    end.

Declare Scope task_scope.
Delimit Scope task_scope with task.
Notation "'do' x <- m 'in' k" := (bind m (fun x => k))
  (at level 10, x name, m at level 100, k at level 200) : task_scope.
Notation "'do' ' p <- m 'in' k" := (bind m (fun x => match x with p => k end))
  (at level 10, p pattern, m at level 100, k at level 200) : task_scope.
Notation "'run' m 'in' k" := (bind m (fun _ => k))
  (at level 10, m at level 100, k at level 200) : task_scope.
Open Scope task_scope.

(** [isspace] of <ctype.h> in the "C" locale: space, and the five
    control characters from horizontal tab to carriage return. *)
Definition isspace (c : uint8_t) : bool :=
  let n := N_of_ascii c in
  ((n =? 32) || ((9 <=? n) && (n <=? 13)))%N.

(** The string a [char] array holds: its bytes up to the first NUL. *)
Fixpoint c_string (buf : list uint8_t) : string :=
  match buf with
  | [] => EmptyString
  | c :: rest => if decide (c = NUL) then EmptyString else String c (c_string rest)
  end.

(** Conversion to [uint64_t]. *)
Definition uint64 (z : Z) : Z := z mod 2 ^ 64.

Section Tasks.

Context {W F : Type} {P : Platform W F}.

(** A platform call that returns a value, recorded with it. *)
Definition call {A} (f : W -> A * W) (act : A -> action F) : task W F A :=
  fun w => let (a, w') := f w in Returned a w' [act a].

(** A platform call that returns nothing. *)
Definition call_void (f : W -> W) (act : action F) : task W F unit :=
  fun w => Returned tt (f w) [act].

(** [printf] writes to the console and nowhere else; format strings
    are kept as the source spells them. *)
Definition printf (fmt : string) (args : list (printf_arg F)) : task W F unit :=
  fun w => Returned tt w [Printf fmt args].

(** Modelled from the spec: the [CY_ASSERT] macro lives in the PDL
    headers, which are not part of the sources; the spec says a failed
    bring-up or process step is fatal and halts with no recovery, so
    [CY_ASSERT(0)] stops the task where it stands. *)
Definition CY_ASSERT (x : bool) : task W F unit :=
  fun w => if x then Returned tt w [] else Halted w [].

(** [line[i] = v] on an array of [length line] cells. *)
Definition store (line : list uint8_t) (i : Z) (v : uint8_t) : task W F (list uint8_t) :=
  fun w =>
    if decide (0 <= i < Z.of_nat (length line))
    then Returned (<[Z.to_nat i := v]> line) w []
    else Undefined w [].

Definition gpio_init (p : gpio_pin) (d : gpio_direction) (m : gpio_drive_mode) (v : bool)
  : task W F cy_rslt_t :=
  call (cyhal_gpio_init p d m v) (GpioInit p d m v).

Definition gpio_write (p : gpio_pin) (v : Z) : task W F unit :=
  call_void (cyhal_gpio_write p (to_bool v)) (GpioWrite p (to_bool v)).

Definition uart_getc (rx_value : uint8_t) (timeout : Z) : task W F (cy_rslt_t * uint8_t) :=
  call (cyhal_uart_getc rx_value timeout) (fun x => UartGetc timeout (fst x) (snd x)).

Definition uart_putc (b : uint8_t) : task W F cy_rslt_t :=
  call (cyhal_uart_putc b) (UartPutc b).

(** ** radar_task.c *)

Definition radar_presence_terminal_mutex_get (timeout_ms : Z) : task W F cy_rslt_t :=
  call (cy_rtos_get_mutex timeout_ms) (MutexGet timeout_ms).

Definition radar_presence_terminal_mutex_release : task W F cy_rslt_t :=
  call cy_rtos_set_mutex MutexRelease.

Definition radar_sensing_callback
  (event : mtb_radar_sensing_event_t) (event_info : mtb_radar_sensing_event_info_t F)
  : task W F unit :=
  match event with
  | MTB_RADAR_SENSING_EVENT_PRESENCE_IN =>
      run gpio_write LED_RGB_RED LED_STATE_ON in
      run gpio_write LED_RGB_GREEN LED_STATE_OFF in
      do r <- radar_presence_terminal_mutex_get 0 in
      if decide (r = CY_RSLT_SUCCESS) then
        run printf "%.3f: Presence IN %.2f-%.2f\n"
              [ArgFloat (fdiv (float_of_uint64 (timestamp event_info)) (float_of_int 1000));
               ArgFloat (fsub (distance event_info) (accuracy event_info));
               ArgFloat (fadd (distance event_info) (accuracy event_info))] in
        run radar_presence_terminal_mutex_release in
        ret tt
      else ret tt
  | MTB_RADAR_SENSING_EVENT_PRESENCE_OUT =>
      run gpio_write LED_RGB_RED LED_STATE_OFF in
      run gpio_write LED_RGB_GREEN LED_STATE_ON in
      do r <- radar_presence_terminal_mutex_get 0 in
      if decide (r = CY_RSLT_SUCCESS) then
        run printf "%.3f: Presence OUT\n"
              [ArgFloat (fdiv (float_of_uint64 (timestamp event_info)) (float_of_int 1000))] in
        run radar_presence_terminal_mutex_release in
        ret tt
      else ret tt
  | MTB_RADAR_SENSING_EVENT_OTHER _ => ret tt
  end.

Definition ifx_currenttime : task W F Z :=
  do ticks <- call xTaskGetTickCount TickCount in
  ret (uint64 (uint64 ticks * portTICK_PERIOD_MS)).

(** The engine hands each event of a process step to the registered
    callback, on the calling task, before the step returns. *)
Fixpoint deliver
  (events : list (mtb_radar_sensing_event_t * mtb_radar_sensing_event_info_t F))
  : task W F unit :=
  match events with
  | [] => ret tt
  | (event, event_info) :: rest =>
      run radar_sensing_callback event event_info in
      deliver rest
  end.

Definition sensing_process (ts : Z) : task W F cy_rslt_t :=
  fun w =>
    let '((r, events), w1) := mtb_radar_sensing_process ts w in
    (run deliver events in
     fun w2 => Returned r w2 [EngineProcess ts r]) w1.

Definition hw_cfg : mtb_radar_sensing_hw_cfg_t :=
  {| spi_cs := CYBSP_SPI_CS; reset := CYBSP_GPIO11; ldo_en := CYBSP_GPIO5; irq := CYBSP_GPIO10 |}.

(** The [for (;;)] of [radar_task], observed for [n] iterations. *)
Fixpoint radar_task_loop (n : nat) : task W F unit :=
  match n with
  | O => fun w => Running w []
  | S n' =>
      do now <- ifx_currenttime in
      do r <- sensing_process now in
      run (if decide (r <> MTB_RADAR_SENSING_SUCCESS) then
             run printf "ifx_radar_sensing_process error\n" [] in
             CY_ASSERT false
           else ret tt) in
      run call_void (vTaskDelay MTB_RADAR_SENSING_PROCESS_DELAY)
            (TaskDelay MTB_RADAR_SENSING_PROCESS_DELAY) in
      radar_task_loop n'
  end.

Definition radar_task (n : nat) : task W F unit :=
  do result <- call cy_rtos_init_mutex MutexInit in
  run (if decide (result <> CY_RSLT_SUCCESS) then CY_ASSERT false else ret tt) in
  do result <- gpio_init LED_RGB_RED CYHAL_GPIO_DIR_OUTPUT CYHAL_GPIO_DRIVE_STRONG
                 (to_bool LED_STATE_OFF) in
  run (if decide (result <> CY_RSLT_SUCCESS) then CY_ASSERT false else ret tt) in
  do result <- gpio_init LED_RGB_GREEN CYHAL_GPIO_DIR_OUTPUT CYHAL_GPIO_DRIVE_STRONG
                 (to_bool LED_STATE_OFF) in
  run (if decide (result <> CY_RSLT_SUCCESS) then CY_ASSERT false else ret tt) in
  do result <- gpio_init LED_RGB_BLUE CYHAL_GPIO_DIR_OUTPUT CYHAL_GPIO_DRIVE_STRONG
                 (to_bool LED_STATE_OFF) in
  run (if decide (result <> CY_RSLT_SUCCESS) then CY_ASSERT false else ret tt) in
  run gpio_init (reset hw_cfg) CYHAL_GPIO_DIR_OUTPUT CYHAL_GPIO_DRIVE_STRONG true in
  run gpio_init (ldo_en hw_cfg) CYHAL_GPIO_DIR_OUTPUT CYHAL_GPIO_DRIVE_STRONG true in
  run gpio_init (irq hw_cfg) CYHAL_GPIO_DIR_INPUT CYHAL_GPIO_DRIVE_PULLDOWN false in
  run gpio_init (spi_cs hw_cfg) CYHAL_GPIO_DIR_OUTPUT CYHAL_GPIO_DRIVE_STRONG true in
  do r <- call (cyhal_spi_init 8) (SpiInit 8) in
  run (if decide (r <> CY_RSLT_SUCCESS) then CY_ASSERT false else ret tt) in
  do r <- call (cyhal_spi_set_frequency SPI_FREQUENCY) (SpiSetFrequency SPI_FREQUENCY) in
  run (if decide (r <> CY_RSLT_SUCCESS) then CY_ASSERT false else ret tt) in
  do r <- call (mtb_radar_sensing_init hw_cfg MTB_RADAR_SENSING_MASK_PRESENCE_EVENTS)
            (EngineInit hw_cfg MTB_RADAR_SENSING_MASK_PRESENCE_EVENTS) in
  run (if decide (r <> MTB_RADAR_SENSING_SUCCESS) then
         run printf "ifx_radar_sensing_init error - Radar Wingboard not connected?\n" [] in
         CY_ASSERT false
       else ret tt) in
  do r <- call mtb_radar_sensing_register_callback EngineRegisterCallback in
  run (if decide (r <> MTB_RADAR_SENSING_SUCCESS) then CY_ASSERT false else ret tt) in
  do r <- call (mtb_radar_sensing_set_parameter "radar_presence_range_max" "1.0")
            (EngineSetParameter "radar_presence_range_max" "1.0") in
  run (if decide (r <> MTB_RADAR_SENSING_SUCCESS) then CY_ASSERT false else ret tt) in
  do r <- call (mtb_radar_sensing_set_parameter "radar_presence_sensitivity" "medium")
            (EngineSetParameter "radar_presence_sensitivity" "medium") in
  run (if decide (r <> MTB_RADAR_SENSING_SUCCESS) then CY_ASSERT false else ret tt) in
  do r <- call mtb_radar_sensing_enable EngineEnable in
  run (if decide (r <> MTB_RADAR_SENSING_SUCCESS) then CY_ASSERT false else ret tt) in
  radar_task_loop n.

Definition radar_presence_task_set_mute (mute : bool) : task W F unit :=
  if mute then
    run radar_presence_terminal_mutex_get CY_RTOS_NEVER_TIMEOUT in
    ret tt
  else
    run radar_presence_terminal_mutex_release in
    ret tt.

(** ** radar_terminal_ui.c *)

Definition terminal_ui_menu : task W F unit :=
  run radar_presence_task_set_mute true in
  run printf "Select a setting to configure\n" [] in
  do got <- call (mtb_radar_sensing_get_parameter "radar_presence_range_max"
                    IFX_RADAR_SENSING_VALUE_MAXLENGTH)
              (fun x => EngineGetParameter "radar_presence_range_max"
                          IFX_RADAR_SENSING_VALUE_MAXLENGTH (fst x) (snd x)) in
  run printf "'r': Set presence max range (%s)\n" [ArgString (c_string (snd got))] in
  do got <- call (mtb_radar_sensing_get_parameter "radar_presence_sensitivity"
                    IFX_RADAR_SENSING_VALUE_MAXLENGTH)
              (fun x => EngineGetParameter "radar_presence_sensitivity"
                          IFX_RADAR_SENSING_VALUE_MAXLENGTH (fst x) (snd x)) in
  run printf "'s': Set sensitivity (%s)\n" [ArgString (c_string (snd got))] in
  run printf "\n" [] in
  radar_presence_task_set_mute false.

Definition terminal_ui_info : task W F unit :=
  printf "Press '?' to list all radar presence settings\n" [].

(** The [while] of [terminal_ui_readline]. The test decrements
    [maxlength] only when the byte last read is not a carriage return;
    [n] bounds the iterations, and [Z.to_nat maxlength] is enough. *)
Fixpoint terminal_ui_readline_loop
  (n : nat) (line : list uint8_t) (maxlength i : Z) (rx_value : uint8_t)
  : task W F (list uint8_t * Z) :=
  if decide (rx_value = CR) then ret (line, i)
  else
    let maxlength := maxlength - 1 in
    if decide (maxlength > 0) then
      match n with
      | O => fun w => Running w []
      | S n' =>
          do got <- uart_getc rx_value 0 in
          let rx_value := snd got in
          run uart_putc rx_value in
          if isspace rx_value then
            terminal_ui_readline_loop n' line maxlength i rx_value
          else
            do line <- store line i rx_value in
            terminal_ui_readline_loop n' line maxlength (i + 1) rx_value
      end
    else ret (line, i).

Definition terminal_ui_readline (line : list uint8_t) (maxlength : Z)
  : task W F (list uint8_t) :=
  run radar_presence_task_set_mute true in
  if decide (maxlength <= 0) then ret line
  else
    do li <- terminal_ui_readline_loop (Z.to_nat maxlength) line maxlength 0 NUL in
    run uart_putc LF in
    do line <- store (fst li) (snd li) NUL in
    run radar_presence_task_set_mute false in
    ret line.

Definition terminal_ui_print_result (result : cy_rslt_t) : task W F unit :=
  if decide (result = MTB_RADAR_SENSING_SUCCESS) then printf "OK\n" []
  else printf "ERROR\n" [].

(** The [switch] on the key just read; it returns the content of the
    local array [value]. *)
Definition radar_presence_terminal_ui_switch (rx_value : uint8_t) (value : list uint8_t)
  : task W F (list uint8_t) :=
  if decide (rx_value = "?"%char) then
    run terminal_ui_menu in
    ret value
  else if decide (rx_value = "r"%char) then
    run printf "Enter range [0.66-10.2]m, press enter\n" [] in
    do value <- terminal_ui_readline value IFX_RADAR_SENSING_VALUE_MAXLENGTH in
    do r <- call (mtb_radar_sensing_set_parameter "radar_presence_range_max" (c_string value))
              (EngineSetParameter "radar_presence_range_max" (c_string value)) in
    run terminal_ui_print_result r in
    ret value
  else if decide (rx_value = "s"%char) then
    run printf "Set Sensitivity: 'high', 'medium' or 'low'\n" [] in
    do value <- terminal_ui_readline value IFX_RADAR_SENSING_VALUE_MAXLENGTH in
    do r <- call (mtb_radar_sensing_set_parameter "radar_presence_sensitivity" (c_string value))
              (EngineSetParameter "radar_presence_sensitivity" (c_string value)) in
    run terminal_ui_print_result r in
    ret value
  else
    run terminal_ui_info in
    ret value.

(** The [while] of [radar_presence_terminal_ui], observed for [n]
    keys. *)
Fixpoint radar_presence_terminal_ui_loop
  (n : nat) (value : list uint8_t) (rx_value : uint8_t) : task W F unit :=
  match n with
  | O => fun w => Running w []
  | S n' =>
      do got <- uart_getc rx_value 0 in
      if decide (fst got = CY_RSLT_SUCCESS) then
        do value <- radar_presence_terminal_ui_switch (snd got) value in
        radar_presence_terminal_ui_loop n' value NUL
      else ret tt
  end.

(** [value] and [rx_value] are the contents the two uninitialised
    locals happen to have. *)
Definition radar_presence_terminal_ui (n : nat) (value : list uint8_t) (rx_value : uint8_t)
  : task W F unit :=
  run terminal_ui_menu in
  run radar_presence_terminal_ui_loop n value rx_value in
  run printf "Exiting terminal ui\n" [] in
  run call cy_rtos_exit_thread ExitThread in
  ret tt.

End Tasks.

(** ** main.c *)

(** The two thread entry points [main] hands to the RTOS. *)
Inductive thread_entry := ENTRY_radar_task | ENTRY_radar_presence_terminal_ui.

(** The two priorities the task headers name. *)
Inductive cy_thread_priority_t := CY_RTOS_PRIORITY_NORMAL | CY_RTOS_PRIORITY_BELOWNORMAL.

Definition RADAR_TASK_NAME : string := "RADAR PRESENCE TASK".
Definition RADAR_TASK_STACK_SIZE : Z := 4096.
Definition RADAR_TASK_PRIORITY : cy_thread_priority_t := CY_RTOS_PRIORITY_NORMAL.
Definition RADAR_PRESENCE_TERMINAL_UI_TASK_NAME : string := "RADAR PRESENCE TERMINAL UI".
Definition RADAR_PRESENCE_TERMINAL_UI_TASK_STACK_SIZE : Z := 2048.
Definition RADAR_PRESENCE_TERMINAL_UI_TASK_PRIORITY : cy_thread_priority_t :=
  CY_RTOS_PRIORITY_BELOWNORMAL.

(** One call of [main], recorded when it returns. *)
Inductive boot_call :=
| BspInit (r : cy_rslt_t)
| EnableIrq
| RetargetIoInit (tx rx baudrate : Z) (r : cy_rslt_t)
| BootPrintf (fmt : string)
| CreateThread (entry : thread_entry) (name : string) (stack_size : Z)
    (priority : cy_thread_priority_t) (r : cy_rslt_t)
| StartScheduler.

(** What [main] calls and does not define: the BSP, retarget-io, the
    creation of threads and the scheduler, which hands back control only
    when it could not start ([Some]). Of the seven arguments of
    [cy_rtos_create_thread] the four that differ between the two calls
    are kept; the thread handle, the [NULL] stack and the [NULL]
    argument are not. The format strings are kept as the C source
    writes them, escapes included. *)
Class Board (W : Type) := {
  CYBSP_DEBUG_UART_TX : Z;
  CYBSP_DEBUG_UART_RX : Z;
  CY_RETARGET_IO_BAUDRATE : Z;
  cybsp_init : W -> cy_rslt_t * W;
  __enable_irq : W -> W;
  cy_retarget_io_init : Z -> Z -> Z -> W -> cy_rslt_t * W;
  cy_rtos_create_thread :
    thread_entry -> string -> Z -> cy_thread_priority_t -> W -> cy_rslt_t * W;
  vTaskStartScheduler : W -> option W
}.

(** How [main] ends: halted in [CY_ASSERT(0)], or inside the scheduler
    for good.

    Modelled from the spec: as for the tasks, [CY_ASSERT] is a macro of
    the PDL headers, which are not part of the sources, and a failed
    assertion halts with no recovery; [BootHalted] is [main] stopped in
    one of its five [CY_ASSERT(0)]. *)
Inductive boot_outcome (W : Type) :=
| BootHalted (w : W) (t : list boot_call)
| Scheduling (t : list boot_call).
Arguments BootHalted {W} w t.
Arguments Scheduling {W} t.

Definition boot_calls {W} (o : boot_outcome W) : list boot_call :=
  match o with
  | BootHalted _ t | Scheduling t => t
  end.

Section Boot.

Context {W F : Type} {P : Platform W F} {B : Board W}.

Definition main (w : W) : boot_outcome W :=
  let (result, w) := cybsp_init w in
  let t := [BspInit result] in
  if decide (result <> CY_RSLT_SUCCESS) then BootHalted w t
  else
    let w := __enable_irq w in
    let t := t ++ [EnableIrq] in
    let (result, w) :=
      cy_retarget_io_init CYBSP_DEBUG_UART_TX CYBSP_DEBUG_UART_RX CY_RETARGET_IO_BAUDRATE w in
    let t :=
      t ++ [RetargetIoInit CYBSP_DEBUG_UART_TX CYBSP_DEBUG_UART_RX CY_RETARGET_IO_BAUDRATE
              result] in
    if decide (result <> CY_RSLT_SUCCESS) then BootHalted w t
    else
      let t :=
        t ++
        [BootPrintf "\x1b[2J\x1b[;H";
         BootPrintf "============================================================\n";
         BootPrintf "Connected Sensor Kit: Radar Presence Application on FreeRTOS\n";
         BootPrintf "============================================================\n\n"] in
      let (result, w) :=
        cy_rtos_create_thread ENTRY_radar_task RADAR_TASK_NAME RADAR_TASK_STACK_SIZE
          RADAR_TASK_PRIORITY w in
      let t :=
        t ++ [CreateThread ENTRY_radar_task RADAR_TASK_NAME RADAR_TASK_STACK_SIZE
                RADAR_TASK_PRIORITY result] in
      if decide (result <> CY_RSLT_SUCCESS) then BootHalted w t
      else
        let (result, w) :=
          cy_rtos_create_thread ENTRY_radar_presence_terminal_ui
            RADAR_PRESENCE_TERMINAL_UI_TASK_NAME RADAR_PRESENCE_TERMINAL_UI_TASK_STACK_SIZE
            RADAR_PRESENCE_TERMINAL_UI_TASK_PRIORITY w in
        let t :=
          t ++ [CreateThread ENTRY_radar_presence_terminal_ui
                  RADAR_PRESENCE_TERMINAL_UI_TASK_NAME
                  RADAR_PRESENCE_TERMINAL_UI_TASK_STACK_SIZE
                  RADAR_PRESENCE_TERMINAL_UI_TASK_PRIORITY result] in
        if decide (result <> CY_RSLT_SUCCESS) then BootHalted w t
        else
          match vTaskStartScheduler w with
          | Some w => BootHalted w (t ++ [StartScheduler])
          | None => Scheduling (t ++ [StartScheduler])
          end.

(** A tested call of [main] with a result that is not the success
    status. *)
Definition boot_failed (a : boot_call) : bool :=
  match a with
  | BspInit r | RetargetIoInit _ _ _ r | CreateThread _ _ _ _ r =>
      if decide (r <> CY_RSLT_SUCCESS) then true else false
  | _ => false
  end.

(** The calls of a boot that reaches the scheduler. *)
Definition full_boot : list boot_call :=
  [BspInit CY_RSLT_SUCCESS;
   EnableIrq;
   RetargetIoInit CYBSP_DEBUG_UART_TX CYBSP_DEBUG_UART_RX CY_RETARGET_IO_BAUDRATE
     CY_RSLT_SUCCESS;
   BootPrintf "\x1b[2J\x1b[;H";
   BootPrintf "============================================================\n";
   BootPrintf "Connected Sensor Kit: Radar Presence Application on FreeRTOS\n";
   BootPrintf "============================================================\n\n";
   CreateThread ENTRY_radar_task RADAR_TASK_NAME RADAR_TASK_STACK_SIZE RADAR_TASK_PRIORITY
     CY_RSLT_SUCCESS;
   CreateThread ENTRY_radar_presence_terminal_ui RADAR_PRESENCE_TERMINAL_UI_TASK_NAME
     RADAR_PRESENCE_TERMINAL_UI_TASK_STACK_SIZE RADAR_PRESENCE_TERMINAL_UI_TASK_PRIORITY
     CY_RSLT_SUCCESS;
   StartScheduler].

End Boot.

(** ** What a run shows *)

Section Observations.

Context {F : Type}.

(** The level a pin was last driven to, if it was written at all. *)
Fixpoint indicator (p : gpio_pin) (t : list (action F)) : option bool :=
  match t with
  | [] => None
  | GpioWrite q v :: rest =>
      match indicator p rest with
      | Some v' => Some v'
      | None => if decide (q = p) then Some v else None
      end
  | _ :: rest => indicator p rest
  end.

(** The console lines printed, in order. *)
Fixpoint prints (t : list (action F)) : list (string * list (printf_arg F)) :=
  match t with
  | [] => []
  | Printf fmt args :: rest => (fmt, args) :: prints rest
  | _ :: rest => prints rest
  end.

(** The requests made to the console mutex: [Some (timeout, result)]
    for an acquisition, [None] for a release. *)
Fixpoint gate_ops (t : list (action F)) : list (option (Z * cy_rslt_t)) :=
  match t with
  | [] => []
  | MutexGet timeout r :: rest => Some (timeout, r) :: gate_ops rest
  | MutexRelease _ :: rest => None :: gate_ops rest
  | _ :: rest => gate_ops rest
  end.

(** Net outstanding holds of the console mutex after the requests
    [ops], starting from [held]: an acquisition that returns [success]
    adds one, a release takes one away. *)
Fixpoint net_holds (success : cy_rslt_t) (held : Z) (ops : list (option (Z * cy_rslt_t))) : Z :=
  match ops with
  | [] => held
  | Some (_, r) :: rest => net_holds success (if decide (r = success) then held + 1 else held) rest
  | None :: rest => net_holds success (held - 1) rest
  end.

(** The bytes [cyhal_uart_getc] left in [rx_value], call by call. *)
Fixpoint received (t : list (action F)) : list uint8_t :=
  match t with
  | [] => []
  | UartGetc _ _ b :: rest => b :: received rest
  | _ :: rest => received rest
  end.

(** The bytes sent back to the terminal. *)
Fixpoint echoed (t : list (action F)) : list uint8_t :=
  match t with
  | [] => []
  | UartPutc b _ :: rest => b :: echoed rest
  | _ :: rest => echoed rest
  end.

(** The calls into the RadarSensing engine. *)
Definition is_engine_call (a : action F) : bool :=
  match a with
  | EngineInit _ _ _ | EngineRegisterCallback _ | EngineSetParameter _ _ _
  | EngineGetParameter _ _ _ _ | EngineEnable _ | EngineProcess _ _ => true
  | _ => false
  end.

Definition engine_calls (t : list (action F)) : list (action F) :=
  List.filter is_engine_call t.

End Observations.

(** ** Vocabulary of the statements *)

(** The array [line] after the bytes [bs] were stored at the indices
    [i], [i + 1], ... *)
Fixpoint write_at (i : nat) (bs : list uint8_t) (line : list uint8_t) : list uint8_t :=
  match bs with
  | [] => line
  | b :: rest => write_at (S i) rest (<[i := b]> line)
  end.

(** The bytes of [rcv] the editor keeps. *)
Definition kept (rcv : list uint8_t) : list uint8_t :=
  List.filter (fun b => negb (isspace b)) rcv.

(** The parameter a set command writes. *)
Definition parameter_of_key (key : uint8_t) : string :=
  if decide (key = "r"%char) then "radar_presence_range_max"
  else "radar_presence_sensitivity".

(** The prompt a set command shows. *)
Definition prompt_of_key (key : uint8_t) : string :=
  if decide (key = "r"%char) then "Enter range [0.66-10.2]m, press enter\n"
  else "Set Sensitivity: 'high', 'medium' or 'low'\n".

(** The three LED pins, whose initialisation [radar_task] tests. *)
Definition is_led (p : gpio_pin) : bool :=
  match p with
  | LED_RGB_RED | LED_RGB_GREEN | LED_RGB_BLUE => true
  | _ => false
  end.

Section Vocabulary.

Context {W F : Type} {P : Platform W F}.

(** The console line of a PRESENCE_IN event: format and arguments. *)
Definition presence_in_line (event_info : mtb_radar_sensing_event_info_t F)
  : string * list (printf_arg F) :=
  ("%.3f: Presence IN %.2f-%.2f\n",
   [ArgFloat (fdiv (float_of_uint64 (timestamp event_info)) (float_of_int 1000));
    ArgFloat (fsub (distance event_info) (accuracy event_info));
    ArgFloat (fadd (distance event_info) (accuracy event_info))]).

(** The console line of a PRESENCE_OUT event. *)
Definition presence_out_line (event_info : mtb_radar_sensing_event_info_t F)
  : string * list (printf_arg F) :=
  ("%.3f: Presence OUT\n",
   [ArgFloat (fdiv (float_of_uint64 (timestamp event_info)) (float_of_int 1000))]).

(** The calls whose result [radar_task] tests, with a result that is
    not the success status: the mutex and LED initialisations, the two
    SPI calls, and the engine's init, register, set, enable and process
    calls. *)
Definition failed (a : action F) : bool :=
  match a with
  | MutexInit r | SpiInit _ r | SpiSetFrequency _ r =>
      if decide (r <> CY_RSLT_SUCCESS) then true else false
  | GpioInit p _ _ _ r =>
      is_led p && (if decide (r <> CY_RSLT_SUCCESS) then true else false)
  | EngineInit _ _ r | EngineRegisterCallback r | EngineSetParameter _ _ r
  | EngineEnable r | EngineProcess _ r =>
      if decide (r <> MTB_RADAR_SENSING_SUCCESS) then true else false
  | _ => false
  end.

(** What [radar_task] prints between a failed call and its halt. *)
Definition diagnostic (a : action F) : list (action F) :=
  match a with
  | EngineInit _ _ _ =>
      [Printf "ifx_radar_sensing_init error - Radar Wingboard not connected?\n" []]
  | EngineProcess _ _ => [Printf "ifx_radar_sensing_process error\n" []]
  | _ => []
  end.

(** A call that is not tested, or that succeeded. *)
Definition passed (a : action F) : Prop := failed a = false.

(** The first failed call of [t] is followed by its diagnostic and by
    nothing else. *)
Fixpoint stops_at_failure (t : list (action F)) : Prop :=
  match t with
  | [] => False
  | a :: rest => if failed a then rest = diagnostic a else stops_at_failure rest
  end.

(** A task that never returns: it has halted right at a failed call,
    or it is still running and no call has failed. *)
Definition halts_on_failure (o : outcome W F unit) : Prop :=
  match o with
  | Halted _ t => stops_at_failure t
  | Running _ t => Forall passed t
  | Returned _ _ _ | Undefined _ _ => False
  end.

(** The calls made from inside the processing loop. *)
Definition loop_call (a : action F) : bool :=
  match a with
  | TickCount _ | EngineProcess _ _ | TaskDelay _ | GpioWrite _ _
  | MutexGet _ _ | MutexRelease _ | Printf _ _ => true
  | _ => false
  end.

(** The calls of the bring-up that precede the engine's init. *)
Definition quiet (a : action F) : bool :=
  match a with
  | MutexInit _ | GpioInit _ _ _ _ _ | SpiInit _ _ | SpiSetFrequency _ _ => true
  | _ => false
  end.

(** The engine's init call. *)
Definition is_engine_init (a : action F) : bool :=
  match a with
  | EngineInit _ _ _ => true
  | _ => false
  end.

(** A failed engine init is the only engine call of the run, the init
    diagnostic its only print, and the task is halted. *)
Definition init_failure_is_final (o : outcome W F unit) : Prop :=
  forall (cfg : mtb_radar_sensing_hw_cfg_t) (mask : Z) (r : cy_rslt_t),
    In (EngineInit cfg mask r) (calls o) ->
    r <> MTB_RADAR_SENSING_SUCCESS ->
    exists (w' : W) (t : list (action F)),
      o = Halted w' t /\
      engine_calls t = [EngineInit cfg mask r] /\
      prints t = [("ifx_radar_sensing_init error - Radar Wingboard not connected?\n", [])].

(** A call that, when it is a [set_parameter], writes 1.0 to the
    maximum range or medium to the sensitivity. *)
Definition sets_a_default (a : action F) : Prop :=
  match a with
  | EngineSetParameter name value _ =>
      (name = "radar_presence_range_max" /\ value = "1.0") \/
      (name = "radar_presence_sensitivity" /\ value = "medium")
  | _ => True
  end.

End Vocabulary.

(** ** Further vocabulary: event streams, the console hold, the loops *)

Section StreamVocabulary.

Context {F : Type}.

(** What a presence event says about the target: present, absent, or
    nothing for any other event. *)
Definition presence_of (event : mtb_radar_sensing_event_t) : option bool :=
  match event with
  | MTB_RADAR_SENSING_EVENT_PRESENCE_IN => Some true
  | MTB_RADAR_SENSING_EVENT_PRESENCE_OUT => Some false
  | MTB_RADAR_SENSING_EVENT_OTHER _ => None
  end.

(** The presence reported by the last presence event of a stream. *)
Fixpoint last_presence
  (events : list (mtb_radar_sensing_event_t * mtb_radar_sensing_event_info_t F))
  : option bool :=
  match events with
  | [] => None
  | (event, _) :: rest =>
      match last_presence rest with
      | Some b => Some b
      | None => presence_of event
      end
  end.

(** The net holds stay within 0 and 1 from [held] on, after every
    request of [ops]. *)
Fixpoint gate_bounded (success : cy_rslt_t) (held : Z) (ops : list (option (Z * cy_rslt_t)))
  : Prop :=
  0 <= held <= 1 /\
  match ops with
  | [] => True
  | Some (_, r) :: rest =>
      gate_bounded success (if decide (r = success) then held + 1 else held) rest
  | None :: rest => gate_bounded success (held - 1) rest
  end.

(** The number of acquisitions that were granted. *)
Fixpoint granted (success : cy_rslt_t) (ops : list (option (Z * cy_rslt_t))) : nat :=
  match ops with
  | [] => O
  | Some (_, r) :: rest =>
      if decide (r = success) then S (granted success rest) else granted success rest
  | None :: rest => granted success rest
  end.

(** The console lines printed while the task holds no grant of the
    console mutex, [held] being its net holds at the start. *)
Fixpoint prints_unheld (success : cy_rslt_t) (held : Z) (t : list (action F))
  : list (string * list (printf_arg F)) :=
  match t with
  | [] => []
  | MutexGet _ r :: rest =>
      prints_unheld success (if decide (r = success) then held + 1 else held) rest
  | MutexRelease _ :: rest => prints_unheld success (held - 1) rest
  | Printf fmt args :: rest =>
      (if decide (held <= 0) then [(fmt, args)] else []) ++ prints_unheld success held rest
  | _ :: rest => prints_unheld success held rest
  end.

(** The calls the event callback may make: a write to the red or the
    green LED, a zero-wait acquisition, a release, a print. *)
Definition callback_call (a : action F) : Prop :=
  match a with
  | GpioWrite p _ => p = LED_RGB_RED \/ p = LED_RGB_GREEN
  | MutexGet timeout_ms _ => timeout_ms = 0
  | MutexRelease _ | Printf _ _ => True
  | _ => False
  end.

(** The process steps of a run: timestamp and result of each. *)
Fixpoint process_steps (t : list (action F)) : list (Z * cy_rslt_t) :=
  match t with
  | [] => []
  | EngineProcess ts r :: rest => (ts, r) :: process_steps rest
  | _ :: rest => process_steps rest
  end.

(** The tick counts read. *)
Fixpoint tick_counts (t : list (action F)) : list Z :=
  match t with
  | [] => []
  | TickCount ticks :: rest => ticks :: tick_counts rest
  | _ :: rest => tick_counts rest
  end.

(** The delays taken, in ticks. *)
Fixpoint task_delays (t : list (action F)) : list Z :=
  match t with
  | [] => []
  | TaskDelay ticks :: rest => ticks :: task_delays rest
  | _ :: rest => task_delays rest
  end.

(** The calls of the bring-up of [radar_task] and its one diagnostic
    print; no process step, no delay, no LED write. *)
Definition bringup_call (a : action F) : bool :=
  match a with
  | MutexInit _ | GpioInit _ _ _ _ _ | SpiInit _ _ | SpiSetFrequency _ _
  | EngineInit _ _ _ | EngineRegisterCallback _ | EngineSetParameter _ _ _
  | EngineEnable _ | Printf _ _ => true
  | _ => false
  end.

(** A string without white space. *)
Definition no_space (s : string) : Prop :=
  Forall (fun c => isspace c = false) (list_ascii_of_string s).

End StreamVocabulary.

Section TaskVocabulary.

Context {W F : Type} {P : Platform W F}.

(** The calls the terminal task may make before it leaves its loop:
    unbounded acquisitions and releases of the console mutex, prints
    other than the farewell, blocking reads and echoes on the UART,
    reads of the two parameters into a 256-byte buffer, and writes to
    them of a string of at most 255 characters without white space. *)
Definition ui_call (a : action F) : Prop :=
  match a with
  | MutexGet timeout_ms _ => timeout_ms = CY_RTOS_NEVER_TIMEOUT
  | MutexRelease _ | UartPutc _ _ => True
  | Printf fmt _ => fmt <> "Exiting terminal ui\n"
  | UartGetc timeout _ _ => timeout = 0
  | EngineGetParameter name maxlen _ _ =>
      (name = "radar_presence_range_max" \/ name = "radar_presence_sensitivity") /\
      maxlen = IFX_RADAR_SENSING_VALUE_MAXLENGTH
  | EngineSetParameter name value _ =>
      (name = "radar_presence_range_max" \/ name = "radar_presence_sensitivity") /\
      Z.of_nat (String.length value) <= IFX_RADAR_SENSING_VALUE_MAXLENGTH - 1 /\
      no_space value
  | _ => False
  end.

(** The fifteen calls of a bring-up that went through, the results of
    the tested ones being the success status. *)
Definition configured (pre : list (action F)) : Prop :=
  exists r_reset r_ldo r_irq r_cs : cy_rslt_t,
    pre =
    [MutexInit CY_RSLT_SUCCESS;
     GpioInit LED_RGB_RED CYHAL_GPIO_DIR_OUTPUT CYHAL_GPIO_DRIVE_STRONG false CY_RSLT_SUCCESS;
     GpioInit LED_RGB_GREEN CYHAL_GPIO_DIR_OUTPUT CYHAL_GPIO_DRIVE_STRONG false CY_RSLT_SUCCESS;
     GpioInit LED_RGB_BLUE CYHAL_GPIO_DIR_OUTPUT CYHAL_GPIO_DRIVE_STRONG false CY_RSLT_SUCCESS;
     GpioInit CYBSP_GPIO11 CYHAL_GPIO_DIR_OUTPUT CYHAL_GPIO_DRIVE_STRONG true r_reset;
     GpioInit CYBSP_GPIO5 CYHAL_GPIO_DIR_OUTPUT CYHAL_GPIO_DRIVE_STRONG true r_ldo;
     GpioInit CYBSP_GPIO10 CYHAL_GPIO_DIR_INPUT CYHAL_GPIO_DRIVE_PULLDOWN false r_irq;
     GpioInit CYBSP_SPI_CS CYHAL_GPIO_DIR_OUTPUT CYHAL_GPIO_DRIVE_STRONG true r_cs;
     SpiInit 8 CY_RSLT_SUCCESS;
     SpiSetFrequency SPI_FREQUENCY CY_RSLT_SUCCESS;
     EngineInit hw_cfg MTB_RADAR_SENSING_MASK_PRESENCE_EVENTS MTB_RADAR_SENSING_SUCCESS;
     EngineRegisterCallback MTB_RADAR_SENSING_SUCCESS;
     EngineSetParameter "radar_presence_range_max" "1.0" MTB_RADAR_SENSING_SUCCESS;
     EngineSetParameter "radar_presence_sensitivity" "medium" MTB_RADAR_SENSING_SUCCESS;
     EngineEnable MTB_RADAR_SENSING_SUCCESS].

(** The ten calls that precede the engine's init in a bring-up that
    goes through: the mutex, the three LEDs, the four control lines
    and the two SPI calls, the tested ones with the success status. *)
Definition before_engine_init (pre : list (action F)) : Prop :=
  exists rest : list (action F), configured (pre ++ rest) /\ length pre = 10%nat.

(** How [radar_task] stands once the calls [done] are behind it: it has
    halted within the bring-up, or the calls to come complete a
    bring-up that went through and the processing loop follows. *)
Definition bringup_outcome (n : nat) (done : list (action F)) (o : outcome W F unit) : Prop :=
  (exists (w' : W) (t : list (action F)),
     o = Halted w' t /\ Forall (fun a => bringup_call a = true) t) \/
  (exists (w1 : W) (todo : list (action F)),
     o = after todo (radar_task_loop n w1) /\ configured (done ++ todo)).

(** The timestamp [ifx_currenttime] makes of a tick count. *)
Definition timestamp_of_ticks (ticks : Z) : Z :=
  uint64 (uint64 ticks * portTICK_PERIOD_MS).

End TaskVocabulary.

(** ** A scripted bench

    A test double for concrete runs: the terminal sends the bytes of
    [uart_rx] and then nothing, the console mutex and the engine answer
    from scripts (and with success once a script is used up), and the
    next process step hands over the events of [pending]. [float] is
    read as exact rational arithmetic. *)
Module Bench.

Record bench := {
  uart_rx : list uint8_t;
  gate : list cy_rslt_t;
  engine : list cy_rslt_t;
  pending : list (mtb_radar_sensing_event_t * mtb_radar_sensing_event_info_t Q)
}.

Definition pop_gate (w : bench) : cy_rslt_t * bench :=
  match gate w with
  | [] => (0, w)
  | r :: rest =>
      (r, {| uart_rx := uart_rx w; gate := rest; engine := engine w; pending := pending w |})
  end.

Definition pop_engine (w : bench) : cy_rslt_t * bench :=
  match engine w with
  | [] => (0, w)
  | r :: rest =>
      (r, {| uart_rx := uart_rx w; gate := gate w; engine := rest; pending := pending w |})
  end.

Definition getc (old : uint8_t) (w : bench) : (cy_rslt_t * uint8_t) * bench :=
  match uart_rx w with
  | [] => ((1, old), w)
  | b :: rest =>
      ((0, b), {| uart_rx := rest; gate := gate w; engine := engine w; pending := pending w |})
  end.

Definition process (w : bench)
  : (cy_rslt_t * list (mtb_radar_sensing_event_t * mtb_radar_sensing_event_info_t Q)) * bench :=
  let (r, w1) := pop_engine w in
  ((r, pending w1),
   {| uart_rx := uart_rx w1; gate := gate w1; engine := engine w1; pending := [] |}).

#[global] Instance bench_platform : Platform bench Q := {|
  CY_RSLT_SUCCESS := 0;
  MTB_RADAR_SENSING_SUCCESS := 0;
  CY_RTOS_NEVER_TIMEOUT := 4294967295;
  MTB_RADAR_SENSING_MASK_PRESENCE_EVENTS := 1;
  MTB_RADAR_SENSING_PROCESS_DELAY := 2;
  portTICK_PERIOD_MS := 1;
  cy_rtos_init_mutex := fun w => (0, w);
  cy_rtos_get_mutex := fun _ => pop_gate;
  cy_rtos_set_mutex := fun w => (0, w);
  cy_rtos_exit_thread := fun w => (0, w);
  xTaskGetTickCount := fun w => (0, w);
  vTaskDelay := fun _ w => w;
  cyhal_gpio_init := fun _ _ _ _ w => (0, w);
  cyhal_gpio_write := fun _ _ w => w;
  cyhal_spi_init := fun _ w => (0, w);
  cyhal_spi_set_frequency := fun _ w => (0, w);
  cyhal_uart_getc := fun old _ => getc old;
  cyhal_uart_putc := fun _ w => (0, w);
  mtb_radar_sensing_init := fun _ _ => pop_engine;
  mtb_radar_sensing_register_callback := pop_engine;
  mtb_radar_sensing_set_parameter := fun _ _ => pop_engine;
  mtb_radar_sensing_get_parameter := fun _ _ w => ((0, [NUL]), w);
  mtb_radar_sensing_enable := pop_engine;
  mtb_radar_sensing_process := fun _ => process;
  float_of_uint64 := inject_Z;
  float_of_int := inject_Z;
  fadd := Qplus;
  fsub := Qminus;
  fdiv := Qdiv
|}.

(** A bench with a quiet terminal, a free gate and a healthy engine. *)
Definition idle : bench := {| uart_rx := []; gate := []; engine := []; pending := [] |}.

(** A bench on whose terminal [keys] are typed. *)
Definition typing (keys : list uint8_t) : bench :=
  {| uart_rx := keys; gate := []; engine := []; pending := [] |}.

(** The array [value] of the command loop, with arbitrary content. *)
Definition scratch (cells : nat) : list uint8_t := repeat "x"%char cells.

(** PresenceIn(distance = 2.0, accuracy = 0.3) at 1500 ms, then
    PresenceOut at 4250 ms. *)
Definition scripted_events
  : list (mtb_radar_sensing_event_t * mtb_radar_sensing_event_info_t Q) :=
  [(MTB_RADAR_SENSING_EVENT_PRESENCE_IN,
    {| timestamp := 1500; distance := 2%Q; accuracy := (3 # 10)%Q |});
   (MTB_RADAR_SENSING_EVENT_PRESENCE_OUT,
    {| timestamp := 4250; distance := 0%Q; accuracy := 0%Q |})].

(** A bench whose gate refuses the first acquisition. *)
Definition contended : bench :=
  {| uart_rx := []; gate := [1]; engine := []; pending := [] |}.

(** A bench whose engine answers the coming calls with [script]. *)
Definition engine_answers (script : list cy_rslt_t) : bench :=
  {| uart_rx := []; gate := []; engine := script; pending := [] |}.

End Bench.

(** ** Replaying a run on the platform *)

Section Replay.

Context {W F : Type} {P : Platform W F}.

(** The world a run has reached. *)
Definition world {A} (o : outcome W F A) : W :=
  match o with
  | Returned _ w _ | Halted w _ | Undefined w _ | Running w _ => w
  end.

(** [asked a w w']: called in the world [w] with the arguments recorded
    in [a], the platform gave the result recorded in [a] and left the
    world [w']. A read of the UART does not record what the receive
    variable held before it. A process step is not answered in one
    piece, since the engine calls back before it returns: see
    [genuine]. *)
Definition asked (a : action F) (w w' : W) : Prop :=
  match a with
  | MutexInit r => cy_rtos_init_mutex w = (r, w')
  | MutexGet timeout_ms r => cy_rtos_get_mutex timeout_ms w = (r, w')
  | MutexRelease r => cy_rtos_set_mutex w = (r, w')
  | GpioInit p d m v r => cyhal_gpio_init p d m v w = (r, w')
  | GpioWrite p v => cyhal_gpio_write p v w = w'
  | SpiInit bits r => cyhal_spi_init bits w = (r, w')
  | SpiSetFrequency hz r => cyhal_spi_set_frequency hz w = (r, w')
  | UartGetc timeout r b =>
      exists old : uint8_t, cyhal_uart_getc old timeout w = ((r, b), w')
  | UartPutc b r => cyhal_uart_putc b w = (r, w')
  | EngineInit cfg mask r => mtb_radar_sensing_init cfg mask w = (r, w')
  | EngineRegisterCallback r => mtb_radar_sensing_register_callback w = (r, w')
  | EngineSetParameter name value r =>
      mtb_radar_sensing_set_parameter name value w = (r, w')
  | EngineGetParameter name maxlen r value =>
      mtb_radar_sensing_get_parameter name maxlen w = ((r, value), w')
  | EngineEnable r => mtb_radar_sensing_enable w = (r, w')
  | EngineProcess _ _ => False
  | TickCount ticks => xTaskGetTickCount w = (ticks, w')
  | TaskDelay ticks => vTaskDelay ticks w = w'
  | ExitThread r => cy_rtos_exit_thread w = (r, w')
  | Printf _ _ => w' = w
  end.

(** The call [a] with the result [r] in place of the one recorded. *)
Definition set_result (r : cy_rslt_t) (a : action F) : action F :=
  match a with
  | MutexInit _ => MutexInit r
  | MutexGet timeout_ms _ => MutexGet timeout_ms r
  | MutexRelease _ => MutexRelease r
  | GpioInit p d m v _ => GpioInit p d m v r
  | SpiInit bits _ => SpiInit bits r
  | SpiSetFrequency hz _ => SpiSetFrequency hz r
  | UartGetc timeout _ b => UartGetc timeout r b
  | UartPutc b _ => UartPutc b r
  | EngineInit cfg mask _ => EngineInit cfg mask r
  | EngineRegisterCallback _ => EngineRegisterCallback r
  | EngineSetParameter name value _ => EngineSetParameter name value r
  | EngineGetParameter name maxlen _ value => EngineGetParameter name maxlen r value
  | EngineEnable _ => EngineEnable r
  | EngineProcess ts _ => EngineProcess ts r
  | ExitThread _ => ExitThread r
  | GpioWrite _ _ | TickCount _ | TaskDelay _ | Printf _ _ => a
  end.

(** [genuine w t w']: the calls [t] are what the platform answered, one
    after the other, from the world [w] to the world [w']. A process
    step is recorded where it returns: the calls made between its
    start and its return (the callback's) come before it in [t], and
    are answered from the world the engine left. *)
Inductive genuine : W -> list (action F) -> W -> Prop :=
| genuine_nil (w : W) : genuine w [] w
| genuine_call (a : action F) (w w1 w' : W) (t : list (action F)) :
    asked a w w1 -> genuine w1 t w' -> genuine w (a :: t) w'
| genuine_process (ts : Z) (r : cy_rslt_t)
    (events : list (mtb_radar_sensing_event_t * mtb_radar_sensing_event_info_t F))
    (w w1 w2 w' : W) (td t : list (action F)) :
    mtb_radar_sensing_process ts w = ((r, events), w1) ->
    genuine w1 td w2 ->
    genuine w2 t w' ->
    genuine w (td ++ EngineProcess ts r :: t) w'.

(** A run whose calls are genuine and whose world is the one they
    leave. *)
Definition genuine_run {A} (w : W) (o : outcome W F A) : Prop :=
  genuine w (calls o) (world o).

(** [feeds rx_value w keys]: from the world [w], with [rx_value] in the
    receive variable, the terminal hands the bytes [keys], in this
    order, to successive reads with timeout 0, each followed by the echo
    of the byte read. *)
Fixpoint feeds (rx_value : uint8_t) (w : W) (keys : list uint8_t) : Prop :=
  match keys with
  | [] => True
  | k :: rest =>
      snd (fst (cyhal_uart_getc rx_value 0 w)) = k /\
      feeds k (snd (cyhal_uart_putc k (snd (cyhal_uart_getc rx_value 0 w)))) rest
  end.

End Replay.

(** ** [float] and the text of a [printf]

    The C type [float] is IEEE 754 binary32 (24 bits of precision,
    round to nearest, ties to even), as on the Cortex-M4 the code is
    built for; a [float] argument of [printf] is promoted to [double],
    which changes no value. Neither the arithmetic nor [printf] is
    part of the sources: the first follows the IEEE standard, the
    second the C standard's [%.Nf] (the exact value of the argument,
    correctly rounded to [N] decimals) and [%s]. *)

Definition float32_of_Z (z : Z) : spec_float := binary_normalize 24 128 z 0 false.
Definition float32_add : spec_float -> spec_float -> spec_float := SFadd 24 128.
Definition float32_sub : spec_float -> spec_float -> spec_float := SFsub 24 128.
Definition float32_div : spec_float -> spec_float -> spec_float := SFdiv 24 128.

Definition is_nan (x : spec_float) : bool :=
  match x with
  | S754_nan => true
  | _ => false
  end.

(** Zero or a finite number: neither an infinity nor a NaN. *)
Definition is_number (x : spec_float) : bool :=
  match x with
  | S754_zero _ | S754_finite _ _ _ => true
  | _ => false
  end.

Definition decimal_digit (d : Z) : ascii := ascii_of_N (48 + Z.to_N d).

(** The last [n] decimal digits of [k]. *)
Fixpoint decimal_digits (n : nat) (k : Z) : string :=
  match n with
  | O => EmptyString
  | S n' => (decimal_digits n' (k / 10) ++ String (decimal_digit (k mod 10)) EmptyString)%string
  end.

(** The decimal digits of [k], without leading zeros. *)
Definition decimal (k : Z) : string := NilZero.string_of_uint (N.to_uint (Z.to_N k)).

(** [num / den] rounded to the nearest integer, a tie to the even one. *)
Definition round_half_even (num den : Z) : Z :=
  match 2 * (num mod den) ?= den with
  | Lt => num / den
  | Gt => num / den + 1
  | Eq => if Z.even (num / den) then num / den else num / den + 1
  end.

(** [k] over [10 ^ n] with [n] decimals. *)
Definition fixed_point (n : nat) (k : Z) : string :=
  (decimal (k / 10 ^ Z.of_nat n) ++
   match n with
   | O => EmptyString
   | S _ => String "."%char (decimal_digits n k)
   end)%string.

Definition minus_sign (s : bool) : string := if s then "-" else EmptyString.

(** [m * 2 ^ e * 10 ^ n], rounded to an integer. *)
Definition scaled (n : nat) (m : positive) (e : Z) : Z :=
  if 0 <=? e then Zpos m * 2 ^ e * 10 ^ Z.of_nat n
  else round_half_even (Zpos m * 10 ^ Z.of_nat n) (2 ^ (- e)).

(** What [%.Nf] prints for [x]. The sign the C library may put before
    [nan] is not modelled. *)
Definition fixed (n : nat) (x : spec_float) : string :=
  match x with
  | S754_nan => "nan"
  | S754_infinity s => (minus_sign s ++ "inf")%string
  | S754_zero s => (minus_sign s ++ fixed_point n 0)%string
  | S754_finite s m e => (minus_sign s ++ fixed_point n (scaled n m e))%string
  end.

(** The text a [printf] call writes for the directives the two files
    use, [%.Nf] with one digit [N] and [%s]; the other characters of
    the format are copied as the source spells them. *)
Fixpoint console_text (fmt : string) (args : list (printf_arg spec_float)) : option string :=
  match fmt with
  | EmptyString => Some EmptyString
  | String c rest =>
      if Ascii.eqb c "%" then
        match rest with
        | String c1 rest1 =>
            if Ascii.eqb c1 "s" then
              match args with
              | ArgString s :: args' => option_map (String.append s) (console_text rest1 args')
              | _ => None
              end
            else
              match rest1 with
              | String d (String c3 rest3) =>
                  if Ascii.eqb c1 "." && Ascii.eqb c3 "f" then
                    match args with
                    | ArgFloat x :: args' =>
                        option_map
                          (String.append (fixed (N.to_nat (N_of_ascii d - 48)) x))
                          (console_text rest3 args')
                    | _ => None
                    end
                  else None
              | _ => None
              end
        | EmptyString => None
        end
      else option_map (String c) (console_text rest args)
  end.

Definition is_digit (c : ascii) : bool :=
  ((48 <=? N_of_ascii c) && (N_of_ascii c <=? 57))%N.

(** A number written with [n] decimals: an optional minus sign, at
    least one digit, a point and [n] digits. *)
Definition decimals (n : nat) (s : string) : Prop :=
  exists (sign : bool) (whole frac : string),
    s = (minus_sign sign ++ whole ++ String "."%char frac)%string /\
    whole <> EmptyString /\
    forallb is_digit (list_ascii_of_string whole) = true /\
    forallb is_digit (list_ascii_of_string frac) = true /\
    String.length frac = n.

(** A platform whose [float] is binary32. *)
Definition binary32_arith {W : Type} (P : Platform W spec_float) : Prop :=
  (forall z : Z, float_of_uint64 z = float32_of_Z z) /\
  (forall z : Z, float_of_int z = float32_of_Z z) /\
  (forall x y : spec_float, fadd x y = float32_add x y) /\
  (forall x y : spec_float, fsub x y = float32_sub x y) /\
  (forall x y : spec_float, fdiv x y = float32_div x y).

(** ** A second bench: binary32 floats and a running clock *)

Module Bench32.

(** The tick counter, the answers the console mutex will give, and the
    events the engine holds for the next process step. *)
Record bench32 := {
  clock : Z;
  gate32 : list cy_rslt_t;
  pending32 : list (mtb_radar_sensing_event_t * mtb_radar_sensing_event_info_t spec_float)
}.

Definition pop_gate32 (w : bench32) : cy_rslt_t * bench32 :=
  match gate32 w with
  | [] => (0, w)
  | r :: rest => (r, {| clock := clock w; gate32 := rest; pending32 := pending32 w |})
  end.

(** A tick counter of 32 bits at 100 Hz: one tick is 10 ms. *)
#[export] Instance bench32_platform : Platform bench32 spec_float := {|
  CY_RSLT_SUCCESS := 0;
  MTB_RADAR_SENSING_SUCCESS := 0;
  CY_RTOS_NEVER_TIMEOUT := 4294967295;
  MTB_RADAR_SENSING_MASK_PRESENCE_EVENTS := 1;
  MTB_RADAR_SENSING_PROCESS_DELAY := 2;
  portTICK_PERIOD_MS := 10;
  cy_rtos_init_mutex := fun w => (0, w);
  cy_rtos_get_mutex := fun _ => pop_gate32;
  cy_rtos_set_mutex := fun w => (0, w);
  cy_rtos_exit_thread := fun w => (0, w);
  xTaskGetTickCount := fun w => (clock w, w);
  vTaskDelay := fun ticks w =>
    {| clock := (clock w + ticks) mod 2 ^ 32; gate32 := gate32 w; pending32 := pending32 w |};
  cyhal_gpio_init := fun _ _ _ _ w => (0, w);
  cyhal_gpio_write := fun _ _ w => w;
  cyhal_spi_init := fun _ w => (0, w);
  cyhal_spi_set_frequency := fun _ w => (0, w);
  cyhal_uart_getc := fun old _ w => ((1, old), w);
  cyhal_uart_putc := fun _ w => (0, w);
  mtb_radar_sensing_init := fun _ _ w => (0, w);
  mtb_radar_sensing_register_callback := fun w => (0, w);
  mtb_radar_sensing_set_parameter := fun _ _ w => (0, w);
  mtb_radar_sensing_get_parameter := fun _ _ w => ((0, [NUL]), w);
  mtb_radar_sensing_enable := fun w => (0, w);
  mtb_radar_sensing_process := fun _ w =>
    ((0, pending32 w), {| clock := clock w; gate32 := gate32 w; pending32 := [] |});
  float_of_uint64 := float32_of_Z;
  float_of_int := float32_of_Z;
  fadd := float32_add;
  fsub := float32_sub;
  fdiv := float32_div
|}.

(** The bench when the tick counter reads [ticks], with a free gate
    and no event pending. *)
Definition at_tick (ticks : Z) : bench32 :=
  {| clock := ticks; gate32 := []; pending32 := [] |}.

(** The bench with a gate that refuses the first acquisition. *)
Definition busy_at_tick (ticks : Z) : bench32 :=
  {| clock := ticks; gate32 := [1]; pending32 := [] |}.

(** 2.0 and 0.3 as [float]: 0.3 is the binary32 number nearest to
    three tenths. *)
Definition two : spec_float := float32_of_Z 2.
Definition three_tenths : spec_float := float32_div (float32_of_Z 3) (float32_of_Z 10).

(** PresenceIn(distance = 2.0, accuracy = 0.3) at 1500 ms. *)
Definition presence_in_info : mtb_radar_sensing_event_info_t spec_float :=
  {| timestamp := 1500; distance := two; accuracy := three_tenths |}.

(** PresenceOut at 4250 ms. *)
Definition presence_out_info : mtb_radar_sensing_event_info_t spec_float :=
  {| timestamp := 4250; distance := S754_zero false; accuracy := S754_zero false |}.

End Bench32.

(** ** The event callback *)

Section Callback.

Context {W F : Type} {P : Platform W F}.

Lemma after_after {A} (t1 t2 : list (action F)) (o : outcome W F A) :
  after t1 (after t2 o) = after (t1 ++ t2) o.
Proof. destruct o; simpl; rewrite app_assoc; reflexivity. Qed.

Lemma calls_after {A} (t : list (action F)) (o : outcome W F A) :
  calls (after t o) = t ++ calls o.
Proof. destruct o; reflexivity. Qed.

Lemma bind_returned {A B} (m : task W F A) (k : A -> task W F B)
  (w w1 : W) (a : A) (t : list (action F)) :
  m w = Returned a w1 t -> bind m k w = after t (k a w1).
Proof. intros H. unfold bind. rewrite H. reflexivity. Qed.

(** The callback on a PRESENCE_IN event, call by call. *)
Lemma callback_presence_in (event_info : mtb_radar_sensing_event_info_t F) (w : W) :
  let w2 := cyhal_gpio_write LED_RGB_GREEN false (cyhal_gpio_write LED_RGB_RED true w) in
  let r := fst (cy_rtos_get_mutex 0 w2) in
  let w3 := snd (cy_rtos_get_mutex 0 w2) in
  radar_sensing_callback MTB_RADAR_SENSING_EVENT_PRESENCE_IN event_info w =
  if decide (r = CY_RSLT_SUCCESS) then
    Returned tt (snd (cy_rtos_set_mutex w3))
      [GpioWrite LED_RGB_RED true; GpioWrite LED_RGB_GREEN false; MutexGet 0 r;
       Printf (fst (presence_in_line event_info)) (snd (presence_in_line event_info));
       MutexRelease (fst (cy_rtos_set_mutex w3))]
  else
    Returned tt w3 [GpioWrite LED_RGB_RED true; GpioWrite LED_RGB_GREEN false; MutexGet 0 r].
Proof.
  intros w2 r w3. subst w2 r w3.
  unfold radar_sensing_callback, bind, gpio_write, call_void,
    radar_presence_terminal_mutex_get, radar_presence_terminal_mutex_release, call, printf, ret.
  simpl.
  destruct (cy_rtos_get_mutex 0 _) as [r w3]. simpl.
  destruct (decide (r = CY_RSLT_SUCCESS)); simpl; [|reflexivity].
  destruct (cy_rtos_set_mutex w3) as [r' w4]. reflexivity.
Qed.

Lemma callback_presence_out (event_info : mtb_radar_sensing_event_info_t F) (w : W) :
  let w2 := cyhal_gpio_write LED_RGB_GREEN true (cyhal_gpio_write LED_RGB_RED false w) in
  let r := fst (cy_rtos_get_mutex 0 w2) in
  let w3 := snd (cy_rtos_get_mutex 0 w2) in
  radar_sensing_callback MTB_RADAR_SENSING_EVENT_PRESENCE_OUT event_info w =
  if decide (r = CY_RSLT_SUCCESS) then
    Returned tt (snd (cy_rtos_set_mutex w3))
      [GpioWrite LED_RGB_RED false; GpioWrite LED_RGB_GREEN true; MutexGet 0 r;
       Printf (fst (presence_out_line event_info)) (snd (presence_out_line event_info));
       MutexRelease (fst (cy_rtos_set_mutex w3))]
  else
    Returned tt w3 [GpioWrite LED_RGB_RED false; GpioWrite LED_RGB_GREEN true; MutexGet 0 r].
Proof.
  intros w2 r w3. subst w2 r w3.
  unfold radar_sensing_callback, bind, gpio_write, call_void,
    radar_presence_terminal_mutex_get, radar_presence_terminal_mutex_release, call, printf, ret.
  simpl.
  destruct (cy_rtos_get_mutex 0 _) as [r w3]. simpl.
  destruct (decide (r = CY_RSLT_SUCCESS)); simpl; [|reflexivity].
  destruct (cy_rtos_set_mutex w3) as [r' w4]. reflexivity.
Qed.

Lemma indicator_app (p : gpio_pin) (t1 t2 : list (action F)) :
  indicator p (t1 ++ t2) =
  match indicator p t2 with
  | Some v => Some v
  | None => indicator p t1
  end.
Proof.
  induction t1 as [|a t1 IH]; simpl.
  - destruct (indicator p t2); reflexivity.
  - destruct a; try exact IH.
    rewrite IH. destruct (indicator p t2); reflexivity.
Qed.

Lemma prints_app (t1 t2 : list (action F)) : prints (t1 ++ t2) = prints t1 ++ prints t2.
Proof.
  induction t1 as [|a t1 IH]; simpl; [reflexivity|].
  destruct a; simpl; rewrite ?IH; reflexivity.
Qed.

Lemma gate_ops_app (t1 t2 : list (action F)) :
  gate_ops (t1 ++ t2) = gate_ops t1 ++ gate_ops t2.
Proof.
  induction t1 as [|a t1 IH]; simpl; [reflexivity|].
  destruct a; simpl; rewrite ?IH; reflexivity.
Qed.

(** C10. For an event that is neither PRESENCE_IN nor PRESENCE_OUT the
    callback returns at once: no call is made (no LED write, no mutex
    request, no print) and the world is as it was. *)
Theorem callback_ignores_other_events
  (event : mtb_radar_sensing_event_t) (event_info : mtb_radar_sensing_event_info_t F) (w : W) :
  event <> MTB_RADAR_SENSING_EVENT_PRESENCE_IN ->
  event <> MTB_RADAR_SENSING_EVENT_PRESENCE_OUT ->
  radar_sensing_callback event event_info w = Returned tt w [].
Proof.
  intros Hin Hout. destruct event; [contradiction | contradiction | reflexivity].
Qed.

End Callback.

(** ** The line editor *)

Lemma length_write_at (bs : list uint8_t) : forall (i : nat) (line : list uint8_t),
  length (write_at i bs line) = length line.
Proof.
  induction bs as [|b bs IH]; intros i line; simpl; [reflexivity|].
  rewrite IH. apply length_insert.
Qed.

Lemma write_at_snoc (bs : list uint8_t) (b : uint8_t) : forall (i : nat) (line : list uint8_t),
  write_at i (bs ++ [b]) line = <[(i + length bs)%nat := b]> (write_at i bs line).
Proof.
  induction bs as [|c bs IH]; intros i line; simpl.
  - rewrite Nat.add_0_r. reflexivity.
  - rewrite IH. f_equal. lia.
Qed.

Lemma write_at_extra (bs : list uint8_t) : forall (i : nat) (line extra : list uint8_t),
  (i + length bs <= length line)%nat ->
  write_at i bs (line ++ extra) = write_at i bs line ++ extra.
Proof.
  induction bs as [|b bs IH]; intros i line extra Hlen; simpl in *; [reflexivity|].
  rewrite insert_app_l by lia.
  apply IH. rewrite length_insert. lia.
Qed.

Lemma write_at_lookup_below (bs : list uint8_t) : forall (i k : nat) (line : list uint8_t),
  (k < i)%nat -> write_at i bs line !! k = line !! k.
Proof.
  induction bs as [|b bs IH]; intros i k line Hk; simpl; [reflexivity|].
  rewrite IH by lia. apply list_lookup_insert_ne. lia.
Qed.

Lemma write_at_lookup (bs : list uint8_t) : forall (i k : nat) (line : list uint8_t),
  (i + length bs <= length line)%nat ->
  (k < length bs)%nat ->
  write_at i bs line !! (i + k)%nat = bs !! k.
Proof.
  induction bs as [|b bs IH]; intros i k line Hlen Hk; simpl in *; [lia|].
  destruct k as [|k].
  - rewrite Nat.add_0_r, write_at_lookup_below by lia.
    simpl. apply list_lookup_insert_eq. lia.
  - replace (i + S k)%nat with (S i + k)%nat by lia.
    rewrite IH; [reflexivity | rewrite length_insert; lia | lia].
Qed.

Lemma write_at_lookup_above (bs : list uint8_t) : forall (i k : nat) (line : list uint8_t),
  (i + length bs <= k)%nat -> write_at i bs line !! k = line !! k.
Proof.
  induction bs as [|b bs IH]; intros i k line Hk; simpl in *; [reflexivity|].
  rewrite IH by lia. apply list_lookup_insert_ne. lia.
Qed.

Lemma write_at_take (bs line : list uint8_t) :
  (length bs <= length line)%nat ->
  take (length bs) (write_at 0 bs line) = bs.
Proof.
  intros Hlen. apply list_eq. intros k.
  destruct (decide (k < length bs)%nat) as [Hk|Hk].
  - rewrite lookup_take_lt by exact Hk.
    apply (write_at_lookup bs 0 k line); simpl; lia.
  - rewrite lookup_take_ge by lia. symmetry. apply lookup_ge_None. lia.
Qed.

(** A buffer that starts with [bs] and a NUL holds the string [bs],
    provided no NUL is among [bs]. *)
Lemma c_string_prefix (bs rest : list uint8_t) :
  ~ In NUL bs -> c_string (bs ++ NUL :: rest) = string_of_list_ascii bs.
Proof.
  induction bs as [|b bs IH]; intros Hnul; simpl.
  - reflexivity.
  - destruct (decide (b = NUL)) as [->|_].
    + exfalso. apply Hnul. left. reflexivity.
    + rewrite IH; [reflexivity|]. intros Hin. apply Hnul. right. exact Hin.
Qed.

Lemma write_at_prefix (bs line : list uint8_t) :
  (length bs <= length line)%nat ->
  write_at 0 bs line = bs ++ drop (length bs) line.
Proof.
  intros Hlen.
  rewrite <- (take_drop (length bs) (write_at 0 bs line)).
  rewrite write_at_take by exact Hlen. f_equal.
  apply list_eq. intros k. rewrite !lookup_drop.
  apply write_at_lookup_above. simpl. lia.
Qed.

Lemma length_kept (rcv : list uint8_t) : (length (kept rcv) <= length rcv)%nat.
Proof. apply List.filter_length_le. Qed.

Lemma last_cons_default (b d : uint8_t) (rcv : list uint8_t) :
  List.last (b :: rcv) d = List.last rcv b.
Proof.
  revert b d. induction rcv as [|c rcv IH]; intros b d; [reflexivity|].
  change (List.last (b :: c :: rcv) d) with (List.last (c :: rcv) d).
  rewrite (IH c d), (IH c b). reflexivity.
Qed.

Lemma removelast_no_cr (b : uint8_t) (rcv : list uint8_t) :
  (b = CR -> rcv = []) ->
  ~ In CR (removelast rcv) ->
  ~ In CR (removelast (b :: rcv)).
Proof.
  intros Hb Hno. destruct rcv as [|c rest]; [simpl; tauto|].
  change (removelast (b :: c :: rest)) with (b :: removelast (c :: rest)).
  intros [E|Hin]; [|exact (Hno Hin)].
  specialize (Hb E). discriminate.
Qed.

Section LineEditor.

Context {W F : Type} {P : Platform W F}.

Lemma received_app (t1 t2 : list (action F)) : received (t1 ++ t2) = received t1 ++ received t2.
Proof.
  induction t1 as [|a t1 IH]; simpl; [reflexivity|].
  destruct a; simpl; rewrite ?IH; reflexivity.
Qed.

Lemma echoed_app (t1 t2 : list (action F)) : echoed (t1 ++ t2) = echoed t1 ++ echoed t2.
Proof.
  induction t1 as [|a t1 IH]; simpl; [reflexivity|].
  destruct a; simpl; rewrite ?IH; reflexivity.
Qed.

Lemma terminal_ui_readline_loop_eq
  (n : nat) (line : list uint8_t) (maxlength i : Z) (rx_value : uint8_t) :
  terminal_ui_readline_loop n line maxlength i rx_value =
  if decide (rx_value = CR) then ret (line, i)
  else
    if decide (maxlength - 1 > 0) then
      match n with
      | O => fun w => Running w []
      | S n' =>
          do got <- uart_getc rx_value 0 in
          run uart_putc (snd got) in
          if isspace (snd got) then
            terminal_ui_readline_loop n' line (maxlength - 1) i (snd got)
          else
            do line <- store line i (snd got) in
            terminal_ui_readline_loop n' line (maxlength - 1) (i + 1) (snd got)
      end
    else ret (line, i).
Proof. destruct n; reflexivity. Qed.

(** One run of the loop, for every array long enough: the calls made
    and the world reached do not depend on the array, the kept bytes
    land at [i], [i + 1], ..., and reading stops at the first carriage
    return or after [maxlength - 1] bytes. *)
Lemma terminal_ui_readline_loop_run (n : nat) :
  forall (maxlength i : Z) (rx_value : uint8_t) (w : W),
    (Z.to_nat maxlength <= n)%nat ->
    0 <= i ->
    exists (w' : W) (t : list (action F)),
      (forall line : list uint8_t,
         i + Z.max (maxlength - 1) 0 <= Z.of_nat (length line) ->
         terminal_ui_readline_loop n line maxlength i rx_value w =
         Returned (write_at (Z.to_nat i) (kept (received t)) line,
                   i + Z.of_nat (length (kept (received t)))) w' t) /\
      echoed t = received t /\
      gate_ops t = [] /\
      prints t = [] /\
      engine_calls t = [] /\
      Z.of_nat (length t) = 2 * Z.of_nat (length (received t)) /\
      Z.of_nat (length (received t)) <= Z.max (maxlength - 1) 0 /\
      (rx_value = CR -> received t = []) /\
      ~ In CR (removelast (received t)) /\
      (List.last (received t) rx_value = CR \/
       Z.of_nat (length (received t)) = Z.max (maxlength - 1) 0).
Proof.
  induction n as [|n IH]; intros maxlength i rx_value w Hn Hi.
  - exists w, [].
    split; [|simpl; repeat split; try lia; auto].
    intros line _. rewrite terminal_ui_readline_loop_eq.
    destruct (decide (rx_value = CR));
      [|destruct (decide (maxlength - 1 > 0)); [lia|]];
      simpl; rewrite Z.add_0_r; reflexivity.
  - destruct (decide (rx_value = CR)) as [Hcr|Hcr].
    { exists w, [].
      split; [|simpl; repeat split; try lia; auto].
      intros line _. rewrite terminal_ui_readline_loop_eq.
      destruct (decide (rx_value = CR)); [|contradiction].
      simpl. rewrite Z.add_0_r. reflexivity. }
    destruct (decide (maxlength - 1 > 0)) as [Hm|Hm].
    2:{ exists w, [].
        split; [|simpl; repeat split; try lia; auto; right; lia].
        intros line _. rewrite terminal_ui_readline_loop_eq.
        destruct (decide (rx_value = CR)); [contradiction|].
        destruct (decide (maxlength - 1 > 0)); [lia|].
        simpl. rewrite Z.add_0_r. reflexivity. }
    destruct (cyhal_uart_getc rx_value 0 w) as [[r b] w1] eqn:Eg.
    destruct (cyhal_uart_putc b w1) as [r2 w2] eqn:Ep.
    destruct (isspace b) eqn:Esp.
    + destruct (IH (maxlength - 1) i b w2) as (w' & t & Hrun & He & Hg & Hp & Hec & Hl & Hlen & Hcr' & Hno & Hlast);
        [lia | lia |].
      exists w', ([UartGetc 0 r b; UartPutc b r2] ++ t).
      split; [|repeat split].
      * intros line Hline. rewrite terminal_ui_readline_loop_eq.
        destruct (decide (rx_value = CR)); [contradiction|].
        destruct (decide (maxlength - 1 > 0)); [|lia].
        unfold bind, uart_getc, uart_putc, call. rewrite Eg. simpl. rewrite Ep. simpl.
        rewrite Esp, Hrun by lia. reflexivity.
      * simpl. rewrite He. reflexivity.
      * simpl. exact Hg.
      * simpl. exact Hp.
      * simpl. exact Hec.
      * simpl length in *. lia.
      * simpl length. lia.
      * intros; contradiction.
      * simpl received. apply removelast_no_cr; assumption.
      * simpl received. rewrite last_cons_default.
        destruct Hlast as [Hlast|Hlast]; [left; exact Hlast | right; simpl length; lia].
    + destruct (IH (maxlength - 1) (i + 1) b w2) as (w' & t & Hrun & He & Hg & Hp & Hec & Hl & Hlen & Hcr' & Hno & Hlast);
        [lia | lia |].
      exists w', ([UartGetc 0 r b; UartPutc b r2] ++ t).
      split; [|repeat split].
      * intros line Hline. rewrite terminal_ui_readline_loop_eq.
        destruct (decide (rx_value = CR)); [contradiction|].
        destruct (decide (maxlength - 1 > 0)); [|lia].
        unfold bind, uart_getc, uart_putc, call, store. rewrite Eg. simpl. rewrite Ep. simpl.
        rewrite Esp.
        destruct (decide (0 <= i < Z.of_nat (length line))); [|lia].
        simpl. rewrite Hrun by (rewrite length_insert; lia).
        simpl.
        replace (Z.to_nat (i + 1)) with (S (Z.to_nat i)) by lia.
        f_equal. f_equal. lia.
      * simpl. rewrite He. reflexivity.
      * simpl. exact Hg.
      * simpl. exact Hp.
      * simpl. exact Hec.
      * simpl length in *. lia.
      * simpl length. lia.
      * intros; contradiction.
      * simpl received. apply removelast_no_cr; assumption.
      * simpl received. rewrite last_cons_default.
        destruct Hlast as [Hlast|Hlast]; [left; exact Hlast | right; simpl length; lia].
Qed.

(** One call of [terminal_ui_readline] with a positive [maxlength], for
    every array of at least [maxlength] cells. *)
Lemma terminal_ui_readline_run (maxlength : Z) (w : W) :
  0 < maxlength ->
  exists (r r' : cy_rslt_t) (w' : W) (t : list (action F)),
    (forall line : list uint8_t,
       maxlength <= Z.of_nat (length line) ->
       terminal_ui_readline line maxlength w =
       Returned (write_at 0 (kept (received t) ++ [NUL]) line) w' t) /\
    echoed t = received t ++ [LF] /\
    gate_ops t = [Some (CY_RTOS_NEVER_TIMEOUT, r); None] /\
    prints t = [] /\
    engine_calls t = [] /\
    Z.of_nat (length (received t)) <= maxlength - 1 /\
    ~ In CR (removelast (received t)) /\
    (List.last (received t) NUL = CR \/ Z.of_nat (length (received t)) = maxlength - 1).
Proof.
  intros Hm.
  destruct (cy_rtos_get_mutex CY_RTOS_NEVER_TIMEOUT w) as [r w1] eqn:Eget.
  destruct (terminal_ui_readline_loop_run (Z.to_nat maxlength) maxlength 0 NUL w1)
    as (w2 & tl & Hrun & He & Hg & Hp & Hec & _ & Hlen & _ & Hno & Hlast); [lia | lia |].
  destruct (cyhal_uart_putc LF w2) as [r2 w3] eqn:Eput.
  destruct (cy_rtos_set_mutex w3) as [r' w4] eqn:Eset.
  exists r, r', w4,
    (MutexGet CY_RTOS_NEVER_TIMEOUT r :: tl ++ [UartPutc LF r2; MutexRelease r']).
  pose proof (length_kept (received tl)) as Hk.
  assert (Hr : received (MutexGet CY_RTOS_NEVER_TIMEOUT r :: tl ++ [UartPutc LF r2; MutexRelease r'])
               = received tl).
  { simpl. rewrite received_app. simpl. apply app_nil_r. }
  rewrite Hr. split; [|repeat split].
  - intros line Hline.
    unfold terminal_ui_readline, radar_presence_task_set_mute, bind,
      radar_presence_terminal_mutex_get, radar_presence_terminal_mutex_release, call, ret.
    rewrite Eget. simpl.
    destruct (decide (maxlength <= 0)); [lia|].
    rewrite Hrun by lia. simpl.
    unfold uart_putc, call, store. rewrite Eput. simpl.
    rewrite length_write_at, Z.add_0_l, Nat2Z.id.
    destruct (decide (0 <= Z.of_nat (length (kept (received tl))) < Z.of_nat (length line)));
      [|lia].
    simpl. rewrite Eset. simpl.
    rewrite write_at_snoc. reflexivity.
  - simpl. rewrite echoed_app, He. reflexivity.
  - simpl. rewrite gate_ops_app, Hg. reflexivity.
  - simpl. rewrite prints_app, Hp. reflexivity.
  - unfold engine_calls in *. simpl. rewrite List.filter_app, Hec. reflexivity.
  - lia.
  - exact Hno.
  - destruct Hlast as [Hlast|Hlast]; [left; exact Hlast | right; lia].
Qed.

(** C9. With [maxlength] positive and an array of exactly [maxlength]
    cells, no store of the line editor leaves the array (the terminating
    NUL included): the call returns, whatever bytes arrive, after at
    most [maxlength - 1] reads. On a longer array the same call makes
    the same requests and leaves every cell from [maxlength] on as it
    was. *)
Theorem line_editor_stays_in_bounds (line : list uint8_t) (maxlength : Z) (w : W) :
  0 < maxlength ->
  Z.of_nat (length line) = maxlength ->
  exists (line' : list uint8_t) (w' : W) (t : list (action F)),
    terminal_ui_readline line maxlength w = Returned line' w' t /\
    length line' = length line /\
    Z.of_nat (length (received t)) <= maxlength - 1 /\
    forall extra : list uint8_t,
      terminal_ui_readline (line ++ extra) maxlength w = Returned (line' ++ extra) w' t.
Proof.
  intros Hm Hline.
  destruct (terminal_ui_readline_run maxlength w Hm)
    as (r & r' & w' & t & Hrun & _ & _ & _ & _ & Hlen & _ & _).
  pose proof (length_kept (received t)) as Hk.
  exists (write_at 0 (kept (received t) ++ [NUL]) line), w', t.
  split; [apply Hrun; lia|].
  split; [apply length_write_at|].
  split; [exact Hlen|].
  intros extra. rewrite Hrun by (rewrite length_app; lia).
  rewrite write_at_extra; [reflexivity|].
  rewrite length_app. simpl. lia.
Qed.

End LineEditor.

(** ** The command loop *)

Section Configurator.

Context {W F : Type} {P : Platform W F}.

Lemma terminal_ui_print_result_run (result : cy_rslt_t) (w : W) :
  terminal_ui_print_result result w =
  Returned tt w
    [Printf (if decide (result = MTB_RADAR_SENSING_SUCCESS) then "OK\n" else "ERROR\n") []].
Proof.
  unfold terminal_ui_print_result.
  destruct (decide (result = MTB_RADAR_SENSING_SUCCESS)); reflexivity.
Qed.

(** The menu holds the console mutex from its first print to its
    last. *)
Lemma terminal_ui_menu_run (w : W) :
  exists (r r' : cy_rslt_t) (w' : W) (t : list (action F)),
    terminal_ui_menu w = Returned tt w' t /\
    gate_ops t = [Some (CY_RTOS_NEVER_TIMEOUT, r); None] /\
    hd_error t = Some (MutexGet CY_RTOS_NEVER_TIMEOUT r) /\
    List.last t (MutexGet 0 0) = MutexRelease r' /\
    List.map fst (prints t) =
      ["Select a setting to configure\n"; "'r': Set presence max range (%s)\n";
       "'s': Set sensitivity (%s)\n"; "\n"].
Proof.
  unfold terminal_ui_menu, radar_presence_task_set_mute, bind,
    radar_presence_terminal_mutex_get, radar_presence_terminal_mutex_release, call, printf, ret.
  destruct (cy_rtos_get_mutex CY_RTOS_NEVER_TIMEOUT w) as [r w1]. simpl.
  destruct (mtb_radar_sensing_get_parameter "radar_presence_range_max" _ w1) as [[g1 v1] w2].
  simpl.
  destruct (mtb_radar_sensing_get_parameter "radar_presence_sensitivity" _ w2) as [[g2 v2] w3].
  simpl.
  destruct (cy_rtos_set_mutex w3) as [r' w4]. simpl.
  exists r, r', w4. eexists. repeat split.
Qed.

(** A set command, from its prompt to its verdict. *)
Lemma set_command_run (key : uint8_t) (value : list uint8_t) (w : W) :
  key = "r"%char \/ key = "s"%char ->
  IFX_RADAR_SENSING_VALUE_MAXLENGTH <= Z.of_nat (length value) ->
  exists (value' : list uint8_t) (t : list (action F)) (status : cy_rslt_t) (w' : W),
    radar_presence_terminal_ui_switch key value w =
    Returned value' w'
      (Printf (prompt_of_key key) [] :: t ++
       [EngineSetParameter (parameter_of_key key) (c_string value') status;
        Printf (if decide (status = MTB_RADAR_SENSING_SUCCESS) then "OK\n" else "ERROR\n") []]) /\
    prints t = [] /\
    engine_calls t = [].
Proof.
  intros Hkey Hlen.
  destruct (terminal_ui_readline_run IFX_RADAR_SENSING_VALUE_MAXLENGTH w)
    as (r & r' & w1 & t & Hrun & _ & _ & Hp & He & _); [reflexivity|].
  specialize (Hrun value Hlen).
  set (value' := write_at 0 (kept (received t) ++ [NUL]) value) in *.
  destruct (mtb_radar_sensing_set_parameter (parameter_of_key key) (c_string value') w1)
    as [status w2] eqn:Eset.
  exists value', t, status, w2.
  split; [|split; assumption].
  unfold radar_presence_terminal_ui_switch.
  destruct Hkey as [-> | ->].
  - case_decide; [discriminate|].
    case_decide; [|contradiction].
    change (parameter_of_key "r"%char) with "radar_presence_range_max" in Eset.
    rewrite (bind_returned _ _ _ _ _ _ (eq_refl : printf _ [] w = Returned tt w [_])).
    rewrite (bind_returned _ _ _ _ _ _ Hrun).
    unfold bind, call. rewrite Eset, terminal_ui_print_result_run.
    unfold ret. simpl. reflexivity.
  - case_decide; [discriminate|].
    case_decide; [discriminate|].
    case_decide; [|contradiction].
    change (parameter_of_key "s"%char) with "radar_presence_sensitivity" in Eset.
    rewrite (bind_returned _ _ _ _ _ _ (eq_refl : printf _ [] w = Returned tt w [_])).
    rewrite (bind_returned _ _ _ _ _ _ Hrun).
    unfold bind, call. rewrite Eset, terminal_ui_print_result_run.
    unfold ret. simpl. reflexivity.
Qed.

(** C8. A key other than ?, r and s makes the command print the hint
    and do nothing else: no engine call, no LED write, the array and
    the world as they were. *)
Theorem unknown_key_prints_hint (rx_value : uint8_t) (value : list uint8_t) (w : W) :
  rx_value <> "?"%char ->
  rx_value <> "r"%char ->
  rx_value <> "s"%char ->
  radar_presence_terminal_ui_switch rx_value value w =
  Returned value w [Printf "Press '?' to list all radar presence settings\n" []].
Proof.
  intros Hq Hr Hs. unfold radar_presence_terminal_ui_switch.
  destruct (decide (rx_value = "?"%char)); [contradiction|].
  destruct (decide (rx_value = "r"%char)); [contradiction|].
  destruct (decide (rx_value = "s"%char)); [contradiction|].
  reflexivity.
Qed.

(** C1. Called with a [maxlength] that is not positive, the line editor
    asks for the console mutex with an unbounded wait and returns
    without releasing it: the acquisition is its only call, so when it
    succeeded the caller is left with one outstanding hold. *)
Theorem readline_returns_muted (line : list uint8_t) (maxlength : Z) (w : W) :
  maxlength <= 0 ->
  exists (r : cy_rslt_t) (w' : W),
    terminal_ui_readline line maxlength w =
    Returned line w' [MutexGet CY_RTOS_NEVER_TIMEOUT r] /\
    net_holds CY_RSLT_SUCCESS 0 (gate_ops [MutexGet (F := F) CY_RTOS_NEVER_TIMEOUT r]) =
    (if decide (r = CY_RSLT_SUCCESS) then 1 else 0).
Proof.
  intros Hm.
  unfold terminal_ui_readline, radar_presence_task_set_mute, bind,
    radar_presence_terminal_mutex_get, call, ret.
  destruct (cy_rtos_get_mutex CY_RTOS_NEVER_TIMEOUT w) as [r w1]. simpl.
  destruct (decide (maxlength <= 0)); [|contradiction].
  exists r, w1. split; [reflexivity|].
  destruct (decide (r = CY_RSLT_SUCCESS)); reflexivity.
Qed.

End Configurator.

(** ** The sensing task *)

Section SensingTask.

Context {W F : Type} {P : Platform W F}.

Lemma stops_at_failure_inv (t : list (action F)) :
  stops_at_failure t ->
  exists (pre : list (action F)) (a : action F),
    t = pre ++ a :: diagnostic a /\ failed a = true /\ Forall passed pre.
Proof.
  induction t as [|a t IH]; simpl; [tauto|].
  destruct (failed a) eqn:Ea.
  - intros ->. exists [], a. repeat split; [exact Ea | constructor].
  - intros Ht. destruct (IH Ht) as (pre & b & -> & Hb & Hpre).
    exists (a :: pre), b. repeat split; [exact Hb | constructor; assumption].
Qed.

Lemma stops_at_failure_app (pre t : list (action F)) :
  Forall passed pre -> stops_at_failure t -> stops_at_failure (pre ++ t).
Proof.
  induction 1 as [|a pre Ha _ IH]; intros Ht; simpl; [exact Ht|].
  unfold passed in Ha. rewrite Ha. exact (IH Ht).
Qed.

Lemma halts_on_failure_after (pre : list (action F)) (o : outcome W F unit) :
  Forall passed pre -> halts_on_failure o -> halts_on_failure (after pre o).
Proof.
  intros Hpre Ho. destruct o; simpl in *; try contradiction.
  - apply stops_at_failure_app; assumption.
  - apply Forall_app. split; assumption.
Qed.

Lemma radar_sensing_callback_passes
  (event : mtb_radar_sensing_event_t) (event_info : mtb_radar_sensing_event_info_t F) (w : W) :
  exists (w' : W) (t : list (action F)),
    radar_sensing_callback event event_info w = Returned tt w' t /\
    Forall passed t /\ Forall (fun a => loop_call a = true) t.
Proof.
  destruct event.
  - rewrite callback_presence_in. cbv zeta.
    case_decide; do 2 eexists; (split; [reflexivity|]); split; repeat constructor.
  - rewrite callback_presence_out. cbv zeta.
    case_decide; do 2 eexists; (split; [reflexivity|]); split; repeat constructor.
  - exists w, []. repeat split; constructor.
Qed.

Lemma deliver_passes
  (events : list (mtb_radar_sensing_event_t * mtb_radar_sensing_event_info_t F)) :
  forall w : W,
    exists (w' : W) (t : list (action F)),
      deliver events w = Returned tt w' t /\
      Forall passed t /\ Forall (fun a => loop_call a = true) t.
Proof.
  induction events as [|[event event_info] rest IH]; intros w.
  - exists w, []. repeat split; constructor.
  - destruct (radar_sensing_callback_passes event event_info w) as (w1 & t1 & E1 & H1 & C1).
    destruct (IH w1) as (w2 & t2 & E2 & H2 & C2).
    exists w2, (t1 ++ t2). simpl.
    rewrite (bind_returned _ _ _ _ _ _ E1), E2.
    repeat split; apply Forall_app; split; assumption.
Qed.

(** The processing loop never returns; it halts exactly at a failed
    process step, after the diagnostic. *)
Lemma radar_task_loop_halts_on_failure (n : nat) :
  forall w : W, halts_on_failure (radar_task_loop n w).
Proof.
  induction n as [|n IH]; intros w; [constructor|].
  simpl. unfold bind at 1, ifx_currenttime, bind at 1, call, ret.
  destruct (xTaskGetTickCount w) as [ticks w1]. simpl.
  set (now := uint64 (uint64 ticks * portTICK_PERIOD_MS)).
  unfold bind at 1, sensing_process.
  destruct (mtb_radar_sensing_process now w1) as [[r events] w2].
  destruct (deliver_passes events w2) as (w3 & t & Ed & Hd & _).
  rewrite (bind_returned _ _ _ _ _ _ Ed). simpl.
  rewrite after_after.
  unfold bind, printf, CY_ASSERT, call_void, ret.
  destruct (decide (r <> MTB_RADAR_SENSING_SUCCESS)) as [Hr|Hr]; simpl.
  - rewrite <- app_assoc. apply stops_at_failure_app; [exact Hd|]. simpl.
    destruct (decide (r <> MTB_RADAR_SENSING_SUCCESS)); [reflexivity | contradiction].
  - rewrite !after_after. apply halts_on_failure_after; [|apply IH].
    rewrite app_nil_r. simpl.
    constructor; [reflexivity|].
    apply Forall_app. split; [|repeat constructor].
    apply Forall_app. split; [exact Hd|].
    repeat constructor. unfold passed. simpl.
    destruct (decide (r <> MTB_RADAR_SENSING_SUCCESS)); [contradiction | reflexivity].
Qed.

(** Inside the loop nothing but the process step, the tick counter, the
    delay and the callback's calls happens. *)
Lemma radar_task_loop_calls (n : nat) :
  forall w : W, Forall (fun a => loop_call a = true) (calls (radar_task_loop n w)).
Proof.
  induction n as [|n IH]; intros w; [constructor|].
  simpl. unfold bind at 1, ifx_currenttime, bind at 1, call, ret.
  destruct (xTaskGetTickCount w) as [ticks w1]. simpl.
  set (now := uint64 (uint64 ticks * portTICK_PERIOD_MS)).
  unfold bind at 1, sensing_process.
  destruct (mtb_radar_sensing_process now w1) as [[r events] w2].
  destruct (deliver_passes events w2) as (w3 & t & Ed & _ & Hd).
  rewrite (bind_returned _ _ _ _ _ _ Ed). simpl.
  rewrite after_after.
  unfold bind, printf, CY_ASSERT, call_void, ret.
  destruct (decide (r <> MTB_RADAR_SENSING_SUCCESS)) as [Hr|Hr]; simpl.
  - constructor; [reflexivity|]. rewrite <- app_assoc.
    apply Forall_app. split; [exact Hd | repeat constructor].
  - rewrite !after_after, calls_after, app_nil_r. simpl.
    constructor; [reflexivity|].
    apply Forall_app. split; [|apply IH].
    apply Forall_app. split; [|repeat constructor].
    apply Forall_app. split; [exact Hd | repeat constructor].
Qed.

Ltac next_call :=
  match goal with
  | |- context [match ?c with pair _ _ => _ end] =>
      destruct c as [? ?] eqn:?; simpl
  end.

Ltac next_test :=
  match goal with
  | |- context [decide (?r <> ?ok)] => destruct (decide (r <> ok)); simpl
  end.

Ltac decided := simpl; repeat case_decide; try reflexivity; try contradiction.

Ltac peel :=
  rewrite ?after_after;
  apply halts_on_failure_after; [repeat constructor; unfold passed; decided|].

Ltac checked_call := next_call; next_test; [decided | peel].

Ltac unchecked_call := next_call; peel.

(** [radar_task] never returns. It halts exactly when a call it tests
    fails, right after that call and its diagnostic. *)
Lemma radar_task_halts_on_failure (n : nat) (w : W) : halts_on_failure (radar_task n w).
Proof.
  unfold radar_task, gpio_init, bind, call, CY_ASSERT, printf, ret.
  do 4 checked_call. do 4 unchecked_call. do 7 checked_call.
  apply radar_task_loop_halts_on_failure.
Qed.

Lemma quiet_observations (pre : list (action F)) :
  Forall (fun a => quiet a = true) pre ->
  engine_calls pre = [] /\ prints pre = [] /\ forall a, In a pre -> quiet a = true.
Proof.
  intros Hpre. repeat split.
  - induction Hpre as [|a pre Ha _ IH]; [reflexivity|].
    unfold engine_calls in *. simpl. destruct a; try discriminate; exact IH.
  - induction Hpre as [|a pre Ha _ IH]; [reflexivity|].
    destruct a; try discriminate; exact IH.
  - apply List.Forall_forall. exact Hpre.
Qed.

Lemma init_failure_after_quiet (pre : list (action F)) (o : outcome W F unit) :
  Forall (fun a => quiet a = true) pre ->
  init_failure_is_final o ->
  init_failure_is_final (after pre o).
Proof.
  intros Hpre Ho cfg mask r Hin Hr.
  destruct (quiet_observations pre Hpre) as (He & Hp & Hq).
  rewrite calls_after in Hin. apply in_app_or in Hin as [Hin|Hin].
  - specialize (Hq _ Hin). discriminate.
  - destruct (Ho cfg mask r Hin Hr) as (w' & t & -> & Het & Hpt).
    exists w', (pre ++ t). split; [reflexivity|].
    unfold engine_calls in *. rewrite List.filter_app, prints_app, He, Hp, Het, Hpt.
    split; reflexivity.
Qed.

Lemma init_failure_halted_quiet (w : W) (t : list (action F)) :
  Forall (fun a => quiet a = true) t -> init_failure_is_final (Halted w t).
Proof.
  intros Ht cfg mask r Hin _.
  destruct (quiet_observations t Ht) as (_ & _ & Hq).
  specialize (Hq _ Hin). discriminate.
Qed.

Lemma init_passed_is_final
  (cfg : mtb_radar_sensing_hw_cfg_t) (mask : Z) (c : cy_rslt_t) (o : outcome W F unit) :
  ~ c <> MTB_RADAR_SENSING_SUCCESS ->
  Forall (fun a => is_engine_init a = false) (calls o) ->
  init_failure_is_final (after [EngineInit cfg mask c] o).
Proof.
  intros Hc Ho cfg' mask' r Hin Hr.
  rewrite calls_after in Hin. destruct Hin as [Hin|Hin].
  - injection Hin as <- <- <-. contradiction.
  - rewrite List.Forall_forall in Ho. specialize (Ho _ Hin). discriminate.
Qed.

Lemma Forall_calls_after (good : action F -> Prop) (pre : list (action F)) (o : outcome W F unit) :
  Forall good pre -> Forall good (calls o) -> Forall good (calls (after pre o)).
Proof. intros Hpre Ho. rewrite calls_after. apply Forall_app. split; assumption. Qed.

Lemma Forall_loop_calls (good : action F -> Prop) (n : nat) (w : W) :
  (forall a, loop_call a = true -> good a) ->
  Forall good (calls (radar_task_loop n w)).
Proof.
  intros Hgood. eapply Forall_impl; [apply radar_task_loop_calls|].
  intros a Ha. apply Hgood. exact Ha.
Qed.

Ltac peel_quiet :=
  rewrite ?after_after;
  apply init_failure_after_quiet; [repeat constructor|].

Ltac peel_all :=
  rewrite ?after_after;
  apply Forall_calls_after; [repeat constructor|].

Ltac loop_all :=
  apply Forall_loop_calls; intros a Ha; destruct a; try discriminate; reflexivity.

Lemma radar_task_init_failure_is_final (n : nat) (w : W) :
  init_failure_is_final (radar_task n w).
Proof.
  unfold radar_task, gpio_init, bind, call, CY_ASSERT, printf, ret.
  do 4 (next_call; next_test;
        [apply init_failure_halted_quiet; repeat constructor | peel_quiet]).
  do 4 (next_call; peel_quiet).
  do 2 (next_call; next_test;
        [apply init_failure_halted_quiet; repeat constructor | peel_quiet]).
  next_call. next_test.
  - intros cfg mask r [Hin|[Hin|[]]] Hr; [|discriminate].
    injection Hin as <- <- <-. do 2 eexists. repeat split.
  - rewrite ?after_after. apply init_passed_is_final; [assumption|].
    do 4 (next_call; next_test; [repeat constructor | peel_all]).
    loop_all.
Qed.

Lemma radar_task_sets_defaults (n : nat) (w : W) :
  Forall sets_a_default (calls (radar_task n w)).
Proof.
  unfold radar_task, gpio_init, bind, call, CY_ASSERT, printf, ret.
  do 4 (next_call; next_test; [repeat constructor | peel_all]).
  do 4 (next_call; peel_all).
  do 4 (next_call; next_test; [repeat constructor | peel_all]).
  next_call; next_test; [repeat constructor; left; split; reflexivity | ].
  rewrite ?after_after; apply Forall_calls_after;
    [repeat constructor; left; split; reflexivity|].
  next_call; next_test; [repeat constructor; right; split; reflexivity | ].
  rewrite ?after_after; apply Forall_calls_after;
    [repeat constructor; right; split; reflexivity|].
  next_call; next_test; [repeat constructor | peel_all].
  apply Forall_loop_calls. intros a Ha. destruct a; try discriminate; exact I.
Qed.

(** A tested call that fails ends the run: the task is halted, and
    after the call comes its diagnostic and nothing else. *)
Lemma failed_call_is_last (o : outcome W F unit) (x : action F) :
  halts_on_failure o ->
  In x (calls o) ->
  failed x = true ->
  exists (w' : W) (pre : list (action F)),
    o = Halted w' (pre ++ x :: diagnostic x) /\ Forall passed pre.
Proof.
  intros Ho Hin Hx. destruct o as [? ? t|w' t|w' t|w' t]; simpl in *; try contradiction.
  - destruct (stops_at_failure_inv t Ho) as (pre & a & -> & Ha & Hpre).
    exists w', pre. apply in_app_or in Hin as [Hin|[Hin|Hin]].
    + rewrite List.Forall_forall in Hpre. specialize (Hpre x Hin).
      unfold passed in Hpre. congruence.
    + subst a. split; [reflexivity | exact Hpre].
    + destruct a; simpl in Hin; try contradiction;
        destruct Hin as [<-|[]]; discriminate.
  - rewrite List.Forall_forall in Ho. specialize (Ho x Hin).
    unfold passed in Ho. congruence.
Qed.

End SensingTask.

(** ** Runs on the bench *)

Section OnTheBench.

Import Bench.

Example bench_presence_in_then_out :
  prints (calls (deliver scripted_events idle)) =
  [("%.3f: Presence IN %.2f-%.2f\n",
    [ArgFloat (1500 # 1000)%Q; ArgFloat (17 # 10)%Q; ArgFloat (23 # 10)%Q]);
   ("%.3f: Presence OUT\n", [ArgFloat (4250 # 1000)%Q])] /\
  indicator LED_RGB_RED (calls (deliver scripted_events idle)) = Some false /\
  indicator LED_RGB_GREEN (calls (deliver scripted_events idle)) = Some true.
Proof. repeat split. Qed.

Example bench_first_print_dropped :
  prints (calls (deliver scripted_events contended)) =
  [("%.3f: Presence OUT\n", [ArgFloat (4250 # 1000)%Q])] /\
  gate_ops (calls (deliver scripted_events contended)) = [Some (0, 1); Some (0, 0); None] /\
  net_holds 0 0 (gate_ops (calls (deliver scripted_events contended))) = 0.
Proof. repeat split. Qed.

Example bench_line_edit :
  exists (w' : bench) (t : list (action Q)) (rest : list uint8_t),
    terminal_ui_readline (scratch 256) 256 (typing ["1"; "."; "5"; CR]%char) =
    Returned (["1"; "."; "5"; NUL]%char ++ rest) w' t /\
    received t = ["1"; "."; "5"; CR]%char /\
    echoed t = ["1"; "."; "5"; CR; LF]%char /\
    c_string (["1"; "."; "5"; NUL]%char ++ rest) = "1.5".
Proof. do 2 eexists. exists (scratch 252). repeat split. Qed.

Example bench_engine_init_failure :
  exists (w' : bench) (pre : list (action Q)),
    radar_task 3 (engine_answers [1]) =
    Halted w'
      (pre ++
       [EngineInit hw_cfg 1 1;
        Printf "ifx_radar_sensing_init error - Radar Wingboard not connected?\n" []]) /\
    engine_calls pre = [].
Proof.
  eexists. eexists [_; _; _; _; _; _; _; _; _; _]. split; reflexivity.
Qed.

Example bench_process_failure :
  exists (w' : bench) (pre : list (action Q)),
    radar_task 3 (engine_answers [0; 0; 0; 0; 0; 0; 7]) =
    Halted w' (pre ++ [EngineProcess 0 7; Printf "ifx_radar_sensing_process error\n" []]) /\
    length (engine_calls pre) = 6%nat.
Proof.
  eexists. eexists [_; _; _; _; _; _; _; _; _; _; _; _; _; _; _; _; _; _; _]. split; reflexivity.
Qed.

Example bench_error_then_next_key :
  prints (calls (radar_presence_terminal_ui_loop 3 (scratch 256) "x"%char
                   {| uart_rx := ["r"; "9"; "9"; CR; "x"]%char; gate := [];
                      engine := [1]; pending := [] |})) =
  [("Enter range [0.66-10.2]m, press enter\n", []);
   ("ERROR\n", []);
   ("Press '?' to list all radar presence settings\n", [])].
Proof. reflexivity. Qed.

(** C2. On a bench where every call succeeds, the engine calls of the
    bring-up are init, register, the maximum range set to 1.0 (not
    2.0), the sensitivity set to medium, and enable; and on every
    platform a [set_parameter] call of [radar_task] writes 1.0 to the
    range or medium to the sensitivity. *)
Theorem bring_up_sets_range_max_to_1_0 :
  engine_calls (calls (radar_task 0 idle)) =
  [EngineInit hw_cfg 1 0;
   EngineRegisterCallback 0;
   EngineSetParameter "radar_presence_range_max" "1.0" 0;
   EngineSetParameter "radar_presence_sensitivity" "medium" 0;
   EngineEnable 0] /\
  forall (W F : Type) (P : Platform W F) (n : nat) (w : W),
    Forall sets_a_default (calls (radar_task n w)).
Proof.
  split; [reflexivity|].
  intros W F P n w. apply radar_task_sets_defaults.
Qed.

Lemma readline_returns_muted_witness :
  0 <= 0 /\
  exists (r : cy_rslt_t) (w' : bench),
    terminal_ui_readline (scratch 256) 0 idle =
    Returned (scratch 256) w' [MutexGet CY_RTOS_NEVER_TIMEOUT r] /\
    net_holds CY_RSLT_SUCCESS 0 (gate_ops [MutexGet (F := Q) CY_RTOS_NEVER_TIMEOUT r]) =
    (if decide (r = CY_RSLT_SUCCESS) then 1 else 0).
Proof.
  split; [lia|].
  apply (readline_returns_muted (scratch 256) 0 idle). lia.
Defined.

Lemma line_editor_stays_in_bounds_witness :
  0 < 4 /\
  Z.of_nat (length (scratch 4)) = 4 /\
  exists (line' : list uint8_t) (w' : bench) (t : list (action Q)),
    terminal_ui_readline (scratch 4) 4 (typing ["a"; "b"; "c"; "d"; "e"; "f"]%char) =
    Returned line' w' t /\
    length line' = length (scratch 4) /\
    Z.of_nat (length (received t)) <= 4 - 1 /\
    forall extra : list uint8_t,
      terminal_ui_readline (scratch 4 ++ extra) 4 (typing ["a"; "b"; "c"; "d"; "e"; "f"]%char) =
      Returned (line' ++ extra) w' t.
Proof.
  split; [lia|]. split; [reflexivity|].
  apply (line_editor_stays_in_bounds (scratch 4) 4 (typing ["a"; "b"; "c"; "d"; "e"; "f"]%char));
    [lia | reflexivity].
Defined.

Lemma unknown_key_prints_hint_witness :
  "x"%char <> "?"%char /\
  "x"%char <> "r"%char /\
  "x"%char <> "s"%char /\
  radar_presence_terminal_ui_switch "x"%char (scratch 256) idle =
  Returned (scratch 256) idle
    [Printf (F := Q) "Press '?' to list all radar presence settings\n" []].
Proof.
  split; [discriminate|]. split; [discriminate|]. split; [discriminate|].
  apply (unknown_key_prints_hint "x"%char (scratch 256) idle); discriminate.
Defined.

Lemma callback_ignores_other_events_witness :
  MTB_RADAR_SENSING_EVENT_OTHER 4 <> MTB_RADAR_SENSING_EVENT_PRESENCE_IN /\
  MTB_RADAR_SENSING_EVENT_OTHER 4 <> MTB_RADAR_SENSING_EVENT_PRESENCE_OUT /\
  radar_sensing_callback (MTB_RADAR_SENSING_EVENT_OTHER 4)
    {| timestamp := 0; distance := 0%Q; accuracy := 0%Q |} idle =
  Returned tt idle [].
Proof.
  split; [discriminate|]. split; [discriminate|].
  apply (callback_ignores_other_events (MTB_RADAR_SENSING_EVENT_OTHER 4)
           {| timestamp := 0; distance := 0%Q; accuracy := 0%Q |} idle); discriminate.
Defined.

End OnTheBench.

(** ** Event streams *)

Lemma net_holds_app (success : cy_rslt_t) (ops1 ops2 : list (option (Z * cy_rslt_t))) :
  forall held : Z,
    net_holds success held (ops1 ++ ops2) = net_holds success (net_holds success held ops1) ops2.
Proof.
  induction ops1 as [|[[timeout r]|] ops1 IH]; intros held; simpl; [reflexivity| |]; apply IH.
Qed.

Lemma gate_bounded_app (success : cy_rslt_t) (ops1 ops2 : list (option (Z * cy_rslt_t))) :
  forall held : Z,
    gate_bounded success held ops1 ->
    gate_bounded success (net_holds success held ops1) ops2 ->
    gate_bounded success held (ops1 ++ ops2).
Proof.
  induction ops1 as [|[[timeout r]|] ops1 IH]; intros held H1 H2; simpl in *.
  - exact H2.
  - destruct H1 as [Hh H1]. split; [exact Hh|]. apply IH; assumption.
  - destruct H1 as [Hh H1]. split; [exact Hh|]. apply IH; assumption.
Qed.

Lemma granted_app (success : cy_rslt_t) (ops1 ops2 : list (option (Z * cy_rslt_t))) :
  granted success (ops1 ++ ops2) = (granted success ops1 + granted success ops2)%nat.
Proof.
  induction ops1 as [|[[timeout r]|] ops1 IH]; simpl; [reflexivity| |exact IH].
  case_decide; rewrite IH; reflexivity.
Qed.

Section EventStreams.

Context {W F : Type} {P : Platform W F}.

Lemma prints_unheld_app (success : cy_rslt_t) (t1 t2 : list (action F)) :
  forall held : Z,
    prints_unheld success held (t1 ++ t2) =
    prints_unheld success held t1 ++
    prints_unheld success (net_holds success held (gate_ops t1)) t2.
Proof.
  induction t1 as [|a t1 IH]; intros held; [reflexivity|].
  destruct a; simpl; rewrite ?IH; try reflexivity.
  rewrite app_assoc. reflexivity.
Qed.


(** One call of the callback, for any event: what it leaves on the
    LEDs and how it uses the console mutex. *)
Lemma radar_sensing_callback_discipline
  (event : mtb_radar_sensing_event_t) (event_info : mtb_radar_sensing_event_info_t F) (w : W) :
  exists (w' : W) (t : list (action F)),
    radar_sensing_callback event event_info w = Returned tt w' t /\
    indicator LED_RGB_RED t = presence_of event /\
    indicator LED_RGB_GREEN t = option_map negb (presence_of event) /\
    Forall callback_call t /\
    (forall held : Z, net_holds CY_RSLT_SUCCESS held (gate_ops t) = held) /\
    gate_bounded CY_RSLT_SUCCESS 0 (gate_ops t) /\
    prints_unheld CY_RSLT_SUCCESS 0 t = [] /\
    length (prints t) = granted CY_RSLT_SUCCESS (gate_ops t).
Proof.
  destruct event.
  - rewrite callback_presence_in. cbv zeta.
    destruct (decide (_ = CY_RSLT_SUCCESS)) as [Hr|Hr]; do 2 eexists;
      (split; [reflexivity|]); simpl; rewrite ?Hr;
      repeat case_decide; try contradiction; try lia;
      repeat split; auto; try lia; try (intros; lia);
      repeat (apply List.Forall_cons; [simpl; auto|]); apply List.Forall_nil.
  - rewrite callback_presence_out. cbv zeta.
    destruct (decide (_ = CY_RSLT_SUCCESS)) as [Hr|Hr]; do 2 eexists;
      (split; [reflexivity|]); simpl; rewrite ?Hr;
      repeat case_decide; try contradiction; try lia;
      repeat split; auto; try lia; try (intros; lia);
      repeat (apply List.Forall_cons; [simpl; auto|]); apply List.Forall_nil.
  - exists w, []. simpl. repeat split; auto; try lia.
Qed.

Lemma deliver_discipline
  (events : list (mtb_radar_sensing_event_t * mtb_radar_sensing_event_info_t F)) :
  forall w : W,
    exists (w' : W) (t : list (action F)),
      deliver events w = Returned tt w' t /\
      indicator LED_RGB_RED t = last_presence events /\
      indicator LED_RGB_GREEN t = option_map negb (last_presence events) /\
      Forall callback_call t /\
      (forall held : Z, net_holds CY_RSLT_SUCCESS held (gate_ops t) = held) /\
      gate_bounded CY_RSLT_SUCCESS 0 (gate_ops t) /\
      prints_unheld CY_RSLT_SUCCESS 0 t = [] /\
      length (prints t) = granted CY_RSLT_SUCCESS (gate_ops t).
Proof.
  induction events as [|[event event_info] rest IH]; intros w.
  - exists w, []. simpl. repeat split; auto; try lia.
  - destruct (radar_sensing_callback_discipline event event_info w)
      as (w1 & t1 & E1 & R1 & G1 & C1 & N1 & B1 & U1 & L1).
    destruct (IH w1) as (w2 & t2 & E2 & R2 & G2 & C2 & N2 & B2 & U2 & L2).
    exists w2, (t1 ++ t2). simpl.
    rewrite (bind_returned _ _ _ _ _ _ E1), E2.
    split; [reflexivity|].
    rewrite !indicator_app, R1, G1, R2, G2, gate_ops_app, prints_app, length_app,
      granted_app, prints_unheld_app, U1, N1, U2, L1, L2.
    split; [reflexivity|].
    split; [destruct (last_presence rest); reflexivity|].
    split; [apply Forall_app; split; assumption|].
    split; [intros held; rewrite net_holds_app, N1, N2; reflexivity|].
    split; [apply gate_bounded_app; [exact B1 | rewrite N1; exact B2]|].
    split; reflexivity.
Qed.

(** X2. Whatever events a process step delivers, and whether or not
    their prints get the console mutex, the two LEDs follow the last
    presence event: red on and green off after PRESENCE_IN, red off and
    green on after PRESENCE_OUT, and neither is written when the stream
    holds no presence event. After a stream that holds a presence
    event the two LEDs are in opposite states. *)
Theorem leds_follow_the_last_presence_event
  (events : list (mtb_radar_sensing_event_t * mtb_radar_sensing_event_info_t F)) (w : W) :
  indicator LED_RGB_RED (calls (deliver events w)) = last_presence events /\
  indicator LED_RGB_GREEN (calls (deliver events w)) = option_map negb (last_presence events) /\
  (last_presence events <> None ->
   indicator LED_RGB_RED (calls (deliver events w)) <>
   indicator LED_RGB_GREEN (calls (deliver events w))).
Proof.
  destruct (deliver_discipline events w) as (w' & t & E & R & G & _).
  rewrite E. simpl. split; [exact R|]. split; [exact G|].
  intros Hl. rewrite R, G.
  destruct (last_presence events) as [[|]|]; [discriminate | discriminate | contradiction].
Qed.

(** X3. Over any stream of events the callback returns, and it only
    writes the red and green LEDs, asks for the console mutex with a
    zero wait, releases it and prints. Its net holds of the mutex are 0
    or 1 after every request and 0 at the end; every line is printed
    while it holds the mutex, and it prints exactly one line per
    granted acquisition. *)
Theorem callback_console_discipline
  (events : list (mtb_radar_sensing_event_t * mtb_radar_sensing_event_info_t F)) (w : W) :
  exists (w' : W) (t : list (action F)),
    deliver events w = Returned tt w' t /\
    Forall callback_call t /\
    gate_bounded CY_RSLT_SUCCESS 0 (gate_ops t) /\
    net_holds CY_RSLT_SUCCESS 0 (gate_ops t) = 0 /\
    prints_unheld CY_RSLT_SUCCESS 0 t = [] /\
    length (prints t) = granted CY_RSLT_SUCCESS (gate_ops t).
Proof.
  destruct (deliver_discipline events w) as (w' & t & E & _ & _ & C & N & B & U & L).
  exists w', t. repeat split; auto.
Qed.

End EventStreams.

(** ** The value a line leaves in the array *)

Lemma length_list_ascii_of_string (s : string) :
  length (list_ascii_of_string s) = String.length s.
Proof. induction s as [|c s IH]; simpl; [reflexivity | rewrite IH; reflexivity]. Qed.

(** The string of an array that starts with [bs] and a NUL is made of
    the first bytes of [bs]. *)
Lemma c_string_take (bs rest : list uint8_t) :
  exists k : nat, list_ascii_of_string (c_string (bs ++ NUL :: rest)) = take k bs.
Proof.
  induction bs as [|b bs [k IH]]; simpl.
  - exists O. reflexivity.
  - destruct (decide (b = NUL)); [exists O; reflexivity|].
    exists (S k). simpl. rewrite IH. reflexivity.
Qed.

Lemma kept_no_space (rcv : list uint8_t) : Forall (fun c => isspace c = false) (kept rcv).
Proof.
  apply List.Forall_forall. intros c Hc.
  apply List.filter_In in Hc as [_ Hc]. destruct (isspace c); [discriminate | reflexivity].
Qed.

(** The string left by writing the kept bytes and a NUL at the start
    of an array with room for them. *)
Lemma c_string_written (rcv line : list uint8_t) :
  (length (kept rcv) < length line)%nat ->
  no_space (c_string (write_at 0 (kept rcv ++ [NUL]) line)) /\
  (String.length (c_string (write_at 0 (kept rcv ++ [NUL]) line)) <= length (kept rcv))%nat /\
  length (write_at 0 (kept rcv ++ [NUL]) line) = length line /\
  drop (S (length (kept rcv))) (write_at 0 (kept rcv ++ [NUL]) line) =
  drop (S (length (kept rcv))) line.
Proof.
  intros Hlen.
  assert (Hfit : (length (kept rcv ++ [NUL]) <= length line)%nat).
  { rewrite length_app. simpl. lia. }
  rewrite write_at_prefix by exact Hfit.
  rewrite <- app_assoc. simpl.
  destruct (c_string_take (kept rcv) (drop (length (kept rcv ++ [NUL])) line)) as [k Hk].
  unfold no_space. rewrite <- length_list_ascii_of_string, Hk.
  split; [apply Forall_take, kept_no_space|].
  split; [rewrite length_take; apply Nat.le_min_r|].
  split.
  - rewrite length_app. simpl. rewrite length_drop, length_app. simpl. lia.
  - replace (kept rcv ++ NUL :: drop (length (kept rcv ++ [NUL])) line)
      with ((kept rcv ++ [NUL]) ++ drop (length (kept rcv ++ [NUL])) line)
      by (rewrite <- app_assoc; reflexivity).
    replace (S (length (kept rcv))) with (length (kept rcv ++ [NUL]))
      by (rewrite length_app; simpl; lia).
    apply drop_app_length.
Qed.

Section LineValue.

Context {W F : Type} {P : Platform W F}.

(** X4. A line read with a positive [maxlength] into an array with
    room for it leaves a string of at most [maxlength - 1] characters
    with no white space in it (no blank, tab, newline or carriage
    return), and the array keeps its length and, past the terminating
    NUL, its old content. *)
Theorem line_editor_value (line : list uint8_t) (maxlength : Z) (w : W) :
  0 < maxlength ->
  maxlength <= Z.of_nat (length line) ->
  exists (line' : list uint8_t) (w' : W) (t : list (action F)),
    terminal_ui_readline line maxlength w = Returned line' w' t /\
    Z.of_nat (String.length (c_string line')) <= maxlength - 1 /\
    no_space (c_string line') /\
    length line' = length line /\
    drop (S (length (kept (received t)))) line' = drop (S (length (kept (received t)))) line.
Proof.
  intros Hm Hline.
  destruct (terminal_ui_readline_run maxlength w Hm)
    as (r & r' & w' & t & Hrun & _ & _ & _ & _ & Hlen & _ & _).
  pose proof (length_kept (received t)) as Hk.
  destruct (c_string_written (received t) line) as (Hs & Hl & Hlen' & Hd); [lia|].
  exists (write_at 0 (kept (received t) ++ [NUL]) line), w', t.
  split; [apply Hrun; exact Hline|].
  split; [lia|]. split; [exact Hs|]. split; assumption.
Qed.

End LineValue.

(** ** The terminal task as a whole *)

Section TerminalTask.

Context {W F : Type} {P : Platform W F}.

Lemma Forall_calls_bind {A B} (good : action F -> Prop)
  (m : task W F A) (k : A -> task W F B) (w : W) :
  Forall good (calls (m w)) ->
  (forall (a : A) (w1 : W) (t1 : list (action F)),
     m w = Returned a w1 t1 -> Forall good (calls (k a w1))) ->
  Forall good (calls (bind m k w)).
Proof.
  intros Hm Hk. unfold bind. destruct (m w) as [a w1 t1| | |] eqn:E; try exact Hm.
  rewrite calls_after. apply Forall_app. split; [exact Hm | eapply Hk; reflexivity].
Qed.

Lemma terminal_ui_readline_loop_calls (n : nat) :
  forall (line : list uint8_t) (maxlength i : Z) (rx_value : uint8_t) (w : W),
    Forall ui_call (calls (terminal_ui_readline_loop n line maxlength i rx_value w)).
Proof.
  induction n as [|n IH]; intros line maxlength i rx_value w;
    rewrite terminal_ui_readline_loop_eq;
    destruct (decide (rx_value = CR)); try (constructor; fail);
    destruct (decide (maxlength - 1 > 0)); try (constructor; fail).
  apply Forall_calls_bind.
  { unfold uart_getc, call. destruct (cyhal_uart_getc rx_value 0 w) as [[r b] w1].
    repeat constructor. }
  intros got w1 t1 _. apply Forall_calls_bind.
  { unfold uart_putc, call. destruct (cyhal_uart_putc (snd got) w1). repeat constructor. }
  intros r2 w2 t2 _. destruct (isspace (snd got)); [apply IH|].
  apply Forall_calls_bind.
  { unfold store. case_decide; constructor. }
  intros line' w3 t3 _. apply IH.
Qed.

Lemma radar_presence_task_set_mute_calls (mute : bool) (w : W) :
  Forall ui_call (calls (radar_presence_task_set_mute mute w)).
Proof.
  unfold radar_presence_task_set_mute, radar_presence_terminal_mutex_get,
    radar_presence_terminal_mutex_release, bind, call, ret.
  destruct mute.
  - destruct (cy_rtos_get_mutex CY_RTOS_NEVER_TIMEOUT w). repeat constructor.
  - destruct (cy_rtos_set_mutex w). repeat constructor.
Qed.

(** Whatever its arguments, the line editor only touches the console
    mutex (with an unbounded wait) and the UART. *)
Lemma terminal_ui_readline_calls (line : list uint8_t) (maxlength : Z) (w : W) :
  Forall ui_call (calls (terminal_ui_readline line maxlength w)).
Proof.
  unfold terminal_ui_readline.
  apply Forall_calls_bind; [apply radar_presence_task_set_mute_calls|].
  intros _ w1 t1 _. case_decide; [constructor|].
  apply Forall_calls_bind; [apply terminal_ui_readline_loop_calls|].
  intros li w2 t2 _. apply Forall_calls_bind.
  { unfold uart_putc, call. destruct (cyhal_uart_putc LF w2). repeat constructor. }
  intros r3 w3 t3 _. apply Forall_calls_bind.
  { unfold store. case_decide; constructor. }
  intros line' w4 t4 _.
  apply Forall_calls_bind; [apply radar_presence_task_set_mute_calls|].
  intros; constructor.
Qed.

(** The menu, call by call. *)
Lemma terminal_ui_menu_trace (w : W) :
  exists (r r' g1 g2 : cy_rslt_t) (v1 v2 : list uint8_t) (w' : W),
    terminal_ui_menu w =
    Returned tt w'
      [MutexGet CY_RTOS_NEVER_TIMEOUT r;
       Printf "Select a setting to configure\n" [];
       EngineGetParameter "radar_presence_range_max" IFX_RADAR_SENSING_VALUE_MAXLENGTH g1 v1;
       Printf "'r': Set presence max range (%s)\n" [ArgString (c_string v1)];
       EngineGetParameter "radar_presence_sensitivity" IFX_RADAR_SENSING_VALUE_MAXLENGTH g2 v2;
       Printf "'s': Set sensitivity (%s)\n" [ArgString (c_string v2)];
       Printf "\n" [];
       MutexRelease r'].
Proof.
  unfold terminal_ui_menu, radar_presence_task_set_mute, bind,
    radar_presence_terminal_mutex_get, radar_presence_terminal_mutex_release, call, printf, ret.
  destruct (cy_rtos_get_mutex CY_RTOS_NEVER_TIMEOUT w) as [r w1]. simpl.
  destruct (mtb_radar_sensing_get_parameter "radar_presence_range_max" _ w1) as [[g1 v1] w2].
  simpl.
  destruct (mtb_radar_sensing_get_parameter "radar_presence_sensitivity" _ w2) as [[g2 v2] w3].
  simpl.
  destruct (cy_rtos_set_mutex w3) as [r' w4]. simpl.
  exists r, r', g1, g2, v1, v2, w4. reflexivity.
Qed.

Lemma terminal_ui_menu_calls (w : W) :
  exists (w' : W) (t : list (action F)),
    terminal_ui_menu w = Returned tt w' t /\ Forall ui_call t.
Proof.
  destruct (terminal_ui_menu_trace w) as (r & r' & g1 & g2 & v1 & v2 & w' & E).
  do 2 eexists. split; [exact E|].
  repeat (apply List.Forall_cons; [simpl; try discriminate; auto|]). apply List.Forall_nil.
Qed.

(** A set command in full: the line it reads, the hold it takes while
    reading, and the calls around them. *)
Lemma set_command_shape (key : uint8_t) (value : list uint8_t) (w : W) :
  key = "r"%char \/ key = "s"%char ->
  IFX_RADAR_SENSING_VALUE_MAXLENGTH <= Z.of_nat (length value) ->
  exists (r : cy_rslt_t) (t : list (action F)) (status : cy_rslt_t) (w' : W),
    let value' := write_at 0 (kept (received t) ++ [NUL]) value in
    radar_presence_terminal_ui_switch key value w =
    Returned value' w'
      (Printf (prompt_of_key key) [] :: t ++
       [EngineSetParameter (parameter_of_key key) (c_string value') status;
        Printf (if decide (status = MTB_RADAR_SENSING_SUCCESS) then "OK\n" else "ERROR\n") []]) /\
    gate_ops t = [Some (CY_RTOS_NEVER_TIMEOUT, r); None] /\
    prints t = [] /\
    Forall ui_call t /\
    Z.of_nat (length (received t)) <= IFX_RADAR_SENSING_VALUE_MAXLENGTH - 1.
Proof.
  intros Hkey Hlen.
  destruct (terminal_ui_readline_run IFX_RADAR_SENSING_VALUE_MAXLENGTH w)
    as (r & r' & w1 & t & Hrun & _ & Hg & Hp & _ & Hrcv & _); [reflexivity|].
  specialize (Hrun value Hlen).
  pose proof (terminal_ui_readline_calls value IFX_RADAR_SENSING_VALUE_MAXLENGTH w) as Hc.
  rewrite Hrun in Hc. simpl in Hc.
  set (value' := write_at 0 (kept (received t) ++ [NUL]) value) in *.
  destruct (mtb_radar_sensing_set_parameter (parameter_of_key key) (c_string value') w1)
    as [status w2] eqn:Eset.
  exists r, t, status, w2. cbv zeta. fold value'.
  split; [|repeat split; assumption].
  unfold radar_presence_terminal_ui_switch.
  destruct Hkey as [-> | ->].
  - case_decide; [discriminate|].
    case_decide; [|contradiction].
    change (parameter_of_key "r"%char) with "radar_presence_range_max" in Eset.
    rewrite (bind_returned _ _ _ _ _ _ (eq_refl : printf _ [] w = Returned tt w [_])).
    rewrite (bind_returned _ _ _ _ _ _ Hrun).
    unfold bind, call. rewrite Eset, terminal_ui_print_result_run.
    unfold ret. simpl. reflexivity.
  - case_decide; [discriminate|].
    case_decide; [discriminate|].
    case_decide; [|contradiction].
    change (parameter_of_key "s"%char) with "radar_presence_sensitivity" in Eset.
    rewrite (bind_returned _ _ _ _ _ _ (eq_refl : printf _ [] w = Returned tt w [_])).
    rewrite (bind_returned _ _ _ _ _ _ Hrun).
    unfold bind, call. rewrite Eset, terminal_ui_print_result_run.
    unfold ret. simpl. reflexivity.
Qed.

Ltac goal_decide :=
  match goal with
  | |- context [decide ?Q] => destruct (decide Q)
  end.

(** Any key: the command returns, the array keeps its length, and only
    calls of the terminal task are made. *)
Lemma radar_presence_terminal_ui_switch_run (key : uint8_t) (value : list uint8_t) (w : W) :
  IFX_RADAR_SENSING_VALUE_MAXLENGTH <= Z.of_nat (length value) ->
  exists (value' : list uint8_t) (w' : W) (t : list (action F)),
    radar_presence_terminal_ui_switch key value w = Returned value' w' t /\
    length value' = length value /\
    Forall ui_call t.
Proof.
  intros Hlen.
  destruct (decide (key = "r"%char \/ key = "s"%char)) as [Hkey|Hkey].
  - destruct (set_command_shape key value w Hkey Hlen)
      as (r & t & status & w' & Hsw & _ & _ & Hc & Hrcv).
    cbv zeta in Hsw.
    pose proof (length_kept (received t)) as Hk.
    unfold IFX_RADAR_SENSING_VALUE_MAXLENGTH in *.
    destruct (c_string_written (received t) value) as (Hs & Hl & Hlen' & _); [lia|].
    do 3 eexists. split; [exact Hsw|]. split; [exact Hlen'|].
    apply List.Forall_cons; [unfold ui_call, prompt_of_key; goal_decide; discriminate|].
    apply Forall_app. split; [exact Hc|].
    apply List.Forall_cons;
      [|apply List.Forall_cons; [unfold ui_call; goal_decide; discriminate | constructor]].
    unfold ui_call, IFX_RADAR_SENSING_VALUE_MAXLENGTH. split; [|split; [lia | exact Hs]].
    unfold parameter_of_key. goal_decide; [left | right]; reflexivity.
  - unfold radar_presence_terminal_ui_switch.
    destruct (decide (key = "?"%char)).
    + destruct (terminal_ui_menu_calls w) as (w' & t & E & Hc).
      exists value, w', t. rewrite (bind_returned _ _ _ _ _ _ E). unfold ret. simpl.
      rewrite app_nil_r. repeat split. exact Hc.
    + destruct (decide (key = "r"%char)); [exfalso; apply Hkey; left; assumption|].
      destruct (decide (key = "s"%char)); [exfalso; apply Hkey; right; assumption|].
      exists value, w. eexists. split; [reflexivity|]. split; [reflexivity|].
      apply List.Forall_cons; [discriminate | constructor].
Qed.

(** The command loop never halts and never leaves the array; it
    returns only when a read of a key fails, and that read is its last
    call. *)
Lemma radar_presence_terminal_ui_loop_run (n : nat) :
  forall (value : list uint8_t) (rx_value : uint8_t) (w : W),
    IFX_RADAR_SENSING_VALUE_MAXLENGTH <= Z.of_nat (length value) ->
    match radar_presence_terminal_ui_loop n value rx_value w with
    | Returned _ _ t =>
        exists (pre : list (action F)) (r : cy_rslt_t) (b : uint8_t),
          t = pre ++ [UartGetc 0 r b] /\ r <> CY_RSLT_SUCCESS /\ Forall ui_call pre
    | Running _ t => Forall ui_call t
    | Halted _ _ | Undefined _ _ => False
    end.
Proof.
  induction n as [|n IH]; intros value rx_value w Hlen; [constructor|].
  simpl. unfold bind at 1. unfold uart_getc, call.
  destruct (cyhal_uart_getc rx_value 0 w) as [[r b] w1]. simpl.
  destruct (decide (r = CY_RSLT_SUCCESS)) as [Hr|Hr].
  - destruct (radar_presence_terminal_ui_switch_run b value w1 Hlen)
      as (value' & w2 & t & Hsw & Hlen' & Hc).
    rewrite (bind_returned _ _ _ _ _ _ Hsw).
    assert (Hlen2 : IFX_RADAR_SENSING_VALUE_MAXLENGTH <= Z.of_nat (length value'))
      by (rewrite Hlen'; exact Hlen).
    specialize (IH value' NUL w2 Hlen2).
    destruct (radar_presence_terminal_ui_loop n value' NUL w2) as [u w3 t3|w3 t3|w3 t3|w3 t3];
      simpl; try contradiction.
    + destruct IH as (pre & r3 & b3 & -> & Hr3 & Hpre).
      exists (UartGetc 0 r b :: t ++ pre), r3, b3.
      split; [simpl; rewrite <- app_assoc; reflexivity|]. split; [exact Hr3|].
      apply List.Forall_cons; [reflexivity|]. apply Forall_app. split; assumption.
    + apply List.Forall_cons; [reflexivity|]. apply Forall_app. split; assumption.
  - unfold ret. simpl. exists [], r, b. repeat split; [exact Hr | constructor].
Qed.

Lemma ui_call_in_loop (l : list (action F)) :
  Forall ui_call l ->
  ~ In (Printf "Exiting terminal ui\n" []) l /\ (forall x : cy_rslt_t, ~ In (ExitThread x) l).
Proof.
  intros Hl. rewrite List.Forall_forall in Hl. split.
  - intros Hin. specialize (Hl _ Hin). simpl in Hl. congruence.
  - intros x Hin. specialize (Hl _ Hin). exact Hl.
Qed.

(** The terminal task as a whole: menu, command loop, farewell. *)
Lemma radar_presence_terminal_ui_run
  (n : nat) (value : list uint8_t) (rx_value : uint8_t) (w : W) :
  IFX_RADAR_SENSING_VALUE_MAXLENGTH <= Z.of_nat (length value) ->
  match radar_presence_terminal_ui n value rx_value w with
  | Returned _ _ t =>
      exists (pre : list (action F)) (r r' : cy_rslt_t) (b : uint8_t),
        t = pre ++ [UartGetc 0 r b; Printf "Exiting terminal ui\n" []; ExitThread r'] /\
        r <> CY_RSLT_SUCCESS /\
        Forall ui_call pre
  | Running _ t => Forall ui_call t
  | Halted _ _ | Undefined _ _ => False
  end.
Proof.
  intros Hlen. unfold radar_presence_terminal_ui.
  destruct (terminal_ui_menu_calls w) as (w1 & tm & Em & Hm).
  rewrite (bind_returned _ _ _ _ _ _ Em).
  pose proof (radar_presence_terminal_ui_loop_run n value rx_value w1 Hlen) as Hloop.
  unfold bind at 1.
  destruct (radar_presence_terminal_ui_loop n value rx_value w1) as [u w2 t|w2 t|w2 t|w2 t];
    simpl; try contradiction.
  - destruct Hloop as (pre & r & b & -> & Hr & Hpre).
    unfold bind, printf, call, ret. simpl.
    destruct (cy_rtos_exit_thread w2) as [r' w3]. simpl.
    exists (tm ++ pre), r, r', b.
    split; [rewrite <- !app_assoc; reflexivity|]. split; [exact Hr|].
    apply Forall_app. split; assumption.
  - apply Forall_app. split; assumption.
Qed.

(** X5. With its 256-byte array the terminal task never halts and
    never stores outside the array. It returns only after a read of a
    key has failed: that read is followed by the farewell line and the
    thread exit, and by nothing else; before that, and as long as the
    task runs, it has neither printed the farewell nor exited. *)
Theorem terminal_task_ends_with_farewell
  (n : nat) (value : list uint8_t) (rx_value : uint8_t) (w : W) :
  IFX_RADAR_SENSING_VALUE_MAXLENGTH <= Z.of_nat (length value) ->
  match radar_presence_terminal_ui n value rx_value w with
  | Returned _ _ t =>
      exists (pre : list (action F)) (r r' : cy_rslt_t) (b : uint8_t),
        t = pre ++ [UartGetc 0 r b; Printf "Exiting terminal ui\n" []; ExitThread r'] /\
        r <> CY_RSLT_SUCCESS /\
        ~ In (Printf "Exiting terminal ui\n" []) pre /\
        (forall x : cy_rslt_t, ~ In (ExitThread x) pre)
  | Running _ t =>
      ~ In (Printf "Exiting terminal ui\n" []) t /\
      (forall x : cy_rslt_t, ~ In (ExitThread x) t)
  | Halted _ _ | Undefined _ _ => False
  end.
Proof.
  intros Hlen.
  pose proof (radar_presence_terminal_ui_run n value rx_value w Hlen) as Hrun.
  destruct (radar_presence_terminal_ui n value rx_value w) as [u w' t|w' t|w' t|w' t];
    try contradiction.
  - destruct Hrun as (pre & r & r' & b & E & Hr & Hpre).
    exists pre, r, r', b. split; [exact E|]. split; [exact Hr|].
    apply ui_call_in_loop. exact Hpre.
  - apply ui_call_in_loop. exact Hrun.
Qed.

(** X6. Apart from its farewell and its exit, every call of the
    terminal task is one of: an acquisition of the console mutex with
    an unbounded wait, a release, a print, a UART read with timeout 0
    or a UART write, a [get_parameter] of the maximum range or of the
    sensitivity into 256 bytes, or a [set_parameter] of one of the two
    with a value of at most 255 characters and no white space. It
    never writes an LED, never makes a zero-wait acquisition, and never
    calls the engine's init, enable or process. *)
Theorem terminal_task_calls
  (n : nat) (value : list uint8_t) (rx_value : uint8_t) (w : W) :
  IFX_RADAR_SENSING_VALUE_MAXLENGTH <= Z.of_nat (length value) ->
  Forall
    (fun a : action F =>
       ui_call a \/ a = Printf "Exiting terminal ui\n" [] \/ exists x : cy_rslt_t, a = ExitThread x)
    (calls (radar_presence_terminal_ui n value rx_value w)).
Proof.
  intros Hlen.
  pose proof (radar_presence_terminal_ui_run n value rx_value w Hlen) as Hrun.
  destruct (radar_presence_terminal_ui n value rx_value w) as [u w' t|w' t|w' t|w' t];
    try contradiction; simpl.
  - destruct Hrun as (pre & r & r' & b & -> & Hr & Hpre).
    apply Forall_app. split.
    + eapply Forall_impl; [exact Hpre|]. intros a Ha. left. exact Ha.
    + apply List.Forall_cons; [left; reflexivity|].
      apply List.Forall_cons; [right; left; reflexivity|].
      apply List.Forall_cons; [right; right; eexists; reflexivity | constructor].
  - eapply Forall_impl; [exact Hrun|]. intros a Ha. left. exact Ha.
Qed.



End TerminalTask.

(** ** The sensing task: bring-up order and the pace of the loop *)

Section SensingLoop.

Context {W F : Type} {P : Platform W F}.

(** X9. The cast to [uint64_t] before the multiplication keeps
    [ifx_currenttime] exact: for a 32-bit tick count and a tick period
    below 2^32 it returns ticks times period, with no wrap-around. *)
Theorem ifx_currenttime_exact (w w1 : W) (ticks : Z) :
  xTaskGetTickCount w = (ticks, w1) ->
  0 <= ticks < 2 ^ 32 ->
  0 <= portTICK_PERIOD_MS < 2 ^ 32 ->
  ifx_currenttime w = Returned (ticks * portTICK_PERIOD_MS) w1 [TickCount ticks].
Proof.
  intros Hticks Ht Hp.
  unfold ifx_currenttime, bind, call, ret. rewrite Hticks. simpl.
  unfold uint64. rewrite (Z.mod_small ticks) by lia.
  rewrite Z.mod_small by nia. reflexivity.
Qed.

Lemma after_nil {A} (o : outcome W F A) : after [] o = o.
Proof. destruct o; reflexivity. Qed.

Lemma bringup_outcome_after (n : nat) (done : list (action F)) (a : action F)
  (o : outcome W F unit) :
  bringup_call a = true ->
  bringup_outcome n (done ++ [a]) o ->
  bringup_outcome n done (after [a] o).
Proof.
  intros Ha [(w' & t & -> & Ht)|(w1 & todo & -> & Hc)].
  - left. exists w', (a :: t). split; [reflexivity|]. constructor; assumption.
  - right. exists w1, (a :: todo). split; [rewrite after_after; reflexivity|].
    rewrite <- app_assoc in Hc. exact Hc.
Qed.

Ltac step_call :=
  match goal with
  | |- context [match ?c with pair _ _ => _ end] =>
      destruct c as [? ?] eqn:?; simpl
  end.

Ltac step_test :=
  match goal with
  | |- context [decide (?r <> ?ok)] => destruct (decide (r <> ok)); simpl
  end.

Ltac halted_here := left; do 2 eexists; split; [reflexivity | repeat constructor].

Ltac go_on := rewrite ?after_nil; apply bringup_outcome_after; [reflexivity | simpl].

Ltac succeeded :=
  repeat match goal with
         | H : ~ (?r <> _) |- _ => apply dec_stable in H; subst r
         end.

(** The two ways a run of [radar_task] can go. *)
Lemma radar_task_shape (n : nat) (w : W) :
  (exists (w' : W) (t : list (action F)),
     radar_task n w = Halted w' t /\ Forall (fun a => bringup_call a = true) t) \/
  (exists (w1 : W) (pre : list (action F)),
     radar_task n w = after pre (radar_task_loop n w1) /\ configured pre).
Proof.
  change (bringup_outcome n [] (radar_task n w)).
  unfold radar_task, gpio_init, bind, call, CY_ASSERT, printf, ret.
  do 4 (step_call; step_test; [halted_here | go_on]).
  do 4 (step_call; go_on).
  do 7 (step_call; step_test; [halted_here | go_on]).
  right. do 2 eexists. split; [symmetry; apply after_nil|].
  succeeded. rewrite app_nil_r. do 4 eexists. reflexivity.
Qed.

(** X10. [radar_task] enters its processing loop only after the whole
    bring-up went through in the order of the source: mutex, the three
    LEDs initialised off, the reset, LDO, IRQ and chip-select lines,
    SPI at 8 bits and 25 MHz, engine init for presence events, callback
    registration, range 1.0, sensitivity medium, enable, every tested
    call with the success status. Otherwise it halts having made
    bring-up calls only: no process step, no delay, no LED write. *)
Theorem radar_task_bring_up_order (n : nat) (w : W) :
  (exists (w' : W) (t : list (action F)),
     radar_task n w = Halted w' t /\ Forall (fun a => bringup_call a = true) t) \/
  (exists (w1 : W) (pre : list (action F)),
     radar_task n w = after pre (radar_task_loop n w1) /\ configured pre).
Proof. apply radar_task_shape. Qed.

Lemma process_steps_app (t1 t2 : list (action F)) :
  process_steps (t1 ++ t2) = process_steps t1 ++ process_steps t2.
Proof.
  induction t1 as [|a t1 IH]; simpl; [reflexivity|].
  destruct a; simpl; rewrite ?IH; reflexivity.
Qed.

Lemma tick_counts_app (t1 t2 : list (action F)) :
  tick_counts (t1 ++ t2) = tick_counts t1 ++ tick_counts t2.
Proof.
  induction t1 as [|a t1 IH]; simpl; [reflexivity|].
  destruct a; simpl; rewrite ?IH; reflexivity.
Qed.

Lemma task_delays_app (t1 t2 : list (action F)) :
  task_delays (t1 ++ t2) = task_delays t1 ++ task_delays t2.
Proof.
  induction t1 as [|a t1 IH]; simpl; [reflexivity|].
  destruct a; simpl; rewrite ?IH; reflexivity.
Qed.

Lemma callback_calls_off_the_clock (t : list (action F)) :
  Forall callback_call t ->
  process_steps t = [] /\ tick_counts t = [] /\ task_delays t = [].
Proof.
  induction 1 as [|a t Ha _ (IH1 & IH2 & IH3)]; [repeat split|].
  destruct a; simpl in *; try contradiction; repeat split; assumption.
Qed.

Lemma bringup_calls_off_the_clock (t : list (action F)) :
  Forall (fun a => bringup_call a = true) t ->
  process_steps t = [] /\ tick_counts t = [] /\ task_delays t = [].
Proof.
  induction 1 as [|a t Ha _ (IH1 & IH2 & IH3)]; [repeat split|].
  destruct a; simpl in *; try discriminate; repeat split; assumption.
Qed.

Lemma repeat_snoc {A} (x : A) (k : nat) : repeat x k ++ [x] = repeat x (S k).
Proof. induction k as [|k IH]; simpl; [reflexivity | rewrite IH; reflexivity]. Qed.

(** One iteration of the processing loop. *)
Lemma radar_task_loop_step (n : nat) (w : W) :
  exists (ticks : Z) (r : cy_rslt_t) (t : list (action F)) (w3 : W),
    Forall callback_call t /\
    radar_task_loop (S n) w =
    if decide (r <> MTB_RADAR_SENSING_SUCCESS) then
      Halted w3
        (TickCount ticks :: t ++
         [EngineProcess (timestamp_of_ticks ticks) r;
          Printf "ifx_radar_sensing_process error\n" []])
    else
      after
        (TickCount ticks :: t ++
         [EngineProcess (timestamp_of_ticks ticks) r;
          TaskDelay MTB_RADAR_SENSING_PROCESS_DELAY])
        (radar_task_loop n (vTaskDelay MTB_RADAR_SENSING_PROCESS_DELAY w3)).
Proof.
  simpl. unfold bind at 1, ifx_currenttime, bind at 1, call, ret.
  destruct (xTaskGetTickCount w) as [ticks w1]. simpl.
  fold (timestamp_of_ticks ticks).
  unfold bind at 1, sensing_process.
  destruct (mtb_radar_sensing_process (timestamp_of_ticks ticks) w1) as [[r events] w2].
  destruct (deliver_discipline events w2) as (w3 & t & Ed & _ & _ & Hc & _).
  rewrite (bind_returned _ _ _ _ _ _ Ed). simpl.
  rewrite after_after.
  unfold bind, printf, CY_ASSERT, call_void, ret.
  exists ticks, r, t, w3. split; [exact Hc|].
  destruct (decide (r <> MTB_RADAR_SENSING_SUCCESS)) as [Hr|Hr]; simpl.
  - rewrite <- app_assoc. reflexivity.
  - rewrite !after_after, app_nil_r. simpl. rewrite <- app_assoc. reflexivity.
Qed.

(** The processing loop, iteration by iteration. *)
Lemma radar_task_loop_pace (n : nat) :
  forall w : W,
    List.map fst (process_steps (calls (radar_task_loop n w))) =
      List.map timestamp_of_ticks (tick_counts (calls (radar_task_loop n w))) /\
    match radar_task_loop n w with
    | Running _ t =>
        List.map snd (process_steps t) = repeat MTB_RADAR_SENSING_SUCCESS n /\
        task_delays t = repeat MTB_RADAR_SENSING_PROCESS_DELAY n
    | Halted _ t =>
        exists (k : nat) (r : cy_rslt_t),
          (k < n)%nat /\ r <> MTB_RADAR_SENSING_SUCCESS /\
          List.map snd (process_steps t) = repeat MTB_RADAR_SENSING_SUCCESS k ++ [r] /\
          task_delays t = repeat MTB_RADAR_SENSING_PROCESS_DELAY k
    | Returned _ _ _ | Undefined _ _ => False
    end.
Proof.
  induction n as [|n IH]; intros w; [repeat split|].
  destruct (radar_task_loop_step n w) as (ticks & r & t & w3 & Hc & ->).
  destruct (callback_calls_off_the_clock t Hc) as (Hp & Hk & Hd).
  destruct (decide (r <> MTB_RADAR_SENSING_SUCCESS)) as [Hr|Hr].
  - cbn [calls process_steps tick_counts task_delays].
    rewrite !process_steps_app, !tick_counts_app, !task_delays_app, Hp, Hk, Hd.
    simpl. split; [reflexivity|].
    exists O, r. repeat split; [lia | exact Hr].
  - apply dec_stable in Hr. subst r.
    destruct (IH (vTaskDelay MTB_RADAR_SENSING_PROCESS_DELAY w3)) as [IHt IHo].
    set (o := radar_task_loop n (vTaskDelay MTB_RADAR_SENSING_PROCESS_DELAY w3)) in *.
    rewrite calls_after.
    cbn [process_steps tick_counts app].
    rewrite !process_steps_app, !tick_counts_app, Hp, Hk.
    cbn [process_steps tick_counts app List.map fst].
    split; [rewrite IHt; reflexivity|].
    destruct o as [u w4 t4|w4 t4|w4 t4|w4 t4]; try contradiction.
    + destruct IHo as (k & r & Hkn & Hr & Hs & Hdel).
      exists (S k), r. cbn [after process_steps task_delays app].
      rewrite !process_steps_app, !task_delays_app, Hp, Hd.
      cbn [process_steps task_delays app List.map snd].
      rewrite Hs, Hdel. repeat split; [lia | exact Hr].
    + destruct IHo as [Hs Hdel]. cbn [after process_steps task_delays app].
      rewrite !process_steps_app, !task_delays_app, Hp, Hd.
      cbn [process_steps task_delays app List.map snd].
      rewrite Hs, Hdel. split; reflexivity.
Qed.

(** X11. Every process step of [radar_task] is given the tick count
    read just before it, times the tick period, as a 64-bit value.
    Every step but the last has succeeded and was followed by one
    delay of [MTB_RADAR_SENSING_PROCESS_DELAY] ticks; a task that still
    runs after [n] iterations has made [n] successful steps and [n]
    delays, and a halted one ends with at most one failed step, with
    no delay after it. *)
Theorem radar_task_pace (n : nat) (w : W) :
  List.map fst (process_steps (calls (radar_task n w))) =
    List.map timestamp_of_ticks (tick_counts (calls (radar_task n w))) /\
  match radar_task n w with
  | Running _ t =>
      List.map snd (process_steps t) = repeat MTB_RADAR_SENSING_SUCCESS n /\
      task_delays t = repeat MTB_RADAR_SENSING_PROCESS_DELAY n
  | Halted _ t =>
      exists (k : nat) (tail : list cy_rslt_t),
        (k <= n)%nat /\
        List.map snd (process_steps t) = repeat MTB_RADAR_SENSING_SUCCESS k ++ tail /\
        task_delays t = repeat MTB_RADAR_SENSING_PROCESS_DELAY k /\
        (tail = [] \/ exists r : cy_rslt_t, tail = [r] /\ r <> MTB_RADAR_SENSING_SUCCESS)
  | Returned _ _ _ | Undefined _ _ => False
  end.
Proof.
  destruct (radar_task_shape n w) as [(w' & t & -> & Ht)|(w1 & pre & -> & Hpre)].
  - destruct (bringup_calls_off_the_clock t Ht) as (Hp & Hk & Hd).
    simpl. rewrite Hp, Hk, Hd. split; [reflexivity|].
    exists O, []. repeat split; [lia | left; reflexivity].
  - assert (Hoff : process_steps pre = [] /\ tick_counts pre = [] /\ task_delays pre = []).
    { destruct Hpre as (r1 & r2 & r3 & r4 & ->). repeat split. }
    destruct Hoff as (Hp & Hk & Hd).
    destruct (radar_task_loop_pace n w1) as [Ht Ho].
    rewrite calls_after, process_steps_app, tick_counts_app, Hp, Hk. simpl.
    split; [exact Ht|].
    destruct (radar_task_loop n w1) as [u w2 t|w2 t|w2 t|w2 t]; simpl in *; try contradiction.
    + destruct Ho as (k & r & Hkn & Hr & Hs & Hdel).
      exists k, [r]. rewrite process_steps_app, task_delays_app, Hp, Hd. simpl.
      repeat split; [lia | exact Hs | exact Hdel | right; exists r; split; [reflexivity | exact Hr]].
    + rewrite process_steps_app, task_delays_app, Hp, Hd. simpl. exact Ho.
Qed.

End SensingLoop.

(** ** The boot sequence *)

Section BootSequence.

Context {W F : Type} {P : Platform W F} {B : Board W}.

Ltac last_call :=
  match goal with
  | |- exists pre, ?t = pre ++ [_] => exists (removelast t); reflexivity
  end.

(** X12. [main] starts the scheduler only after the BSP init, the
    console retargeting and the creation of both tasks have succeeded,
    the radar task first (stack 4096, normal priority), the terminal
    task second (stack 2048, below normal). A tested call that fails is
    the last call [main] makes; interrupts are enabled and the banner
    is printed only after the calls before them succeeded, so nothing
    is printed before the console is retargeted. *)
Theorem main_boot_order (w : W) :
  (In StartScheduler (boot_calls (main w)) -> boot_calls (main w) = full_boot) /\
  (forall x : boot_call,
     In x (boot_calls (main w)) -> boot_failed x = true ->
     exists pre : list boot_call, boot_calls (main w) = pre ++ [x]) /\
  (forall fmt : string,
     In (BootPrintf fmt) (boot_calls (main w)) ->
     In (RetargetIoInit CYBSP_DEBUG_UART_TX CYBSP_DEBUG_UART_RX CY_RETARGET_IO_BAUDRATE
           CY_RSLT_SUCCESS) (boot_calls (main w))) /\
  (In EnableIrq (boot_calls (main w)) -> In (BspInit CY_RSLT_SUCCESS) (boot_calls (main w))) /\
  match main w with
  | Scheduling t => t = full_boot
  | BootHalted _ t => t = full_boot \/ exists (pre : list boot_call) (x : boot_call),
                        t = pre ++ [x] /\ boot_failed x = true
  end.
Proof.
  unfold main.
  destruct (cybsp_init w) as [r1 w1].
  destruct (decide (r1 <> CY_RSLT_SUCCESS)) as [H1|H1].
  { cbn [boot_calls app]. repeat split.
    - intros [E|[]]; discriminate.
    - intros x [<-|[]] _. exists []. reflexivity.
    - intros fmt [E|[]]; discriminate.
    - intros [E|[]]; discriminate.
    - right. exists [], (BspInit r1). split; [reflexivity|].
      simpl. destruct (decide (r1 <> CY_RSLT_SUCCESS)); [reflexivity | contradiction]. }
  apply dec_stable in H1. subst r1.
  destruct (cy_retarget_io_init _ _ _ (__enable_irq w1)) as [r2 w2].
  destruct (decide (r2 <> CY_RSLT_SUCCESS)) as [H2|H2].
  { cbn [boot_calls app]. repeat split.
    - intros [E|[E|[E|[]]]]; discriminate.
    - intros x [<-|[<-|[<-|[]]]] Hx; simpl in Hx; try discriminate;
        [destruct (decide (CY_RSLT_SUCCESS <> CY_RSLT_SUCCESS)); [contradiction | discriminate]|].
      last_call.
    - intros fmt [E|[E|[E|[]]]]; discriminate.
    - intros _. left. reflexivity.
    - right. eexists [_; _], _. split; [reflexivity|].
      simpl. destruct (decide (r2 <> CY_RSLT_SUCCESS)); [reflexivity | contradiction]. }
  apply dec_stable in H2. subst r2.
  destruct (cy_rtos_create_thread ENTRY_radar_task _ _ _ w2) as [r3 w3].
  destruct (decide (r3 <> CY_RSLT_SUCCESS)) as [H3|H3].
  { cbn [boot_calls app]. repeat split.
    - intros Hin. simpl in Hin. repeat (destruct Hin as [Hin|Hin]; [discriminate|]).
      contradiction.
    - intros x Hin Hx. simpl in Hin.
      repeat (destruct Hin as [<-|Hin];
              [simpl in Hx; try discriminate;
               try (destruct (decide (CY_RSLT_SUCCESS <> CY_RSLT_SUCCESS));
                    [contradiction | discriminate]);
               try last_call|]).
      contradiction.
    - intros fmt _. simpl. auto.
    - intros _. left. reflexivity.
    - right. eexists [_; _; _; _; _; _; _], _. split; [reflexivity|].
      simpl. destruct (decide (r3 <> CY_RSLT_SUCCESS)); [reflexivity | contradiction]. }
  apply dec_stable in H3. subst r3.
  destruct (cy_rtos_create_thread ENTRY_radar_presence_terminal_ui _ _ _ w3) as [r4 w4].
  destruct (decide (r4 <> CY_RSLT_SUCCESS)) as [H4|H4].
  { cbn [boot_calls app]. repeat split.
    - intros Hin. simpl in Hin. repeat (destruct Hin as [Hin|Hin]; [discriminate|]).
      contradiction.
    - intros x Hin Hx. simpl in Hin.
      repeat (destruct Hin as [<-|Hin];
              [simpl in Hx; try discriminate;
               try (destruct (decide (CY_RSLT_SUCCESS <> CY_RSLT_SUCCESS));
                    [contradiction | discriminate]);
               try last_call|]).
      contradiction.
    - intros fmt _. simpl. auto.
    - intros _. left. reflexivity.
    - right. eexists [_; _; _; _; _; _; _; _], _. split; [reflexivity|].
      simpl. destruct (decide (r4 <> CY_RSLT_SUCCESS)); [reflexivity | contradiction]. }
  apply dec_stable in H4. subst r4.
  assert (Hfull : forall o : boot_outcome W,
            boot_calls o = full_boot ->
            (In StartScheduler (boot_calls o) -> boot_calls o = full_boot) /\
            (forall x : boot_call,
               In x (boot_calls o) -> boot_failed x = true ->
               exists pre : list boot_call, boot_calls o = pre ++ [x]) /\
            (forall fmt : string,
               In (BootPrintf fmt) (boot_calls o) ->
               In (RetargetIoInit CYBSP_DEBUG_UART_TX CYBSP_DEBUG_UART_RX
                     CY_RETARGET_IO_BAUDRATE CY_RSLT_SUCCESS) (boot_calls o)) /\
            (In EnableIrq (boot_calls o) -> In (BspInit CY_RSLT_SUCCESS) (boot_calls o))).
  { intros o ->. repeat split.
    - intros x Hin Hx. unfold full_boot in Hin. simpl in Hin.
      repeat (destruct Hin as [<-|Hin];
              [simpl in Hx; try discriminate;
               try (destruct (decide (CY_RSLT_SUCCESS <> CY_RSLT_SUCCESS));
                    [contradiction | discriminate])|]).
      contradiction.
    - intros fmt _. unfold full_boot. simpl. auto.
    - intros _. left. reflexivity. }
  destruct (vTaskStartScheduler w4) as [w5|].
  - destruct (Hfull (BootHalted w5 full_boot) eq_refl) as (A & B1 & C & D).
    repeat split; try assumption. left. reflexivity.
  - destruct (Hfull (Scheduling (W := W) full_boot) eq_refl) as (A & B1 & C & D).
    repeat split; assumption.
Qed.

End BootSequence.

(** ** From the keys typed to the string in the array *)

Lemma c_string_cut (bs rest : list uint8_t) :
  c_string (bs ++ NUL :: rest) = c_string (bs ++ [NUL]).
Proof.
  induction bs as [|b bs IH]; simpl; [reflexivity|].
  destruct (decide (b = NUL)); [reflexivity | rewrite IH; reflexivity].
Qed.

Lemma c_string_whole (bs : list uint8_t) :
  ~ In NUL bs -> list_ascii_of_string (c_string (bs ++ [NUL])) = bs.
Proof.
  induction bs as [|b bs IH]; intros Hn; simpl; [reflexivity|].
  destruct (decide (b = NUL)) as [->|_]; [exfalso; apply Hn; left; reflexivity|].
  simpl. rewrite IH; [reflexivity|]. intros Hin. apply Hn. right. exact Hin.
Qed.

Lemma kept_In (b : uint8_t) (rcv : list uint8_t) : In b (kept rcv) -> In b rcv.
Proof. intros Hin. apply List.filter_In in Hin as [Hin _]. exact Hin. Qed.

Section LineRoundTrip.

Context {W F : Type} {P : Platform W F}.

(** X13. The string a line leaves in the array is made of the bytes
    read that are not white space, in the order read, cut at the first
    NUL byte among them: when no NUL byte was read it is exactly these
    bytes, whatever the array held before, and a line of white space
    only (Enter alone, say) leaves the empty string. *)
Theorem line_editor_round_trip (line : list uint8_t) (maxlength : Z) (w : W) :
  0 < maxlength ->
  maxlength <= Z.of_nat (length line) ->
  exists (line' : list uint8_t) (w' : W) (t : list (action F)),
    terminal_ui_readline line maxlength w = Returned line' w' t /\
    c_string line' = c_string (kept (received t) ++ [NUL]) /\
    (~ In NUL (received t) -> list_ascii_of_string (c_string line') = kept (received t)) /\
    (kept (received t) = [] -> c_string line' = EmptyString).
Proof.
  intros Hm Hline.
  destruct (terminal_ui_readline_run maxlength w Hm)
    as (r & r' & w' & t & Hrun & _ & _ & _ & _ & Hlen & _ & _).
  pose proof (length_kept (received t)) as Hk.
  exists (write_at 0 (kept (received t) ++ [NUL]) line), w', t.
  split; [apply Hrun; exact Hline|].
  assert (Hcut : c_string (write_at 0 (kept (received t) ++ [NUL]) line) =
                 c_string (kept (received t) ++ [NUL])).
  { rewrite write_at_prefix by (rewrite length_app; simpl; lia).
    rewrite <- app_assoc. simpl. apply c_string_cut. }
  split; [exact Hcut|]. split.
  - intros Hn. rewrite Hcut. apply c_string_whole.
    intros Hin. apply Hn, kept_In. exact Hin.
  - intros He. rewrite Hcut, He. reflexivity.
Qed.

End LineRoundTrip.

(** ** The added properties on the bench *)

Section OnTheBenchAgain.

Import Bench.

Lemma line_editor_value_witness :
  0 < 4 /\
  4 <= Z.of_nat (length (scratch 6)) /\
  exists (line' : list uint8_t) (w' : bench) (t : list (action Q)),
    terminal_ui_readline (scratch 6) 4 (typing ["1"; " "; "5"; CR]%char) =
    Returned line' w' t /\
    Z.of_nat (String.length (c_string line')) <= 4 - 1 /\
    no_space (c_string line') /\
    length line' = length (scratch 6) /\
    drop (S (length (kept (received t)))) line' =
    drop (S (length (kept (received t)))) (scratch 6).
Proof.
  split; [lia|]. split; [simpl; lia|].
  apply (line_editor_value (scratch 6) 4 (typing ["1"; " "; "5"; CR]%char)); [lia | simpl; lia].
Defined.

Lemma terminal_task_ends_with_farewell_witness :
  IFX_RADAR_SENSING_VALUE_MAXLENGTH <= Z.of_nat (length (scratch 256)) /\
  match radar_presence_terminal_ui 3 (scratch 256) "x"%char (typing ["?"; "q"]%char) with
  | Returned _ _ t =>
      exists (pre : list (action Q)) (r r' : cy_rslt_t) (b : uint8_t),
        t = pre ++ [UartGetc 0 r b; Printf "Exiting terminal ui\n" []; ExitThread r'] /\
        r <> CY_RSLT_SUCCESS /\
        ~ In (Printf "Exiting terminal ui\n" []) pre /\
        (forall x : cy_rslt_t, ~ In (ExitThread x) pre)
  | Running _ t =>
      ~ In (Printf "Exiting terminal ui\n" []) t /\
      (forall x : cy_rslt_t, ~ In (ExitThread x) t)
  | Halted _ _ | Undefined _ _ => False
  end.
Proof.
  split; [unfold IFX_RADAR_SENSING_VALUE_MAXLENGTH; simpl; lia|].
  apply (terminal_task_ends_with_farewell 3 (scratch 256) "x"%char (typing ["?"; "q"]%char)).
  unfold IFX_RADAR_SENSING_VALUE_MAXLENGTH; simpl; lia.
Defined.

Lemma terminal_task_calls_witness :
  IFX_RADAR_SENSING_VALUE_MAXLENGTH <= Z.of_nat (length (scratch 256)) /\
  Forall
    (fun a : action Q =>
       ui_call a \/ a = Printf "Exiting terminal ui\n" [] \/ exists x : cy_rslt_t, a = ExitThread x)
    (calls (radar_presence_terminal_ui 4 (scratch 256) "x"%char
              (typing ["s"; "0"; "."; "5"; CR; "?"]%char))).
Proof.
  split; [unfold IFX_RADAR_SENSING_VALUE_MAXLENGTH; simpl; lia|].
  apply (terminal_task_calls 4 (scratch 256) "x"%char
           (typing ["s"; "0"; "."; "5"; CR; "?"]%char)).
  unfold IFX_RADAR_SENSING_VALUE_MAXLENGTH; simpl; lia.
Defined.


Lemma line_editor_round_trip_witness :
  0 < 256 /\
  256 <= Z.of_nat (length (scratch 256)) /\
  exists (line' : list uint8_t) (w' : bench) (t : list (action Q)),
    terminal_ui_readline (scratch 256) 256 (typing [" "; "0"; "."; " "; "5"; CR]%char) =
    Returned line' w' t /\
    c_string line' = c_string (kept (received t) ++ [NUL]) /\
    (~ In NUL (received t) -> list_ascii_of_string (c_string line') = kept (received t)) /\
    (kept (received t) = [] -> c_string line' = EmptyString).
Proof.
  split; [lia|]. split; [simpl; lia|].
  apply (line_editor_round_trip (scratch 256) 256 (typing [" "; "0"; "."; " "; "5"; CR]%char));
    [lia | simpl; lia].
Defined.

End OnTheBenchAgain.

(** ** Runs replayed on the platform *)

Section ReplayFacts.

Context {W F : Type} {P : Platform W F}.

Lemma genuine_app (w w1 w2 : W) (t1 t2 : list (action F)) :
  genuine w t1 w1 -> genuine w1 t2 w2 -> genuine w (t1 ++ t2) w2.
Proof.
  induction 1 as [w|a w wa w' t Ha Ht IH|ts r events w wa wb w' td t Hp Hd IHd Ht IH];
    intros H2; simpl.
  - exact H2.
  - econstructor; [exact Ha | exact (IH H2)].
  - rewrite <- app_assoc. simpl. eapply genuine_process; [exact Hp | exact Hd | exact (IH H2)].
Qed.

Lemma genuine_run_after {A} (w w1 : W) (pre : list (action F)) (o : outcome W F A) :
  genuine w pre w1 -> genuine_run w1 o -> genuine_run w (after pre o).
Proof.
  unfold genuine_run. intros Hpre Ho.
  rewrite calls_after. replace (world (after pre o)) with (world o) by (destruct o; reflexivity).
  eapply genuine_app; eassumption.
Qed.

Lemma genuine_run_bind {A B} (m : task W F A) (k : A -> task W F B) (w : W) :
  genuine_run w (m w) ->
  (forall (a : A) (w1 : W) (t1 : list (action F)),
     m w = Returned a w1 t1 -> genuine_run w1 (k a w1)) ->
  genuine_run w (bind m k w).
Proof.
  intros Hm Hk. unfold bind. destruct (m w) as [a w1 t1| | |] eqn:E; try exact Hm.
  apply genuine_run_after with (w1 := w1); [exact Hm | eapply Hk; reflexivity].
Qed.

Lemma genuine_one (a : action F) (w w1 : W) : asked a w w1 -> genuine w [a] w1.
Proof. intros Ha. econstructor; [exact Ha | constructor]. Qed.

Lemma genuine_run_call {A} (f : W -> A * W) (act : A -> action F) (w : W) :
  asked (act (fst (f w))) w (snd (f w)) -> genuine_run w (call f act w).
Proof.
  unfold call, genuine_run. destruct (f w) as [a w1]. simpl. apply genuine_one.
Qed.

Lemma genuine_run_ret {A} (a : A) (w : W) : genuine_run w (ret (F := F) a w).
Proof. constructor. Qed.

Lemma genuine_run_printf (fmt : string) (args : list (printf_arg F)) (w : W) :
  genuine_run w (printf fmt args w).
Proof. apply genuine_one. reflexivity. Qed.

Lemma genuine_run_store (line : list uint8_t) (i : Z) (v : uint8_t) (w : W) :
  genuine_run w (store (F := F) line i v w).
Proof. unfold store. case_decide; constructor. Qed.

Lemma genuine_run_uart_getc (rx_value : uint8_t) (timeout : Z) (w : W) :
  genuine_run w (uart_getc rx_value timeout w).
Proof.
  apply genuine_run_call. simpl. exists rx_value.
  destruct (cyhal_uart_getc rx_value timeout w) as [[r b] w1]. reflexivity.
Qed.

Lemma genuine_run_uart_putc (b : uint8_t) (w : W) : genuine_run w (uart_putc b w).
Proof. apply genuine_run_call. simpl. destruct (cyhal_uart_putc b w). reflexivity. Qed.

Lemma genuine_run_set_mute (mute : bool) (w : W) :
  genuine_run w (radar_presence_task_set_mute mute w).
Proof.
  unfold radar_presence_task_set_mute. destruct mute.
  - apply genuine_run_bind; [|intros; apply genuine_run_ret].
    apply genuine_run_call. simpl. destruct (cy_rtos_get_mutex _ w). reflexivity.
  - apply genuine_run_bind; [|intros; apply genuine_run_ret].
    apply genuine_run_call. simpl. destruct (cy_rtos_set_mutex w). reflexivity.
Qed.

Lemma terminal_ui_readline_loop_genuine (n : nat) :
  forall (line : list uint8_t) (maxlength i : Z) (rx_value : uint8_t) (w : W),
    genuine_run w (terminal_ui_readline_loop n line maxlength i rx_value w).
Proof.
  induction n as [|n IH]; intros line maxlength i rx_value w;
    rewrite terminal_ui_readline_loop_eq;
    destruct (decide (rx_value = CR)); try (constructor; fail);
    destruct (decide (maxlength - 1 > 0)); try (constructor; fail).
  apply genuine_run_bind; [apply genuine_run_uart_getc|].
  intros got w1 t1 _. apply genuine_run_bind; [apply genuine_run_uart_putc|].
  intros r2 w2 t2 _. destruct (isspace (snd got)); [apply IH|].
  apply genuine_run_bind; [apply genuine_run_store|].
  intros line' w3 t3 _. apply IH.
Qed.

Lemma terminal_ui_readline_genuine (line : list uint8_t) (maxlength : Z) (w : W) :
  genuine_run w (terminal_ui_readline line maxlength w).
Proof.
  unfold terminal_ui_readline.
  apply genuine_run_bind; [apply genuine_run_set_mute|].
  intros _ w1 t1 _. case_decide; [apply genuine_run_ret|].
  apply genuine_run_bind; [apply terminal_ui_readline_loop_genuine|].
  intros li w2 t2 _. apply genuine_run_bind; [apply genuine_run_uart_putc|].
  intros r3 w3 t3 _. apply genuine_run_bind; [apply genuine_run_store|].
  intros line' w4 t4 _.
  apply genuine_run_bind; [apply genuine_run_set_mute|].
  intros; apply genuine_run_ret.
Qed.

(** The bytes the loop reads are those the terminal feeds it, up to a
    carriage return or to [maxlength - 1] bytes. *)
Lemma terminal_ui_readline_loop_feeds (n : nat) :
  forall (keys line : list uint8_t) (maxlength i : Z) (rx_value : uint8_t) (w : W),
    (Z.to_nat maxlength <= n)%nat ->
    0 <= i ->
    i + Z.max (maxlength - 1) 0 <= Z.of_nat (length line) ->
    feeds rx_value w keys ->
    (rx_value = CR -> keys = []) ->
    ~ In CR (removelast keys) ->
    Z.of_nat (length keys) <= Z.max (maxlength - 1) 0 ->
    (List.last keys rx_value = CR \/ Z.of_nat (length keys) = Z.max (maxlength - 1) 0) ->
    received (calls (terminal_ui_readline_loop n line maxlength i rx_value w)) = keys.
Proof.
  induction n as [|n IH];
    intros keys line maxlength i rx_value w Hn Hi Hroom Hf Hcr Hno Hlen Hlast;
    rewrite terminal_ui_readline_loop_eq;
    (destruct (decide (rx_value = CR)) as [E|E]; [rewrite (Hcr E); reflexivity|]);
    (destruct (decide (maxlength - 1 > 0)) as [Hm|Hm];
     [|destruct keys; [reflexivity | simpl length in Hlen; lia]]).
  - lia.
  - destruct keys as [|k rest].
    { exfalso. destruct Hlast as [Hl|Hl]; [exact (E Hl) | simpl in Hl; lia]. }
    simpl in Hf. destruct Hf as [Hk Hf].
    unfold bind at 1, uart_getc, call.
    destruct (cyhal_uart_getc rx_value 0 w) as [[r b] w1]. simpl in Hk, Hf. subst b.
    cbn [after fst snd]. unfold bind at 1, uart_putc, call.
    destruct (cyhal_uart_putc k w1) as [r2 w2]. simpl in Hf.
    rewrite after_after, calls_after. cbn [app received]. f_equal.
    assert (Hcr' : k = CR -> rest = []).
    { intros ->. destruct rest as [|k2 rest2]; [reflexivity|].
      exfalso. apply Hno. left. reflexivity. }
    assert (Hno' : ~ In CR (removelast rest)).
    { intros Hin. apply Hno. destruct rest as [|k2 rest2]; [contradiction|].
      right. exact Hin. }
    assert (Hlast' : List.last rest k = CR \/
                     Z.of_nat (length rest) = Z.max (maxlength - 1 - 1) 0).
    { rewrite last_cons_default in Hlast.
      destruct Hlast as [Hl|Hl]; [left; exact Hl | right; simpl length in Hl; lia]. }
    simpl length in Hlen.
    destruct (isspace k).
    + apply IH; try assumption; lia.
    + unfold bind, store.
      destruct (decide (0 <= i < Z.of_nat (length line))); [|lia].
      cbn [after app]. rewrite calls_after. cbn [app].
      apply IH; try assumption; try lia.
      rewrite length_insert. lia.
Qed.

Lemma terminal_ui_readline_feeds (keys line : list uint8_t) (maxlength : Z) (w : W) :
  0 < maxlength ->
  maxlength <= Z.of_nat (length line) ->
  feeds NUL (snd (cy_rtos_get_mutex CY_RTOS_NEVER_TIMEOUT w)) keys ->
  ~ In CR (removelast keys) ->
  Z.of_nat (length keys) <= maxlength - 1 ->
  (List.last keys NUL = CR \/ Z.of_nat (length keys) = maxlength - 1) ->
  received (calls (terminal_ui_readline line maxlength w)) = keys.
Proof.
  intros Hm Hline Hf Hno Hlen Hlast.
  pose proof (terminal_ui_readline_loop_feeds (Z.to_nat maxlength) keys line maxlength 0 NUL
                (snd (cy_rtos_get_mutex CY_RTOS_NEVER_TIMEOUT w))) as Hloop.
  unfold terminal_ui_readline, radar_presence_task_set_mute, bind at 1, bind at 1,
    radar_presence_terminal_mutex_get, call, ret.
  destruct (cy_rtos_get_mutex CY_RTOS_NEVER_TIMEOUT w) as [r0 w1]. simpl in Hloop, Hf |- *.
  destruct (decide (maxlength <= 0)); [lia|].
  rewrite calls_after. cbn [app received].
  specialize (Hloop ltac:(lia) ltac:(lia) ltac:(lia) Hf ltac:(discriminate) Hno ltac:(lia)
                ltac:(destruct Hlast; [left; assumption | right; lia])).
  destruct (terminal_ui_readline_loop_run (Z.to_nat maxlength) maxlength 0 NUL w1)
    as (w2 & tl & Hl & _); [lia | lia |].
  specialize (Hl line ltac:(lia)).
  rewrite Hl in Hloop. simpl in Hloop.
  unfold bind at 1. rewrite Hl. rewrite calls_after, received_app, Hloop.
  unfold bind at 1, uart_putc, call. destruct (cyhal_uart_putc LF w2) as [r2 w3].
  cbn [after]. rewrite calls_after.
  unfold bind at 1, store. case_decide.
  - cbn [after app]. rewrite calls_after.
    unfold bind, radar_presence_task_set_mute, bind, radar_presence_terminal_mutex_release,
      call, ret.
    destruct (cy_rtos_set_mutex w3) as [r' w4]. simpl. rewrite app_nil_r. reflexivity.
  - simpl. rewrite app_nil_r. reflexivity.
Qed.

(** The bytes the loop reads are bytes the terminal feeds it. *)
Lemma terminal_ui_readline_loop_fed (n : nat) :
  forall (line : list uint8_t) (maxlength i : Z) (rx_value : uint8_t) (w : W),
    feeds rx_value w (received (calls (terminal_ui_readline_loop n line maxlength i rx_value w))).
Proof.
  induction n as [|n IH]; intros line maxlength i rx_value w;
    rewrite terminal_ui_readline_loop_eq;
    destruct (decide (rx_value = CR)); try exact I;
    destruct (decide (maxlength - 1 > 0)); try exact I.
  unfold bind at 1, uart_getc, call.
  pose proof (eq_refl (cyhal_uart_getc rx_value 0 w)) as Eg.
  destruct (cyhal_uart_getc rx_value 0 w) as [[r b] w1] in Eg at 2 |- * at 1.
  cbn [after fst snd]. unfold bind at 1, uart_putc, call.
  pose proof (eq_refl (cyhal_uart_putc b w1)) as Ep.
  destruct (cyhal_uart_putc b w1) as [r2 w2] in Ep at 2 |- * at 1.
  rewrite after_after, calls_after. cbn [app received feeds].
  rewrite Eg. cbn [fst snd]. rewrite Ep. cbn [snd]. split; [reflexivity|].
  destruct (isspace b); [apply IH|].
  unfold bind, store. case_decide; [|exact I].
  cbn [after app]. rewrite calls_after. cbn [app]. apply IH.
Qed.

Lemma terminal_ui_readline_fed (line : list uint8_t) (maxlength : Z) (w : W) :
  feeds NUL (snd (cy_rtos_get_mutex CY_RTOS_NEVER_TIMEOUT w))
    (received (calls (terminal_ui_readline line maxlength w))).
Proof.
  pose proof (terminal_ui_readline_loop_fed (Z.to_nat maxlength) line maxlength 0 NUL
                (snd (cy_rtos_get_mutex CY_RTOS_NEVER_TIMEOUT w))) as Hloop.
  unfold terminal_ui_readline, radar_presence_task_set_mute, bind at 1, bind at 1,
    radar_presence_terminal_mutex_get, call, ret.
  destruct (cy_rtos_get_mutex CY_RTOS_NEVER_TIMEOUT w) as [r0 w1]. simpl in Hloop |- *.
  destruct (decide (maxlength <= 0)); [exact I|].
  rewrite calls_after. cbn [app received].
  unfold bind at 1.
  destruct (terminal_ui_readline_loop (Z.to_nat maxlength) line maxlength 0 NUL w1)
    as [li w2 tl|w2 tl|w2 tl|w2 tl]; simpl in Hloop; try exact Hloop.
  rewrite calls_after, received_app.
  unfold bind at 1, uart_putc, call. destruct (cyhal_uart_putc LF w2) as [r2 w3].
  cbn [after]. rewrite calls_after.
  unfold bind at 1, store. case_decide.
  - cbn [after app]. rewrite calls_after.
    unfold bind, radar_presence_task_set_mute, bind, radar_presence_terminal_mutex_release,
      call, ret.
    destruct (cy_rtos_set_mutex w3) as [r' w4]. simpl. rewrite app_nil_r. exact Hloop.
  - simpl. rewrite app_nil_r. exact Hloop.
Qed.


(** C3. The line editor, called with a positive [maxlength] on an array
    that has room for it, returns. Its calls are the platform's
    answers, and the bytes it reads are the bytes the terminal feeds to
    its reads; it echoes every byte it reads and then a newline; the
    array starts with the bytes read that are not white space, in
    order, followed by NUL; no carriage return is read before the last
    byte, and reading ends with a carriage return or after
    [maxlength - 1] bytes. Whatever bytes the terminal feeds, up to a
    carriage return or to [maxlength - 1] of them, are the bytes read
    and leave their non-white-space part as the string of the array:
    fed 1 . 5 and a carriage return, the array holds the string 1.5. *)
Theorem line_editor_contract (line : list uint8_t) (maxlength : Z) (w : W) :
  0 < maxlength ->
  maxlength <= Z.of_nat (length line) ->
  exists (line' : list uint8_t) (w' : W) (t : list (action F)),
    terminal_ui_readline line maxlength w = Returned line' w' t /\
    genuine w t w' /\
    feeds NUL (snd (cy_rtos_get_mutex CY_RTOS_NEVER_TIMEOUT w)) (received t) /\
    echoed t = received t ++ [LF] /\
    take (length (kept (received t))) line' = kept (received t) /\
    line' !! length (kept (received t)) = Some NUL /\
    ~ In CR (removelast (received t)) /\
    (List.last (received t) NUL = CR \/ Z.of_nat (length (received t)) = maxlength - 1) /\
    (forall keys : list uint8_t,
       feeds NUL (snd (cy_rtos_get_mutex CY_RTOS_NEVER_TIMEOUT w)) keys ->
       ~ In CR (removelast keys) ->
       Z.of_nat (length keys) <= maxlength - 1 ->
       List.last keys NUL = CR \/ Z.of_nat (length keys) = maxlength - 1 ->
       received t = keys /\ c_string line' = c_string (kept keys ++ [NUL])) /\
    (5 <= maxlength ->
     feeds NUL (snd (cy_rtos_get_mutex CY_RTOS_NEVER_TIMEOUT w)) ["1"; "."; "5"; CR]%char ->
     received t = ["1"; "."; "5"; CR]%char /\ c_string line' = "1.5").
Proof.
  intros Hm Hline.
  destruct (terminal_ui_readline_run maxlength w Hm)
    as (r & r' & w' & t & Hrun & He & _ & _ & _ & Hlen & Hno & Hlast).
  specialize (Hrun line Hline).
  pose proof (length_kept (received t)) as Hk.
  assert (Hfit : (length (kept (received t) ++ [NUL]) <= length line)%nat).
  { rewrite length_app. simpl. lia. }
  pose proof (terminal_ui_readline_genuine line maxlength w) as Hg.
  pose proof (terminal_ui_readline_fed line maxlength w) as Hfed.
  assert (Hkeys : forall keys : list uint8_t,
            feeds NUL (snd (cy_rtos_get_mutex CY_RTOS_NEVER_TIMEOUT w)) keys ->
            ~ In CR (removelast keys) ->
            Z.of_nat (length keys) <= maxlength - 1 ->
            List.last keys NUL = CR \/ Z.of_nat (length keys) = maxlength - 1 ->
            received t = keys /\
            c_string (write_at 0 (kept (received t) ++ [NUL]) line) =
            c_string (kept keys ++ [NUL])).
  { intros keys Hf Hn Hl Hs.
    pose proof (terminal_ui_readline_feeds keys line maxlength w Hm Hline Hf Hn Hl Hs) as Hr.
    rewrite Hrun in Hr. simpl in Hr. split; [exact Hr|].
    rewrite write_at_prefix by exact Hfit.
    rewrite <- app_assoc. simpl. rewrite Hr. apply c_string_cut. }
  unfold genuine_run in Hg. rewrite Hrun in Hg, Hfed. simpl in Hg, Hfed.
  exists (write_at 0 (kept (received t) ++ [NUL]) line), w', t.
  split; [exact Hrun|]. split; [exact Hg|]. split; [exact Hfed|]. split; [exact He|].
  split; [rewrite write_at_prefix by exact Hfit; rewrite <- app_assoc; apply take_app_length|].
  split.
  { rewrite write_at_prefix by exact Hfit. rewrite <- app_assoc.
    rewrite lookup_app_r by lia. rewrite Nat.sub_diag. reflexivity. }
  split; [exact Hno|]. split; [exact Hlast|]. split; [exact Hkeys|].
  intros H5 Hf.
  destruct (Hkeys _ Hf) as [Hr Hs].
  - simpl. intros [E|[E|[E|[]]]]; discriminate.
  - simpl. lia.
  - left. reflexivity.
  - split; [exact Hr|]. rewrite Hs. reflexivity.
Qed.

End ReplayFacts.

(** ** The set command and the engine's answer *)

Section SetCommand.

Context {W F : Type} {P : Platform W F}.

(** A set command, with the answer of the engine. *)
Lemma set_command_answer (key : uint8_t) (value : list uint8_t) (w : W) :
  key = "r"%char \/ key = "s"%char ->
  IFX_RADAR_SENSING_VALUE_MAXLENGTH <= Z.of_nat (length value) ->
  exists (value' : list uint8_t) (w2 : W) (t : list (action F)),
    terminal_ui_readline value IFX_RADAR_SENSING_VALUE_MAXLENGTH w = Returned value' w2 t /\
    (let answer :=
       mtb_radar_sensing_set_parameter (parameter_of_key key) (c_string value') w2 in
     radar_presence_terminal_ui_switch key value w =
     Returned value' (snd answer)
       (Printf (prompt_of_key key) [] :: t ++
        [EngineSetParameter (parameter_of_key key) (c_string value') (fst answer);
         Printf (if decide (fst answer = MTB_RADAR_SENSING_SUCCESS) then "OK\n" else "ERROR\n")
           []])) /\
    prints t = [] /\
    engine_calls t = [].
Proof.
  intros Hkey Hlen.
  destruct (terminal_ui_readline_run IFX_RADAR_SENSING_VALUE_MAXLENGTH w)
    as (r & r' & w1 & t & Hrun & _ & _ & Hp & He & _); [reflexivity|].
  specialize (Hrun value Hlen).
  set (value' := write_at 0 (kept (received t) ++ [NUL]) value) in *.
  exists value', w1, t.
  split; [exact Hrun|]. split; [|split; assumption].
  cbv zeta.
  destruct (mtb_radar_sensing_set_parameter (parameter_of_key key) (c_string value') w1)
    as [status w2] eqn:Eset.
  unfold radar_presence_terminal_ui_switch.
  destruct Hkey as [-> | ->].
  - case_decide; [discriminate|].
    case_decide; [|contradiction].
    change (parameter_of_key "r"%char) with "radar_presence_range_max" in Eset.
    rewrite (bind_returned _ _ _ _ _ _ (eq_refl : printf _ [] w = Returned tt w [_])).
    rewrite (bind_returned _ _ _ _ _ _ Hrun).
    unfold bind, call. rewrite Eset, terminal_ui_print_result_run.
    unfold ret. simpl. reflexivity.
  - case_decide; [discriminate|].
    case_decide; [discriminate|].
    case_decide; [|contradiction].
    change (parameter_of_key "s"%char) with "radar_presence_sensitivity" in Eset.
    rewrite (bind_returned _ _ _ _ _ _ (eq_refl : printf _ [] w = Returned tt w [_])).
    rewrite (bind_returned _ _ _ _ _ _ Hrun).
    unfold bind, call. rewrite Eset, terminal_ui_print_result_run.
    unfold ret. simpl. reflexivity.
Qed.

(** C6. When the key read is r or s, the command prompts, reads a line
    and hands the string read to [set_parameter]; what it prints next
    is OK when the engine answered that call with the success status
    and ERROR for any other answer. The prompt and the verdict are its
    only prints and the call its only engine call. Whatever the
    answer, the loop then goes on to wait for the next key, in the
    world the engine left. *)
Theorem set_command_reports_and_continues
  (n : nat) (key rx_value : uint8_t) (value : list uint8_t) (w w1 : W) :
  key = "r"%char \/ key = "s"%char ->
  IFX_RADAR_SENSING_VALUE_MAXLENGTH <= Z.of_nat (length value) ->
  cyhal_uart_getc rx_value 0 w = ((CY_RSLT_SUCCESS, key), w1) ->
  exists (value' : list uint8_t) (w2 : W) (t : list (action F)),
    terminal_ui_readline value IFX_RADAR_SENSING_VALUE_MAXLENGTH w1 = Returned value' w2 t /\
    (let answer :=
       mtb_radar_sensing_set_parameter (parameter_of_key key) (c_string value') w2 in
     radar_presence_terminal_ui_loop (S n) value rx_value w =
     after
       (UartGetc 0 CY_RSLT_SUCCESS key :: Printf (prompt_of_key key) [] :: t ++
        [EngineSetParameter (parameter_of_key key) (c_string value') (fst answer);
         Printf (if decide (fst answer = MTB_RADAR_SENSING_SUCCESS) then "OK\n" else "ERROR\n")
           []])
       (radar_presence_terminal_ui_loop n value' NUL (snd answer))) /\
    prints t = [] /\
    engine_calls t = [].
Proof.
  intros Hkey Hlen Hget.
  destruct (set_command_answer key value w1 Hkey Hlen) as (value' & w2 & t & Hrun & Hsw & Hp & He).
  exists value', w2, t. split; [exact Hrun|]. split; [|split; assumption].
  cbv zeta in Hsw |- *.
  simpl. unfold bind at 1. unfold uart_getc, call. rewrite Hget. simpl.
  destruct (decide (CY_RSLT_SUCCESS = CY_RSLT_SUCCESS)); [|contradiction].
  unfold bind. rewrite Hsw. rewrite after_after. reflexivity.
Qed.

End SetCommand.

(** ** Binary32 arithmetic and the text of a number *)

Lemma shr_1_nonneg (mrs : shr_record) : 0 <= shr_m mrs -> 0 <= shr_m (shr_1 mrs).
Proof.
  destruct mrs as [m r s]. simpl. intros Hm.
  destruct m as [|p|p]; [reflexivity | | lia].
  destruct p; simpl; lia.
Qed.

Lemma iter_pos_shr_1_nonneg (p : positive) :
  forall mrs : shr_record, 0 <= shr_m mrs -> 0 <= shr_m (SpecFloat.iter_pos shr_1 p mrs).
Proof.
  induction p as [p IH|p IH|]; intros mrs Hm; simpl.
  - apply IH, IH, shr_1_nonneg, Hm.
  - apply IH, IH, Hm.
  - apply shr_1_nonneg, Hm.
Qed.

Lemma shr_fexp_nonneg (prec emax m e : Z) (l : location) :
  0 <= m -> 0 <= shr_m (fst (shr_fexp prec emax m e l)).
Proof.
  intros Hm. unfold shr_fexp, shr.
  assert (H0 : 0 <= shr_m (shr_record_of_loc m l)).
  { destruct l as [|[]]; exact Hm. }
  destruct (fexp prec emax (Zdigits2 m + e) - e) as [|p|p]; simpl; try exact H0.
  apply iter_pos_shr_1_nonneg, H0.
Qed.

Lemma round_nearest_even_nonneg (m : Z) (l : location) :
  0 <= m -> 0 <= round_nearest_even m l.
Proof.
  intros Hm. destruct l as [|[]]; simpl; try lia.
  destruct (Z.even m); lia.
Qed.

Lemma binary_round_aux_not_nan (prec emax : Z) (sx : bool) (mx ex : Z) (lx : location) :
  0 <= mx -> is_nan (binary_round_aux prec emax sx mx ex lx) = false.
Proof.
  intros Hm. unfold binary_round_aux.
  pose proof (shr_fexp_nonneg prec emax mx ex lx Hm) as H1.
  destruct (shr_fexp prec emax mx ex lx) as [mrs1 e1]. simpl in H1.
  pose proof (shr_fexp_nonneg prec emax
                (round_nearest_even (shr_m mrs1) (loc_of_shr_record mrs1)) e1 loc_Exact
                (round_nearest_even_nonneg _ _ H1)) as H2.
  destruct (shr_fexp prec emax _ e1 loc_Exact) as [mrs2 e2]. simpl in H2.
  destruct (shr_m mrs2) as [|p|p]; [reflexivity | | lia].
  destruct (e2 <=? emax - prec); reflexivity.
Qed.

Lemma float32_of_Z_not_nan (z : Z) : is_nan (float32_of_Z z) = false.
Proof.
  unfold float32_of_Z, binary_normalize, binary_round.
  destruct z as [|p|p]; [reflexivity| |];
    destruct (shl_align p 0 _) as [mz ez]; apply binary_round_aux_not_nan; lia.
Qed.

(** A timestamp in seconds is never a NaN. *)
Lemma seconds_not_nan (z : Z) :
  is_nan (float32_div (float32_of_Z z) (float32_of_Z 1000)) = false.
Proof.
  pose proof (float32_of_Z_not_nan z) as Hz.
  change (float32_of_Z 1000) with (S754_finite false 16384000 (-14)).
  destruct (float32_of_Z z) as [s|s| |s m e]; try reflexivity; [discriminate|].
  unfold float32_div, SFdiv.
  pose proof (eq_refl (SFdiv_core_binary 24 128 (Z.pos m) e 16384000 (-14))) as Hc.
  unfold SFdiv_core_binary at 2 in Hc.
  destruct (SFdiv_core_binary 24 128 (Z.pos m) e 16384000 (-14)) as [[mz ez] lz].
  apply binary_round_aux_not_nan.
  cbv zeta in Hc.
  match type of Hc with
  | _ = (let '(q, r) := Z.div_eucl ?m' ?m2 in _) =>
      pose proof (Z.div_pos m' m2) as Hq;
      unfold Z.div in Hq; destruct (Z.div_eucl m' m2) as [q r0]
  end.
  injection Hc as -> _ _. apply Hq; [|lia].
  destruct (e - -14 - _) as [|p|p]; [lia | | lia].
  apply Z.shiftl_nonneg. lia.
Qed.

Lemma string_of_uint_digits (u : Decimal.uint) :
  forallb is_digit (list_ascii_of_string (NilEmpty.string_of_uint u)) = true.
Proof. induction u; simpl; try rewrite IHu; reflexivity. Qed.

Lemma decimal_digits_of (k : Z) :
  decimal k <> EmptyString /\ forallb is_digit (list_ascii_of_string (decimal k)) = true.
Proof.
  unfold decimal, NilZero.string_of_uint.
  destruct (N.to_uint (Z.to_N k)) as [|u|u|u|u|u|u|u|u|u|u];
    (split; [discriminate|]); try reflexivity;
    apply (string_of_uint_digits (_ u)).
Qed.

Lemma list_ascii_of_string_app (s1 s2 : string) :
  list_ascii_of_string (s1 ++ s2)%string = list_ascii_of_string s1 ++ list_ascii_of_string s2.
Proof. induction s1 as [|c s1 IH]; simpl; [reflexivity | rewrite IH; reflexivity]. Qed.

Lemma string_length_app (s1 s2 : string) :
  String.length (s1 ++ s2)%string = (String.length s1 + String.length s2)%nat.
Proof. induction s1 as [|c s1 IH]; simpl; [reflexivity | rewrite IH; reflexivity]. Qed.

Lemma decimal_digit_is_digit (k : Z) : is_digit (decimal_digit (k mod 10)) = true.
Proof.
  pose proof (Z.mod_pos_bound k 10 ltac:(lia)) as Hk.
  assert (H : k mod 10 = 0 \/ k mod 10 = 1 \/ k mod 10 = 2 \/ k mod 10 = 3 \/ k mod 10 = 4 \/
              k mod 10 = 5 \/ k mod 10 = 6 \/ k mod 10 = 7 \/ k mod 10 = 8 \/ k mod 10 = 9)
    by lia.
  destruct H as [->|[->|[->|[->|[->|[->|[->|[->|[->| ->]]]]]]]]]; reflexivity.
Qed.

Lemma decimal_digits_spec (n : nat) :
  forall k : Z,
    String.length (decimal_digits n k) = n /\
    forallb is_digit (list_ascii_of_string (decimal_digits n k)) = true.
Proof.
  induction n as [|n IH]; intros k; simpl; [split; reflexivity|].
  destruct (IH (k / 10)) as [Hl Hd].
  rewrite string_length_app, list_ascii_of_string_app, forallb_app, Hl, Hd.
  simpl. rewrite decimal_digit_is_digit. split; [lia | reflexivity].
Qed.

(** [%.Nf] writes a number with [N] decimals. *)
Lemma fixed_decimals (n : nat) (x : spec_float) :
  n <> O -> is_number x = true -> decimals n (fixed n x).
Proof.
  intros Hn Hx.
  assert (Hp : forall (s : bool) (k : Z), decimals n (minus_sign s ++ fixed_point n k)%string).
  { intros s k. unfold fixed_point. destruct n as [|n']; [contradiction|].
    destruct (decimal_digits_of (k / 10 ^ Z.of_nat (S n'))) as [Hne Hw].
    destruct (decimal_digits_spec (S n') k) as [Hl Hf].
    exists s, (decimal (k / 10 ^ Z.of_nat (S n'))), (decimal_digits (S n') k).
    repeat split; assumption. }
  destruct x as [s|s| |s m e]; try discriminate; apply Hp.
Qed.

(** ** The lines of the two presence events *)

Section PresenceLines.

Context {W : Type} {P : Platform W spec_float}.


(** X1. On a PRESENCE_OUT event the callback drives the presence LED
    off and the absence LED on, asks for the console mutex with a zero
    wait, and returns. When the platform grants the mutex it prints
    one line and releases; otherwise it prints nothing and releases
    nothing. With [float] as binary32 the line reads: the timestamp
    over 1000 with three decimals, a colon, Presence OUT. *)
Theorem presence_out_event (event_info : mtb_radar_sensing_event_info_t spec_float) (w : W) :
  binary32_arith P ->
  let seconds := float32_div (float32_of_Z (timestamp event_info)) (float32_of_Z 1000) in
  let w2 := cyhal_gpio_write LED_RGB_GREEN true (cyhal_gpio_write LED_RGB_RED false w) in
  let r := fst (cy_rtos_get_mutex 0 w2) in
  let w3 := snd (cy_rtos_get_mutex 0 w2) in
  radar_sensing_callback MTB_RADAR_SENSING_EVENT_PRESENCE_OUT event_info w =
    (if decide (r = CY_RSLT_SUCCESS) then
       Returned tt (snd (cy_rtos_set_mutex w3))
         [GpioWrite LED_RGB_RED false; GpioWrite LED_RGB_GREEN true; MutexGet 0 r;
          Printf "%.3f: Presence OUT\n" [ArgFloat seconds];
          MutexRelease (fst (cy_rtos_set_mutex w3))]
     else
       Returned tt w3
         [GpioWrite LED_RGB_RED false; GpioWrite LED_RGB_GREEN true; MutexGet 0 r]) /\
  console_text "%.3f: Presence OUT\n" [ArgFloat seconds] =
    Some (fixed 3 seconds ++ ": Presence OUT\n")%string /\
  is_nan seconds = false /\
  (is_number seconds = true -> decimals 3 (fixed 3 seconds)).
Proof.
  intros (Hu & Hi & Ha & Hs & Hd) seconds w2 r w3.
  split; [|split; [|split]].
  - pose proof (callback_presence_out event_info w) as H. cbv zeta in H.
    unfold presence_out_line in H. cbn [fst snd] in H.
    rewrite Hd, Hu, Hi in H. exact H.
  - reflexivity.
  - apply seconds_not_nan.
  - apply fixed_decimals. discriminate.
Qed.

End PresenceLines.

Section InThenOut.

Context {W F : Type} {P : Platform W F}.

(** C5. PRESENCE_IN followed by PRESENCE_OUT, with the answers the
    platform gives to the two zero-wait acquisitions: both calls
    return; the presence LED is on after the first event and off after
    the second, the absence LED off and then on. The console shows the
    IN line and then the OUT line, each present exactly when its
    acquisition was granted: both lines, in this order, when both were
    granted, and the OUT line alone when the first was refused. No
    hold of the mutex is left. *)
Theorem presence_in_then_out (info_in info_out : mtb_radar_sensing_event_info_t F) (w : W) :
  let wa := cyhal_gpio_write LED_RGB_GREEN false (cyhal_gpio_write LED_RGB_RED true w) in
  let r1 := fst (cy_rtos_get_mutex 0 wa) in
  let w1 :=
    if decide (r1 = CY_RSLT_SUCCESS) then snd (cy_rtos_set_mutex (snd (cy_rtos_get_mutex 0 wa)))
    else snd (cy_rtos_get_mutex 0 wa) in
  let t1 :=
    [GpioWrite LED_RGB_RED true; GpioWrite LED_RGB_GREEN false; MutexGet 0 r1] ++
    (if decide (r1 = CY_RSLT_SUCCESS) then
       [Printf (fst (presence_in_line info_in)) (snd (presence_in_line info_in));
        MutexRelease (fst (cy_rtos_set_mutex (snd (cy_rtos_get_mutex 0 wa))))]
     else []) in
  let wb := cyhal_gpio_write LED_RGB_GREEN true (cyhal_gpio_write LED_RGB_RED false w1) in
  let r2 := fst (cy_rtos_get_mutex 0 wb) in
  let w2 :=
    if decide (r2 = CY_RSLT_SUCCESS) then snd (cy_rtos_set_mutex (snd (cy_rtos_get_mutex 0 wb)))
    else snd (cy_rtos_get_mutex 0 wb) in
  let t2 :=
    [GpioWrite LED_RGB_RED false; GpioWrite LED_RGB_GREEN true; MutexGet 0 r2] ++
    (if decide (r2 = CY_RSLT_SUCCESS) then
       [Printf (fst (presence_out_line info_out)) (snd (presence_out_line info_out));
        MutexRelease (fst (cy_rtos_set_mutex (snd (cy_rtos_get_mutex 0 wb))))]
     else []) in
  radar_sensing_callback MTB_RADAR_SENSING_EVENT_PRESENCE_IN info_in w = Returned tt w1 t1 /\
  radar_sensing_callback MTB_RADAR_SENSING_EVENT_PRESENCE_OUT info_out w1 = Returned tt w2 t2 /\
  deliver [(MTB_RADAR_SENSING_EVENT_PRESENCE_IN, info_in);
           (MTB_RADAR_SENSING_EVENT_PRESENCE_OUT, info_out)] w = Returned tt w2 (t1 ++ t2) /\
  indicator LED_RGB_RED t1 = Some true /\
  indicator LED_RGB_GREEN t1 = Some false /\
  indicator LED_RGB_RED (t1 ++ t2) = Some false /\
  indicator LED_RGB_GREEN (t1 ++ t2) = Some true /\
  prints (t1 ++ t2) =
    (if decide (r1 = CY_RSLT_SUCCESS) then [presence_in_line info_in] else []) ++
    (if decide (r2 = CY_RSLT_SUCCESS) then [presence_out_line info_out] else []) /\
  (r1 = CY_RSLT_SUCCESS -> r2 = CY_RSLT_SUCCESS ->
   prints (t1 ++ t2) = [presence_in_line info_in; presence_out_line info_out]) /\
  (r1 <> CY_RSLT_SUCCESS -> r2 = CY_RSLT_SUCCESS ->
   prints (t1 ++ t2) = [presence_out_line info_out]) /\
  net_holds CY_RSLT_SUCCESS 0 (gate_ops (t1 ++ t2)) = 0.
Proof.
  intros wa r1 w1 t1 wb r2 w2 t2.
  assert (E1 : radar_sensing_callback MTB_RADAR_SENSING_EVENT_PRESENCE_IN info_in w =
               Returned tt w1 t1).
  { pose proof (callback_presence_in info_in w) as H. cbv zeta in H. rewrite H.
    unfold w1, t1, r1, wa. case_decide; reflexivity. }
  assert (E2 : radar_sensing_callback MTB_RADAR_SENSING_EVENT_PRESENCE_OUT info_out w1 =
               Returned tt w2 t2).
  { pose proof (callback_presence_out info_out w1) as H. cbv zeta in H. rewrite H.
    unfold w2, t2, r2, wb. case_decide; reflexivity. }
  assert (Hp : prints (t1 ++ t2) =
               (if decide (r1 = CY_RSLT_SUCCESS) then [presence_in_line info_in] else []) ++
               (if decide (r2 = CY_RSLT_SUCCESS) then [presence_out_line info_out] else [])).
  { rewrite prints_app. unfold t1, t2, presence_in_line, presence_out_line. f_equal.
    - destruct (decide (r1 = CY_RSLT_SUCCESS)); reflexivity.
    - destruct (decide (r2 = CY_RSLT_SUCCESS)); reflexivity. }
  split; [exact E1|]. split; [exact E2|].
  split.
  { simpl. rewrite (bind_returned _ _ _ _ _ _ E1).
    rewrite (bind_returned _ _ _ _ _ _ E2). unfold ret. simpl. rewrite app_nil_r. reflexivity. }
  split; [unfold t1; destruct (decide (r1 = CY_RSLT_SUCCESS)); reflexivity|].
  split; [unfold t1; destruct (decide (r1 = CY_RSLT_SUCCESS)); reflexivity|].
  split.
  { rewrite indicator_app. unfold t2. destruct (decide (r2 = CY_RSLT_SUCCESS)); reflexivity. }
  split.
  { rewrite indicator_app. unfold t2. destruct (decide (r2 = CY_RSLT_SUCCESS)); reflexivity. }
  split; [exact Hp|].
  split.
  { intros H1 H2. rewrite Hp.
    destruct (decide (r1 = CY_RSLT_SUCCESS)); [|contradiction].
    destruct (decide (r2 = CY_RSLT_SUCCESS)); [|contradiction]. reflexivity. }
  split.
  { intros H1 H2. rewrite Hp.
    destruct (decide (r1 = CY_RSLT_SUCCESS)); [contradiction|].
    destruct (decide (r2 = CY_RSLT_SUCCESS)); [|contradiction]. reflexivity. }
  rewrite gate_ops_app, net_holds_app. unfold t1, t2.
  destruct (decide (r1 = CY_RSLT_SUCCESS)); destruct (decide (r2 = CY_RSLT_SUCCESS)); simpl;
    repeat case_decide; try contradiction; reflexivity.
Qed.

End InThenOut.

(** ** Failures of the sensing task, seen from the platform *)

Section FatalFailures.

Context {W F : Type} {P : Platform W F}.

Lemma genuine_run_call_void (f : W -> W) (act : action F) (w : W) :
  asked act w (f w) -> genuine_run w (call_void f act w).
Proof. intros Ha. apply genuine_one. exact Ha. Qed.

Lemma genuine_run_gpio_write (p : gpio_pin) (v : Z) (w : W) :
  genuine_run w (gpio_write p v w).
Proof. apply genuine_run_call_void. reflexivity. Qed.

Lemma radar_sensing_callback_genuine
  (event : mtb_radar_sensing_event_t) (event_info : mtb_radar_sensing_event_info_t F) (w : W) :
  genuine_run w (radar_sensing_callback event event_info w).
Proof.
  destruct event; simpl; [| |apply genuine_run_ret].
  - apply genuine_run_bind; [apply genuine_run_gpio_write|]. intros _ w1 t1 _.
    apply genuine_run_bind; [apply genuine_run_gpio_write|]. intros _ w2 t2 _.
    apply genuine_run_bind.
    { apply genuine_run_call. simpl. destruct (cy_rtos_get_mutex 0 w2). reflexivity. }
    intros r w3 t3 _. case_decide; [|apply genuine_run_ret].
    apply genuine_run_bind; [apply genuine_run_printf|]. intros _ w4 t4 _.
    apply genuine_run_bind; [|intros; apply genuine_run_ret].
    apply genuine_run_call. simpl. destruct (cy_rtos_set_mutex w4). reflexivity.
  - apply genuine_run_bind; [apply genuine_run_gpio_write|]. intros _ w1 t1 _.
    apply genuine_run_bind; [apply genuine_run_gpio_write|]. intros _ w2 t2 _.
    apply genuine_run_bind.
    { apply genuine_run_call. simpl. destruct (cy_rtos_get_mutex 0 w2). reflexivity. }
    intros r w3 t3 _. case_decide; [|apply genuine_run_ret].
    apply genuine_run_bind; [apply genuine_run_printf|]. intros _ w4 t4 _.
    apply genuine_run_bind; [|intros; apply genuine_run_ret].
    apply genuine_run_call. simpl. destruct (cy_rtos_set_mutex w4). reflexivity.
Qed.

Lemma deliver_genuine
  (events : list (mtb_radar_sensing_event_t * mtb_radar_sensing_event_info_t F)) :
  forall w : W, genuine_run w (deliver events w).
Proof.
  induction events as [|[event event_info] rest IH]; intros w; [constructor|].
  simpl. apply genuine_run_bind; [apply radar_sensing_callback_genuine|].
  intros _ w1 t1 _. apply IH.
Qed.

Lemma sensing_process_genuine (ts : Z) (w : W) : genuine_run w (sensing_process ts w).
Proof.
  unfold sensing_process.
  destruct (mtb_radar_sensing_process ts w) as [[r events] w1] eqn:Ep.
  pose proof (deliver_genuine events w1) as Hd.
  destruct (deliver_passes events w1) as (w2 & td & Ed & _).
  unfold genuine_run in *. rewrite Ed in Hd. simpl in Hd.
  rewrite (bind_returned _ _ _ _ _ _ Ed). simpl.
  eapply genuine_process; [exact Ep | exact Hd | constructor].
Qed.

Lemma radar_task_loop_genuine (n : nat) :
  forall w : W, genuine_run w (radar_task_loop n w).
Proof.
  induction n as [|n IH]; intros w; [constructor|].
  simpl.
  apply genuine_run_bind.
  { unfold ifx_currenttime. apply genuine_run_bind; [|intros; apply genuine_run_ret].
    apply genuine_run_call. simpl. destruct (xTaskGetTickCount w). reflexivity. }
  intros now w1 t1 _.
  apply genuine_run_bind; [apply sensing_process_genuine|]. intros r w2 t2 _.
  apply genuine_run_bind.
  { case_decide; [|apply genuine_run_ret].
    apply genuine_run_bind; [apply genuine_run_printf|]. intros. exact (genuine_nil _). }
  intros _ w3 t3 _.
  apply genuine_run_bind; [apply genuine_run_call_void; reflexivity|].
  intros _ w4 t4 _. apply IH.
Qed.

Lemma genuine_run_assert (x : bool) (w : W) : genuine_run w (CY_ASSERT (F := F) x w).
Proof. destruct x; exact (genuine_nil w). Qed.

Ltac platform_call :=
  apply genuine_run_call; simpl;
  match goal with
  | |- context [?f ?w] =>
      match type of (f w) with
      | prod _ _ => destruct (f w); reflexivity
      end
  end.

Ltac tested :=
  case_decide; [|apply genuine_run_ret];
  first [ apply genuine_run_assert
        | apply genuine_run_bind; [apply genuine_run_printf | intros; apply genuine_run_assert] ].

(** Every call [radar_task] records is the platform's answer. *)
Lemma radar_task_genuine (n : nat) (w : W) : genuine_run w (radar_task n w).
Proof.
  unfold radar_task, gpio_init.
  do 4 (apply genuine_run_bind; [platform_call | intros ? ? ? _];
        apply genuine_run_bind; [tested | intros ? ? ? _]).
  do 4 (apply genuine_run_bind; [platform_call | intros ? ? ? _]).
  do 7 (apply genuine_run_bind; [platform_call | intros ? ? ? _];
        apply genuine_run_bind; [tested | intros ? ? ? _]).
  apply radar_task_loop_genuine.
Qed.

Lemma genuine_nil_inv (w w' : W) : genuine w [] w' -> w' = w.
Proof.
  intros H. remember [] as l eqn:El.
  destruct H as [w|a w w1 w' t Ha Ht|ts r events w w1 w2 w' td t Hp Hd Ht];
    [reflexivity | discriminate | destruct td; discriminate].
Qed.

Lemma genuine_cons_inv (a : action F) (t : list (action F)) (w w' : W) :
  genuine w (a :: t) w' ->
  (forall (ts : Z) (r : cy_rslt_t), ~ In (EngineProcess ts r) (a :: t)) ->
  exists w1 : W, asked a w w1 /\ genuine w1 t w'.
Proof.
  intros H Hno. remember (a :: t) as l eqn:El in H.
  destruct H as [w|a0 w w1 w' t0 Ha Ht|ts r events w w1 w2 w' td t0 Hp Hd Ht].
  - discriminate.
  - injection El as -> ->. exists w1. split; assumption.
  - exfalso. apply (Hno ts r). rewrite <- El. apply in_or_app. right. left. reflexivity.
Qed.

Lemma after_one_halted {A} (a : action F) (o : outcome W F A) (w : W) (t : list (action F)) :
  o = Halted w t -> after [a] o = Halted w (a :: t).
Proof. intros ->. reflexivity. Qed.

Ltac answered :=
  match goal with
  | E : ?c = (_, _) |- context [match ?c with pair _ _ => _ end] =>
      rewrite E; cbv beta iota
  end.

Ltac passed_test :=
  match goal with
  | |- context [decide (?r <> ?r)] =>
      destruct (decide (r <> r)); [contradiction|]; cbv beta iota; rewrite after_nil
  end.

Ltac failed_test :=
  match goal with
  | H : ?r <> ?ok |- context [decide (?r <> ?ok)] =>
      destruct (decide (r <> ok)); [reflexivity | contradiction]
  end.

Ltac failing_call :=
  match goal with
  | Hf : failed _ = true |- _ =>
      simpl in Hf; try discriminate Hf;
      match type of Hf with
      | (if decide (?r <> ?ok) then true else false) = true =>
          destruct (decide (r <> ok)); [clear Hf | discriminate Hf]
      end
  end.

Lemma genuine_uncons (a : action F) (t : list (action F)) (w w' : W) :
  genuine w (a :: t) w' ->
  (forall (ts : Z) (r : cy_rslt_t), ~ In (EngineProcess ts r) (a :: t)) ->
  exists w1 : W,
    asked a w w1 /\ genuine w1 t w' /\
    forall (ts : Z) (r : cy_rslt_t), ~ In (EngineProcess ts r) t.
Proof.
  intros Hg Hno. destruct (genuine_cons_inv a t w w' Hg Hno) as (w1 & Ha & Ht).
  exists w1. split; [exact Ha|]. split; [exact Ht|].
  intros ts r Hin. apply (Hno ts r). right. exact Hin.
Qed.

Lemma configured_no_process (l : list (action F)) :
  configured l -> forall (ts : Z) (r : cy_rslt_t), ~ In (EngineProcess ts r) l.
Proof.
  intros (r1 & r2 & r3 & r4 & ->) ts r Hin. simpl in Hin.
  repeat (destruct Hin as [Hin|Hin]; [discriminate Hin|]). exact Hin.
Qed.

Ltac uncons Hg Hno :=
  let w1 := fresh "w" in
  let Ha := fresh "Ha" in
  let Hg' := fresh "Hg" in
  let Hno' := fresh "Hno" in
  destruct (genuine_uncons _ _ _ _ Hg Hno) as (w1 & Ha & Hg' & Hno');
  clear Hg Hno; rename Hg' into Hg; rename Hno' into Hno; simpl asked in Ha.

(** A failed call of the bring-up, seen from the platform: when the
    calls before it went through and the platform answers it with a
    status that fails its test, the task halts there, after the
    diagnostic of the call. *)
Lemma bringup_failure_halts (n : nat) (w w2 : W) (pre rest : list (action F))
  (a : action F) (r : cy_rslt_t) :
  configured (pre ++ a :: rest) ->
  failed (set_result r a) = true ->
  genuine w (pre ++ [set_result r a]) w2 ->
  radar_task n w = Halted w2 (pre ++ set_result r a :: diagnostic a).
Proof.
  intros Hc Hf Hg.
  assert (Hno : forall (ts : Z) (r0 : cy_rslt_t),
            ~ In (EngineProcess ts r0) (pre ++ [set_result r a])).
  { intros ts r0 Hin. apply in_app_or in Hin as [Hin|[Hin|[]]].
    - apply (configured_no_process _ Hc ts r0). apply in_or_app. left. exact Hin.
    - destruct a as [| | | | | | | | | | | | | |ts0 r1| | | |]; try discriminate Hin.
      apply (configured_no_process _ Hc ts0 r1). apply in_or_app. right. left. reflexivity. }
  destruct Hc as (r_reset & r_ldo & r_irq & r_cs & Heq).
  unfold radar_task, gpio_init, bind, call, CY_ASSERT, printf, ret.
  change (to_bool LED_STATE_OFF) with false.
  change (reset hw_cfg) with CYBSP_GPIO11.
  change (ldo_en hw_cfg) with CYBSP_GPIO5.
  change (irq hw_cfg) with CYBSP_GPIO10.
  change (spi_cs hw_cfg) with CYBSP_SPI_CS.
  do 15 (destruct pre as [|? pre];
         [simpl in Heq; injection Heq as -> ->; cbn [app set_result] in Hg, Hno |- *;
          failing_call; uncons Hg Hno; apply genuine_nil_inv in Hg; subst;
          answered; failed_test
         |simpl in Heq; injection Heq as -> Heq; cbn [app] in Hg, Hno;
          uncons Hg Hno; answered; simpl app; apply after_one_halted; try passed_test]).
  destruct pre; discriminate.
Qed.

(** A failed engine init, seen from the platform: when the ten calls
    before it went through and the platform answers the init with
    another status than success, the task prints the diagnostic and
    halts there. *)
Lemma engine_init_failure_halts (n : nat) (w w1 : W) (pre : list (action F)) :
  before_engine_init pre ->
  genuine w pre w1 ->
  fst (mtb_radar_sensing_init hw_cfg MTB_RADAR_SENSING_MASK_PRESENCE_EVENTS w1) <>
    MTB_RADAR_SENSING_SUCCESS ->
  radar_task n w =
  Halted (snd (mtb_radar_sensing_init hw_cfg MTB_RADAR_SENSING_MASK_PRESENCE_EVENTS w1))
    (pre ++
     [EngineInit hw_cfg MTB_RADAR_SENSING_MASK_PRESENCE_EVENTS
        (fst (mtb_radar_sensing_init hw_cfg MTB_RADAR_SENSING_MASK_PRESENCE_EVENTS w1));
      Printf "ifx_radar_sensing_init error - Radar Wingboard not connected?\n" []]).
Proof.
  intros (rest & Hc & Hlen) Hg Hfail.
  assert (Hrest : exists rest' : list (action F),
            rest =
            EngineInit hw_cfg MTB_RADAR_SENSING_MASK_PRESENCE_EVENTS MTB_RADAR_SENSING_SUCCESS
            :: rest').
  { destruct Hc as (r_reset & r_ldo & r_irq & r_cs & Heq).
    assert (Hd : rest = drop 10 (pre ++ rest))
      by (symmetry; apply drop_app_length'; symmetry; exact Hlen).
    rewrite Heq in Hd. simpl in Hd. eexists. exact Hd. }
  destruct Hrest as (rest' & ->).
  apply (bringup_failure_halts n w _ pre rest'
           (EngineInit hw_cfg MTB_RADAR_SENSING_MASK_PRESENCE_EVENTS MTB_RADAR_SENSING_SUCCESS)
           (fst (mtb_radar_sensing_init hw_cfg MTB_RADAR_SENSING_MASK_PRESENCE_EVENTS w1))).
  - exact Hc.
  - simpl. case_decide; [reflexivity | contradiction].
  - eapply genuine_app; [exact Hg|]. apply genuine_one. simpl.
    destruct (mtb_radar_sensing_init hw_cfg MTB_RADAR_SENSING_MASK_PRESENCE_EVENTS w1).
    reflexivity.
Qed.

(** A failed process step, seen from the platform. *)
Lemma process_failure_halts (m : nat) (w0 : W) :
  let ticks := fst (xTaskGetTickCount w0) in
  let step :=
    mtb_radar_sensing_process (timestamp_of_ticks ticks) (snd (xTaskGetTickCount w0)) in
  fst (fst step) <> MTB_RADAR_SENSING_SUCCESS ->
  exists (w3 : W) (td : list (action F)),
    deliver (snd (fst step)) (snd step) = Returned tt w3 td /\
    radar_task_loop (S m) w0 =
    Halted w3
      (TickCount ticks :: td ++
       [EngineProcess (timestamp_of_ticks ticks) (fst (fst step));
        Printf "ifx_radar_sensing_process error\n" []]).
Proof.
  intros ticks step Hfail. subst ticks step.
  simpl. unfold bind at 1, ifx_currenttime, bind at 1, call, ret.
  destruct (xTaskGetTickCount w0) as [ticks w1]. simpl in Hfail |- *.
  fold (timestamp_of_ticks ticks).
  unfold bind at 1, sensing_process.
  destruct (mtb_radar_sensing_process (timestamp_of_ticks ticks) w1) as [[r events] w2].
  simpl in Hfail |- *.
  destruct (deliver_passes events w2) as (w3 & td & Ed & _).
  exists w3, td. split; [exact Ed|].
  rewrite (bind_returned _ _ _ _ _ _ Ed). simpl.
  rewrite after_after.
  unfold bind, printf, CY_ASSERT, call_void, ret.
  destruct (decide (r <> MTB_RADAR_SENSING_SUCCESS)); [|contradiction]. simpl.
  rewrite <- app_assoc. reflexivity.
Qed.

(** C7. [radar_task] never returns, and the calls it records are the
    platform's answers. As long as it runs, the bring-up went through
    call by call and every process step succeeded; it is halted only
    at a failed call, within the bring-up or after the whole of it.
    Once the platform answers a call the task tests (mutex and LED
    initialisation, the SPI calls, the engine's init, callback
    registration, the two default-parameter sets, enable, a process
    step) with a failure, the task is halted, with that call last in
    the run but for its diagnostic, so nothing is retried. When the
    platform fails the engine's init the task prints the diagnostic
    and halts there, the init being the only engine call of the run
    (no register, set, enable or process call); when it fails a
    process step the task prints the diagnostic line and halts. *)
Theorem radar_task_failures_are_fatal (n : nat) (w : W) :
  match radar_task n w with
  | Halted w' t =>
      genuine w t w' /\
      (exists (pre : list (action F)) (a : action F),
         t = pre ++ a :: diagnostic a /\ failed a = true /\ Forall passed pre) /\
      (Forall (fun x => bringup_call x = true) t \/
       exists pre rest : list (action F), t = pre ++ rest /\ configured pre)
  | Running w' t =>
      genuine w t w' /\
      Forall passed t /\
      exists pre rest : list (action F),
        t = pre ++ rest /\ configured pre /\
        List.map snd (process_steps rest) = repeat MTB_RADAR_SENSING_SUCCESS n
  | Returned _ _ _ | Undefined _ _ => False
  end /\
  (forall (pre rest : list (action F)) (a : action F) (r : cy_rslt_t) (w2 : W),
     configured (pre ++ a :: rest) ->
     failed (set_result r a) = true ->
     genuine w (pre ++ [set_result r a]) w2 ->
     radar_task n w = Halted w2 (pre ++ set_result r a :: diagnostic a)) /\
  (forall (pre : list (action F)) (w1 : W),
     before_engine_init pre ->
     genuine w pre w1 ->
     fst (mtb_radar_sensing_init hw_cfg MTB_RADAR_SENSING_MASK_PRESENCE_EVENTS w1) <>
       MTB_RADAR_SENSING_SUCCESS ->
     radar_task n w =
     Halted (snd (mtb_radar_sensing_init hw_cfg MTB_RADAR_SENSING_MASK_PRESENCE_EVENTS w1))
       (pre ++
        [EngineInit hw_cfg MTB_RADAR_SENSING_MASK_PRESENCE_EVENTS
           (fst (mtb_radar_sensing_init hw_cfg MTB_RADAR_SENSING_MASK_PRESENCE_EVENTS w1));
         Printf "ifx_radar_sensing_init error - Radar Wingboard not connected?\n" []])) /\
  (forall (m : nat) (pre : list (action F)) (w0 : W),
     radar_task n w = after pre (radar_task_loop (S m) w0) ->
     let ticks := fst (xTaskGetTickCount w0) in
     let step :=
       mtb_radar_sensing_process (timestamp_of_ticks ticks) (snd (xTaskGetTickCount w0)) in
     fst (fst step) <> MTB_RADAR_SENSING_SUCCESS ->
     exists (w3 : W) (td : list (action F)),
       deliver (snd (fst step)) (snd step) = Returned tt w3 td /\
       radar_task n w =
       Halted w3
         (pre ++ TickCount ticks :: td ++
          [EngineProcess (timestamp_of_ticks ticks) (fst (fst step));
           Printf "ifx_radar_sensing_process error\n" []])) /\
  (forall x : action F,
     In x (calls (radar_task n w)) ->
     failed x = true ->
     exists (w' : W) (pre : list (action F)),
       radar_task n w = Halted w' (pre ++ x :: diagnostic x) /\ Forall passed pre) /\
  (forall (cfg : mtb_radar_sensing_hw_cfg_t) (mask : Z) (r : cy_rslt_t),
     In (EngineInit cfg mask r) (calls (radar_task n w)) ->
     r <> MTB_RADAR_SENSING_SUCCESS ->
     exists (w' : W) (t : list (action F)),
       radar_task n w = Halted w' t /\
       engine_calls t = [EngineInit cfg mask r] /\
       prints t =
         [("ifx_radar_sensing_init error - Radar Wingboard not connected?\n", [])]).
Proof.
  pose proof (radar_task_halts_on_failure n w) as Ho.
  pose proof (radar_task_genuine n w) as Hg. unfold genuine_run in Hg.
  split; [|split; [|split; [|split; [|split]]]].
  - destruct (radar_task_shape n w) as [(w' & t & E & Hb)|(w1 & pre & E & Hpre)].
    + rewrite E in Ho, Hg |- *. simpl in Ho, Hg.
      split; [exact Hg|]. split; [apply stops_at_failure_inv; exact Ho | left; exact Hb].
    + pose proof (radar_task_loop_pace n w1) as [_ Hpace].
      rewrite E in Ho, Hg |- *.
      destruct (radar_task_loop n w1) as [u w2 t|w2 t|w2 t|w2 t];
        simpl in Ho, Hg, Hpace |- *; try contradiction.
      * split; [exact Hg|]. split; [apply stops_at_failure_inv; exact Ho|].
        right. exists pre, t. split; [reflexivity | exact Hpre].
      * split; [exact Hg|]. split; [exact Ho|].
        exists pre, t. split; [reflexivity|]. split; [exact Hpre | apply Hpace].
  - intros pre rest a r w2. apply bringup_failure_halts.
  - intros pre w1. apply engine_init_failure_halts.
  - intros m pre w0 E ticks step Hfail.
    destruct (process_failure_halts m w0 Hfail) as (w3 & td & Ed & El).
    exists w3, td. split; [exact Ed|].
    rewrite E. fold ticks step in El. rewrite El. reflexivity.
  - intros x Hin Hx. apply failed_call_is_last; assumption.
  - apply radar_task_init_failure_is_final.
Qed.

End FatalFailures.

(** ** The claims on the bench *)

Section ClaimsOnTheBench.

Import Bench.

Lemma line_editor_contract_witness :
  0 < 256 /\
  256 <= Z.of_nat (length (scratch 256)) /\
  exists (line' : list uint8_t) (w' : bench) (t : list (action Q)),
    terminal_ui_readline (scratch 256) 256 (typing ["1"; "."; "5"; CR]%char) =
    Returned line' w' t /\
    genuine (typing ["1"; "."; "5"; CR]%char) t w' /\
    received t = ["1"; "."; "5"; CR]%char /\
    echoed t = ["1"; "."; "5"; CR; LF]%char /\
    take 3 line' = ["1"; "."; "5"]%char /\
    line' !! 3%nat = Some NUL /\
    c_string line' = "1.5".
Proof.
  split; [lia|]. split; [simpl; lia|].
  destruct (line_editor_contract (scratch 256) 256 (typing ["1"; "."; "5"; CR]%char))
    as (line' & w' & t & Hrun & Hg & _ & He & Ht & Hn & _ & _ & _ & Hs); [lia | simpl; lia |].
  destruct Hs as [Hr Hc]; [lia | simpl; repeat split |].
  rewrite Hr in He, Ht, Hn.
  exists line', w', t. repeat split; assumption.
Defined.

(** A bench whose engine refuses the value typed. *)
Lemma set_command_reports_and_continues_witness :
  ("r"%char = "r"%char \/ "r"%char = "s"%char) /\
  IFX_RADAR_SENSING_VALUE_MAXLENGTH <= Z.of_nat (length (scratch 256)) /\
  cyhal_uart_getc "x"%char 0
    {| uart_rx := ["r"; "9"; "9"; CR]%char; gate := []; engine := [1]; pending := [] |} =
  ((CY_RSLT_SUCCESS, "r"%char),
   {| uart_rx := ["9"; "9"; CR]%char; gate := []; engine := [1]; pending := [] |}) /\
  exists (value' : list uint8_t) (w2 : bench) (t : list (action Q)),
    terminal_ui_readline (scratch 256) IFX_RADAR_SENSING_VALUE_MAXLENGTH
      {| uart_rx := ["9"; "9"; CR]%char; gate := []; engine := [1]; pending := [] |} =
    Returned value' w2 t /\
    c_string value' = "99" /\
    mtb_radar_sensing_set_parameter "radar_presence_range_max" "99" w2 = (1, idle) /\
    radar_presence_terminal_ui_loop 2 (scratch 256) "x"%char
      {| uart_rx := ["r"; "9"; "9"; CR]%char; gate := []; engine := [1]; pending := [] |} =
    after
      (UartGetc 0 0 "r"%char :: Printf "Enter range [0.66-10.2]m, press enter\n" [] :: t ++
       [EngineSetParameter "radar_presence_range_max" "99" 1; Printf "ERROR\n" []])
      (radar_presence_terminal_ui_loop 1 value' NUL idle).
Proof.
  split; [left; reflexivity|].
  split; [unfold IFX_RADAR_SENSING_VALUE_MAXLENGTH; simpl; lia|].
  split; [reflexivity|].
  destruct (set_command_reports_and_continues 1 "r"%char "x"%char (scratch 256)
              {| uart_rx := ["r"; "9"; "9"; CR]%char; gate := []; engine := [1]; pending := [] |}
              {| uart_rx := ["9"; "9"; CR]%char; gate := []; engine := [1]; pending := [] |})
    as (value' & w2 & t & Hrun & Hloop & _);
    [left; reflexivity | unfold IFX_RADAR_SENSING_VALUE_MAXLENGTH; simpl; lia | reflexivity |].
  cbv zeta in Hloop.
  assert (Hv : c_string value' = "99" /\ w2 = {| uart_rx := []; gate := []; engine := [1]; pending := [] |}).
  { vm_compute in Hrun. injection Hrun as <- <- _. split; reflexivity. }
  destruct Hv as [Hv ->].
  exists value', {| uart_rx := []; gate := []; engine := [1]; pending := [] |}, t.
  split; [exact Hrun|]. split; [exact Hv|]. split; [reflexivity|].
  rewrite Hv in Hloop. exact Hloop.
Defined.

Lemma radar_task_failures_are_fatal_witness :
  radar_task 3 (engine_answers [1]) =
  Halted idle
    ([MutexInit 0;
      GpioInit LED_RGB_RED CYHAL_GPIO_DIR_OUTPUT CYHAL_GPIO_DRIVE_STRONG false 0;
      GpioInit LED_RGB_GREEN CYHAL_GPIO_DIR_OUTPUT CYHAL_GPIO_DRIVE_STRONG false 0;
      GpioInit LED_RGB_BLUE CYHAL_GPIO_DIR_OUTPUT CYHAL_GPIO_DRIVE_STRONG false 0;
      GpioInit CYBSP_GPIO11 CYHAL_GPIO_DIR_OUTPUT CYHAL_GPIO_DRIVE_STRONG true 0;
      GpioInit CYBSP_GPIO5 CYHAL_GPIO_DIR_OUTPUT CYHAL_GPIO_DRIVE_STRONG true 0;
      GpioInit CYBSP_GPIO10 CYHAL_GPIO_DIR_INPUT CYHAL_GPIO_DRIVE_PULLDOWN false 0;
      GpioInit CYBSP_SPI_CS CYHAL_GPIO_DIR_OUTPUT CYHAL_GPIO_DRIVE_STRONG true 0;
      SpiInit 8 0;
      SpiSetFrequency SPI_FREQUENCY 0] ++
     [EngineInit hw_cfg 1 1;
      Printf (F := Q) "ifx_radar_sensing_init error - Radar Wingboard not connected?\n" []]) /\
  (exists (pre td : list (action Q)) (w3 : bench),
     configured pre /\
     radar_task 3 (engine_answers [0; 0; 0; 0; 0; 7]) =
     Halted w3
       (pre ++ TickCount 0 :: td ++
        [EngineProcess 0 7; Printf "ifx_radar_sensing_process error\n" []])) /\
  radar_task 3 (engine_answers [0; 0; 0; 0; 5]) =
  Halted idle
    ([MutexInit 0;
      GpioInit LED_RGB_RED CYHAL_GPIO_DIR_OUTPUT CYHAL_GPIO_DRIVE_STRONG false 0;
      GpioInit LED_RGB_GREEN CYHAL_GPIO_DIR_OUTPUT CYHAL_GPIO_DRIVE_STRONG false 0;
      GpioInit LED_RGB_BLUE CYHAL_GPIO_DIR_OUTPUT CYHAL_GPIO_DRIVE_STRONG false 0;
      GpioInit CYBSP_GPIO11 CYHAL_GPIO_DIR_OUTPUT CYHAL_GPIO_DRIVE_STRONG true 0;
      GpioInit CYBSP_GPIO5 CYHAL_GPIO_DIR_OUTPUT CYHAL_GPIO_DRIVE_STRONG true 0;
      GpioInit CYBSP_GPIO10 CYHAL_GPIO_DIR_INPUT CYHAL_GPIO_DRIVE_PULLDOWN false 0;
      GpioInit CYBSP_SPI_CS CYHAL_GPIO_DIR_OUTPUT CYHAL_GPIO_DRIVE_STRONG true 0;
      SpiInit 8 0;
      SpiSetFrequency SPI_FREQUENCY 0;
      EngineInit hw_cfg 1 0;
      EngineRegisterCallback 0;
      EngineSetParameter "radar_presence_range_max" "1.0" 0;
      EngineSetParameter "radar_presence_sensitivity" "medium" 0] ++
     [EngineEnable (F := Q) 5]).
Proof.
  destruct (radar_task_failures_are_fatal 3 (engine_answers [1])) as (_ & _ & Hinit & _).
  destruct (radar_task_failures_are_fatal 3 (engine_answers [0; 0; 0; 0; 0; 7]))
    as (_ & _ & _ & Hstep & _).
  destruct (radar_task_failures_are_fatal 3 (engine_answers [0; 0; 0; 0; 5]))
    as (_ & Hcall & _).
  split; [|split].
  - apply (Hinit
             [MutexInit 0;
              GpioInit LED_RGB_RED CYHAL_GPIO_DIR_OUTPUT CYHAL_GPIO_DRIVE_STRONG false 0;
              GpioInit LED_RGB_GREEN CYHAL_GPIO_DIR_OUTPUT CYHAL_GPIO_DRIVE_STRONG false 0;
              GpioInit LED_RGB_BLUE CYHAL_GPIO_DIR_OUTPUT CYHAL_GPIO_DRIVE_STRONG false 0;
              GpioInit CYBSP_GPIO11 CYHAL_GPIO_DIR_OUTPUT CYHAL_GPIO_DRIVE_STRONG true 0;
              GpioInit CYBSP_GPIO5 CYHAL_GPIO_DIR_OUTPUT CYHAL_GPIO_DRIVE_STRONG true 0;
              GpioInit CYBSP_GPIO10 CYHAL_GPIO_DIR_INPUT CYHAL_GPIO_DRIVE_PULLDOWN false 0;
              GpioInit CYBSP_SPI_CS CYHAL_GPIO_DIR_OUTPUT CYHAL_GPIO_DRIVE_STRONG true 0;
              SpiInit 8 0;
              SpiSetFrequency SPI_FREQUENCY 0]
             (engine_answers [1])).
    + exists [EngineInit hw_cfg 1 0;
              EngineRegisterCallback 0;
              EngineSetParameter "radar_presence_range_max" "1.0" 0;
              EngineSetParameter "radar_presence_sensitivity" "medium" 0;
              EngineEnable 0].
      split; [exists 0, 0, 0, 0; reflexivity | reflexivity].
    + repeat (eapply genuine_call; [reflexivity|]). apply genuine_nil.
    + simpl. lia.
  - destruct (Hstep 2%nat
                [MutexInit 0;
                 GpioInit LED_RGB_RED CYHAL_GPIO_DIR_OUTPUT CYHAL_GPIO_DRIVE_STRONG false 0;
                 GpioInit LED_RGB_GREEN CYHAL_GPIO_DIR_OUTPUT CYHAL_GPIO_DRIVE_STRONG false 0;
                 GpioInit LED_RGB_BLUE CYHAL_GPIO_DIR_OUTPUT CYHAL_GPIO_DRIVE_STRONG false 0;
                 GpioInit CYBSP_GPIO11 CYHAL_GPIO_DIR_OUTPUT CYHAL_GPIO_DRIVE_STRONG true 0;
                 GpioInit CYBSP_GPIO5 CYHAL_GPIO_DIR_OUTPUT CYHAL_GPIO_DRIVE_STRONG true 0;
                 GpioInit CYBSP_GPIO10 CYHAL_GPIO_DIR_INPUT CYHAL_GPIO_DRIVE_PULLDOWN false 0;
                 GpioInit CYBSP_SPI_CS CYHAL_GPIO_DIR_OUTPUT CYHAL_GPIO_DRIVE_STRONG true 0;
                 SpiInit 8 0;
                 SpiSetFrequency SPI_FREQUENCY 0;
                 EngineInit hw_cfg 1 0;
                 EngineRegisterCallback 0;
                 EngineSetParameter "radar_presence_range_max" "1.0" 0;
                 EngineSetParameter "radar_presence_sensitivity" "medium" 0;
                 EngineEnable 0]
                (engine_answers [7]))
      as (w3 & td & _ & Hhalt); [reflexivity | simpl; lia |].
    eexists _, td, w3. split; [|exact Hhalt].
    exists 0, 0, 0, 0. reflexivity.
  - apply (Hcall
             [MutexInit 0;
              GpioInit LED_RGB_RED CYHAL_GPIO_DIR_OUTPUT CYHAL_GPIO_DRIVE_STRONG false 0;
              GpioInit LED_RGB_GREEN CYHAL_GPIO_DIR_OUTPUT CYHAL_GPIO_DRIVE_STRONG false 0;
              GpioInit LED_RGB_BLUE CYHAL_GPIO_DIR_OUTPUT CYHAL_GPIO_DRIVE_STRONG false 0;
              GpioInit CYBSP_GPIO11 CYHAL_GPIO_DIR_OUTPUT CYHAL_GPIO_DRIVE_STRONG true 0;
              GpioInit CYBSP_GPIO5 CYHAL_GPIO_DIR_OUTPUT CYHAL_GPIO_DRIVE_STRONG true 0;
              GpioInit CYBSP_GPIO10 CYHAL_GPIO_DIR_INPUT CYHAL_GPIO_DRIVE_PULLDOWN false 0;
              GpioInit CYBSP_SPI_CS CYHAL_GPIO_DIR_OUTPUT CYHAL_GPIO_DRIVE_STRONG true 0;
              SpiInit 8 0;
              SpiSetFrequency SPI_FREQUENCY 0;
              EngineInit hw_cfg 1 0;
              EngineRegisterCallback 0;
              EngineSetParameter "radar_presence_range_max" "1.0" 0;
              EngineSetParameter "radar_presence_sensitivity" "medium" 0]
             [] (EngineEnable 0) 5 idle).
    + exists 0, 0, 0, 0. reflexivity.
    + reflexivity.
    + repeat (eapply genuine_call; [reflexivity|]). apply genuine_nil.
Defined.


End ClaimsOnTheBench.

(** ** On the bench with binary32 floats and a running clock *)

Section OnTheSecondBench.

Import Bench32.

Lemma bench32_is_binary32 : binary32_arith bench32_platform.
Proof. repeat split. Qed.


Lemma presence_out_event_witness :
  binary32_arith bench32_platform /\
  radar_sensing_callback MTB_RADAR_SENSING_EVENT_PRESENCE_OUT presence_out_info
    (busy_at_tick 425) =
    Returned tt (at_tick 425)
      [GpioWrite LED_RGB_RED false; GpioWrite LED_RGB_GREEN true; MutexGet 0 1] /\
  console_text "%.3f: Presence OUT\n" [ArgFloat (S754_finite false 8912896 (-21))] =
    Some "4.250: Presence OUT\n" /\
  decimals 3 "4.250".
Proof.
  split; [exact bench32_is_binary32|].
  destruct (presence_out_event (P := bench32_platform) presence_out_info (busy_at_tick 425)
              bench32_is_binary32)
    as (Hrun & Htext & _ & H1).
  split; [exact Hrun|].
  split; [exact Htext | exact (H1 eq_refl)].
Defined.


Lemma presence_in_then_out_witness :
  deliver [(MTB_RADAR_SENSING_EVENT_PRESENCE_IN, presence_in_info);
           (MTB_RADAR_SENSING_EVENT_PRESENCE_OUT, presence_out_info)] (at_tick 150) =
  Returned tt (at_tick 150)
    ([GpioWrite LED_RGB_RED true; GpioWrite LED_RGB_GREEN false; MutexGet 0 0;
      Printf "%.3f: Presence IN %.2f-%.2f\n"
        [ArgFloat (S754_finite false 12582912 (-23));
         ArgFloat (S754_finite false 14260634 (-23));
         ArgFloat (S754_finite false 9646899 (-22))];
      MutexRelease 0] ++
     [GpioWrite LED_RGB_RED false; GpioWrite LED_RGB_GREEN true; MutexGet 0 0;
      Printf "%.3f: Presence OUT\n" [ArgFloat (S754_finite false 8912896 (-21))];
      MutexRelease 0]) /\
  deliver [(MTB_RADAR_SENSING_EVENT_PRESENCE_IN, presence_in_info);
           (MTB_RADAR_SENSING_EVENT_PRESENCE_OUT, presence_out_info)] (busy_at_tick 150) =
  Returned tt (at_tick 150)
    ([GpioWrite LED_RGB_RED true; GpioWrite LED_RGB_GREEN false; MutexGet 0 1] ++
     [GpioWrite LED_RGB_RED false; GpioWrite LED_RGB_GREEN true; MutexGet 0 0;
      Printf "%.3f: Presence OUT\n" [ArgFloat (S754_finite false 8912896 (-21))];
      MutexRelease 0]).
Proof.
  destruct (presence_in_then_out (P := bench32_platform) presence_in_info presence_out_info
              (at_tick 150)) as (_ & _ & Hfree & _).
  destruct (presence_in_then_out (P := bench32_platform) presence_in_info presence_out_info
              (busy_at_tick 150)) as (_ & _ & Hbusy & _).
  split; [exact Hfree | exact Hbusy].
Defined.

Lemma ifx_currenttime_exact_witness :
  xTaskGetTickCount (at_tick 3000000000) = (3000000000, at_tick 3000000000) /\
  0 <= 3000000000 < 2 ^ 32 /\
  0 <= portTICK_PERIOD_MS < 2 ^ 32 /\
  ifx_currenttime (at_tick 3000000000) =
    Returned 30000000000 (at_tick 3000000000) [TickCount (F := spec_float) 3000000000] /\
  2 ^ 32 <= 30000000000 /\
  (3000000000 * 10) mod 2 ^ 32 = 4230196224.
Proof.
  split; [reflexivity|]. split; [lia|]. split; [simpl; lia|].
  split; [|split; [lia | reflexivity]].
  apply (ifx_currenttime_exact (P := bench32_platform) (at_tick 3000000000)
           (at_tick 3000000000) 3000000000); [reflexivity | lia | simpl; lia].
Defined.


End OnTheSecondBench.
